(** * History study assistant: cache, retry and score logic

    A shallow embedding of the AI-client module (two revisions of
    [geminiService]) and of the quiz, progress and wrong-question logic of
    the [App] component (two revisions), with the properties stated about
    them.

    Source files and the modules that embed them:
    - [src/unnamed/part_000]  the service with retry and backoff: [ServiceBackoff]
    - [src/unnamed/part_001]  the service with the trends time stamp: [ServiceTimestamp]
    - [src/unnamed/part_002]  the record types, and the App with the error
                              banner: [AppBanner]
    - [src/unnamed/part_003]  the App with hover prefetch: [AppPrefetch]

    How the program is read:
    - the browser and the component are one record, [World]: local
      storage as a map from strings to strings, the clock, the console,
      and the [useState]/[useRef] cells of [App];
    - what the platform provides ([JSON.parse], [JSON.stringify],
      [parseInt], number formatting, [trim]) is a parameter, the classes
      [JSON] and [Builtins]; [Math.round] and the division and
      multiplication of the score are computed on binary64 floats;
    - an async function is a [Task]: from a world it runs to its first
      [await] and yields a [Promise] that waits for a reply of the AI
      service or for a timer; [run] answers every [await] at once (one
      function, nothing in between), and the event loop [Loop] keeps the
      pending promises of several calls side by side;
    - [retryWithBackoff] is written once, over the interface
      [AsyncMonad]; tasks are one instance of it and the tracing reading
      [Traced], which records calls and sleeps, is another. *)

From Stdlib Require Import ZArith Lia Bool List Ascii.
From Stdlib Require Import PrimFloat SpecFloat FloatOps Uint63.
From stdpp Require Import base decidable option list gmap strings pretty.

Open Scope Z_scope.

(** ** The JavaScript platform *)

Module JS.

(** A thrown value, as the code inspects it: [e?.message]. *)
Record Error := { message : option string }.

(** The completion of a call: a value, or a thrown error. *)
Inductive res (A : Type) : Type :=
| Ok (a : A)
| Err (e : Error).
Arguments Ok {A} a.
Arguments Err {A} e.

(** [String.prototype.includes]. *)
Definition includes (s pat : string) : bool :=
  match String.index 0 pat s with
  | Some _ => true
  | None => false
  end.

(** [e?.message?.includes(pat)]: [undefined], which is falsy, when there
    is no message. *)
Definition message_includes (e : Error) (pat : string) : bool :=
  match message e with
  | Some m => includes m pat
  | None => false
  end.

(** A count held in a JavaScript number (a binary64 float; exact below
    2^53, and counts of array elements stay below 2^32). *)
Definition Number (n : Z) : float := PrimFloat.of_uint63 (Uint63.of_Z n).

(** [Math.round]: the nearest integer, ties towards plus infinity,
    computed exactly from the mantissa and exponent of the float. Zero
    gives 0; infinities and [NaN], which no quotient of two counts with a
    positive divisor produces, are not integers and read as 0 here. *)
Definition Math_round (x : float) : Z :=
  match Prim2SF x with
  | S754_finite s m e =>
      let num := if s then - Z.pos m else Z.pos m in
      if 0 <=? e then num * 2 ^ e
      else (2 * num + 2 ^ (- e)) / 2 ^ (1 - e)
  | _ => 0
  end.

(** [JSON.stringify] and [JSON.parse] at the type a call site gives to
    the value ([getCachedData<T>]); [JSON.parse] throws on malformed
    text, and the empty string is malformed. *)
Class JSON (T : Type) := {
  JSON_stringify : T -> string;
  JSON_parse : string -> res T;
  JSON_parse_empty : forall v, JSON_parse "" <> Ok v
}.

(** Truthiness of a value in a condition ([if (cached)]). *)
Class Truthy (T : Type) := truthy : T -> bool.

(** A non-empty string is truthy. *)
Definition string_truthy (s : string) : bool :=
  match s with
  | EmptyString => false
  | String _ _ => true
  end.

(** Number and date formatting, number parsing, string trimming.
    [parseInt] gives [None] for [NaN]. *)
Class Builtins := {
  Number_toString : Z -> string;
  parseInt : string -> option Z;
  String_trim : string -> string;
  Date_toISOString : Z -> string
}.

End JS.
Export JS.

#[export] Instance string_Truthy : Truthy string := string_truthy.
(** Arrays and objects are always truthy. *)
#[export] Instance list_Truthy {A} : Truthy (list A) := fun _ => true.

(** ** The record types ([types.ts], at the head of part_002) *)

Module Lesson.
Record t := {
  id : Z;
  title : string;
  period : string;
  content : string;
  keyConcepts : list string
}.
End Lesson.

Inductive QuestionType := choice | material.

Module Question.
Record t := {
  id : string;
  type : QuestionType;
  stem : string;
  options : option (list string);
  answer : string;
  analysis : string;
  material : option string;
  hint : option string
}.
End Question.

(** [types.ts] declares both fields as strings; the service fills them
    from [chunk.web?.title] and [chunk.web?.uri], which may be
    [undefined], and keeps the links where both are truthy. *)
Module SearchResult.
Record t := {
  title : option string;
  uri : option string
}.
End SearchResult.

Record UserProgress := {
  userId : string;
  userName : string;
  completedLessons : list Z;
  quizScores : gmap Z Z;
  wrongQuestions : list Question.t;
  lastActive : string
}.

(** The value [searchGuangzhouExamTrends] returns and caches. *)
Record Trends := {
  trends_text : string;
  trends_links : list SearchResult.t
}.

#[export] Instance Trends_Truthy : Truthy Trends := fun _ => true.

(** ** The AI service, as this program sees it *)

(** The three requests the client sends with [ai.models.generateContent];
    the constructor stands for the fixed prompt text and carries what is
    spliced into it. *)
Inductive Request :=
| QuizPrompt (content : string) (fingerprint : option Z)
| MindmapPrompt (content : string)
| TrendsPrompt.

Record WebSource := {
  web_title : option string;
  web_uri : option string
}.

Record GroundingChunk := { web : option WebSource }.

(** [response.text] and
    [response.candidates?.[0]?.groundingMetadata?.groundingChunks]. *)
Record Response := {
  text : option string;
  groundingChunks : option (list GroundingChunk)
}.

(** ** Browser and component state *)

Inductive Tab := TabStudy | TabPractice | TabTrends | TabProfile | TabWrong.

Inductive ReviewMode := ModeSummary | ModeMindmap.

(** What [console.warn] and [console.error] receive. *)
Inductive ConsoleEntry :=
| Warn (delay : Z)
| Error_ (label : string) (e : Error).

(** The browser's local storage and clock, and the state the [App]
    component holds in [useState] and [useRef]. [apiError] belongs to
    part_002 only and [prefetchQueue] to part_003 only. *)
Record World := {
  localStorage : gmap string string;
  clock : Z;
  console : list ConsoleEntry;
  activeTab : Tab;
  user : option UserProgress;
  loginName : string;
  selectedLesson : option Lesson.t;
  reviewMode : ReviewMode;
  mindmapContent : string;
  questions : list Question.t;
  loading : bool;
  apiError : option string;
  trends : option Trends;
  userAnswers : gmap string string;
  score : option Z;
  visibleHints : gmap string bool;
  prefetchQueue : gset Z
}.

Definition set_localStorage (v : gmap string string) (w : World) : World :=
  {| localStorage := v; clock := clock w; console := console w;
     activeTab := activeTab w; user := user w; loginName := loginName w;
     selectedLesson := selectedLesson w; reviewMode := reviewMode w;
     mindmapContent := mindmapContent w; questions := questions w;
     loading := loading w; apiError := apiError w; trends := trends w;
     userAnswers := userAnswers w; score := score w; visibleHints := visibleHints w;
     prefetchQueue := prefetchQueue w |}.

Definition set_clock (v : Z) (w : World) : World :=
  {| localStorage := localStorage w; clock := v; console := console w;
     activeTab := activeTab w; user := user w; loginName := loginName w;
     selectedLesson := selectedLesson w; reviewMode := reviewMode w;
     mindmapContent := mindmapContent w; questions := questions w;
     loading := loading w; apiError := apiError w; trends := trends w;
     userAnswers := userAnswers w; score := score w; visibleHints := visibleHints w;
     prefetchQueue := prefetchQueue w |}.

Definition set_console (v : list ConsoleEntry) (w : World) : World :=
  {| localStorage := localStorage w; clock := clock w; console := v;
     activeTab := activeTab w; user := user w; loginName := loginName w;
     selectedLesson := selectedLesson w; reviewMode := reviewMode w;
     mindmapContent := mindmapContent w; questions := questions w;
     loading := loading w; apiError := apiError w; trends := trends w;
     userAnswers := userAnswers w; score := score w; visibleHints := visibleHints w;
     prefetchQueue := prefetchQueue w |}.

Definition set_activeTab (v : Tab) (w : World) : World :=
  {| localStorage := localStorage w; clock := clock w; console := console w;
     activeTab := v; user := user w; loginName := loginName w;
     selectedLesson := selectedLesson w; reviewMode := reviewMode w;
     mindmapContent := mindmapContent w; questions := questions w;
     loading := loading w; apiError := apiError w; trends := trends w;
     userAnswers := userAnswers w; score := score w; visibleHints := visibleHints w;
     prefetchQueue := prefetchQueue w |}.

Definition set_user (v : option UserProgress) (w : World) : World :=
  {| localStorage := localStorage w; clock := clock w; console := console w;
     activeTab := activeTab w; user := v; loginName := loginName w;
     selectedLesson := selectedLesson w; reviewMode := reviewMode w;
     mindmapContent := mindmapContent w; questions := questions w;
     loading := loading w; apiError := apiError w; trends := trends w;
     userAnswers := userAnswers w; score := score w; visibleHints := visibleHints w;
     prefetchQueue := prefetchQueue w |}.

Definition set_loginName (v : string) (w : World) : World :=
  {| localStorage := localStorage w; clock := clock w; console := console w;
     activeTab := activeTab w; user := user w; loginName := v;
     selectedLesson := selectedLesson w; reviewMode := reviewMode w;
     mindmapContent := mindmapContent w; questions := questions w;
     loading := loading w; apiError := apiError w; trends := trends w;
     userAnswers := userAnswers w; score := score w; visibleHints := visibleHints w;
     prefetchQueue := prefetchQueue w |}.

Definition set_selectedLesson (v : option Lesson.t) (w : World) : World :=
  {| localStorage := localStorage w; clock := clock w; console := console w;
     activeTab := activeTab w; user := user w; loginName := loginName w;
     selectedLesson := v; reviewMode := reviewMode w;
     mindmapContent := mindmapContent w; questions := questions w;
     loading := loading w; apiError := apiError w; trends := trends w;
     userAnswers := userAnswers w; score := score w; visibleHints := visibleHints w;
     prefetchQueue := prefetchQueue w |}.

Definition set_reviewMode (v : ReviewMode) (w : World) : World :=
  {| localStorage := localStorage w; clock := clock w; console := console w;
     activeTab := activeTab w; user := user w; loginName := loginName w;
     selectedLesson := selectedLesson w; reviewMode := v;
     mindmapContent := mindmapContent w; questions := questions w;
     loading := loading w; apiError := apiError w; trends := trends w;
     userAnswers := userAnswers w; score := score w; visibleHints := visibleHints w;
     prefetchQueue := prefetchQueue w |}.

Definition set_mindmapContent (v : string) (w : World) : World :=
  {| localStorage := localStorage w; clock := clock w; console := console w;
     activeTab := activeTab w; user := user w; loginName := loginName w;
     selectedLesson := selectedLesson w; reviewMode := reviewMode w;
     mindmapContent := v; questions := questions w; loading := loading w;
     apiError := apiError w; trends := trends w; userAnswers := userAnswers w;
     score := score w; visibleHints := visibleHints w;
     prefetchQueue := prefetchQueue w |}.

Definition set_questions (v : list Question.t) (w : World) : World :=
  {| localStorage := localStorage w; clock := clock w; console := console w;
     activeTab := activeTab w; user := user w; loginName := loginName w;
     selectedLesson := selectedLesson w; reviewMode := reviewMode w;
     mindmapContent := mindmapContent w; questions := v; loading := loading w;
     apiError := apiError w; trends := trends w; userAnswers := userAnswers w;
     score := score w; visibleHints := visibleHints w;
     prefetchQueue := prefetchQueue w |}.

Definition set_loading (v : bool) (w : World) : World :=
  {| localStorage := localStorage w; clock := clock w; console := console w;
     activeTab := activeTab w; user := user w; loginName := loginName w;
     selectedLesson := selectedLesson w; reviewMode := reviewMode w;
     mindmapContent := mindmapContent w; questions := questions w; loading := v;
     apiError := apiError w; trends := trends w; userAnswers := userAnswers w;
     score := score w; visibleHints := visibleHints w;
     prefetchQueue := prefetchQueue w |}.

Definition set_apiError (v : option string) (w : World) : World :=
  {| localStorage := localStorage w; clock := clock w; console := console w;
     activeTab := activeTab w; user := user w; loginName := loginName w;
     selectedLesson := selectedLesson w; reviewMode := reviewMode w;
     mindmapContent := mindmapContent w; questions := questions w;
     loading := loading w; apiError := v; trends := trends w;
     userAnswers := userAnswers w; score := score w; visibleHints := visibleHints w;
     prefetchQueue := prefetchQueue w |}.

Definition set_trends (v : option Trends) (w : World) : World :=
  {| localStorage := localStorage w; clock := clock w; console := console w;
     activeTab := activeTab w; user := user w; loginName := loginName w;
     selectedLesson := selectedLesson w; reviewMode := reviewMode w;
     mindmapContent := mindmapContent w; questions := questions w;
     loading := loading w; apiError := apiError w; trends := v;
     userAnswers := userAnswers w; score := score w; visibleHints := visibleHints w;
     prefetchQueue := prefetchQueue w |}.

Definition set_userAnswers (v : gmap string string) (w : World) : World :=
  {| localStorage := localStorage w; clock := clock w; console := console w;
     activeTab := activeTab w; user := user w; loginName := loginName w;
     selectedLesson := selectedLesson w; reviewMode := reviewMode w;
     mindmapContent := mindmapContent w; questions := questions w;
     loading := loading w; apiError := apiError w; trends := trends w;
     userAnswers := v; score := score w; visibleHints := visibleHints w;
     prefetchQueue := prefetchQueue w |}.

Definition set_score (v : option Z) (w : World) : World :=
  {| localStorage := localStorage w; clock := clock w; console := console w;
     activeTab := activeTab w; user := user w; loginName := loginName w;
     selectedLesson := selectedLesson w; reviewMode := reviewMode w;
     mindmapContent := mindmapContent w; questions := questions w;
     loading := loading w; apiError := apiError w; trends := trends w;
     userAnswers := userAnswers w; score := v; visibleHints := visibleHints w;
     prefetchQueue := prefetchQueue w |}.

Definition set_visibleHints (v : gmap string bool) (w : World) : World :=
  {| localStorage := localStorage w; clock := clock w; console := console w;
     activeTab := activeTab w; user := user w; loginName := loginName w;
     selectedLesson := selectedLesson w; reviewMode := reviewMode w;
     mindmapContent := mindmapContent w; questions := questions w;
     loading := loading w; apiError := apiError w; trends := trends w;
     userAnswers := userAnswers w; score := score w; visibleHints := v;
     prefetchQueue := prefetchQueue w |}.

Definition set_prefetchQueue (v : gset Z) (w : World) : World :=
  {| localStorage := localStorage w; clock := clock w; console := console w;
     activeTab := activeTab w; user := user w; loginName := loginName w;
     selectedLesson := selectedLesson w; reviewMode := reviewMode w;
     mindmapContent := mindmapContent w; questions := questions w;
     loading := loading w; apiError := apiError w; trends := trends w;
     userAnswers := userAnswers w; score := score w; visibleHints := visibleHints w;
     prefetchQueue := v |}.

(** ** Asynchronous functions *)

(** A promise in progress. An async function runs until it returns or
    throws ([Settled]) or reaches an [await] on a request to the AI
    service or on a timer; it hands back the world as it has left it and
    is resumed, later, in the world of that moment. *)
Inductive Promise (A : Type) : Type :=
| Settled (r : res A) (w : World)
| AwaitGenerate (rq : Request) (w : World) (k : res Response -> World -> Promise A)
| AwaitTimeout (ms : Z) (w : World) (k : World -> Promise A).
Arguments Settled {A} r w.
Arguments AwaitGenerate {A} rq w k.
Arguments AwaitTimeout {A} ms w k.

(** The body of an async function, not yet started. *)
Definition Task (A : Type) : Type := World -> Promise A.

(** What the code of an async function is made of: [return], [throw],
    [await], [try]/[catch], waiting on [setTimeout], and [console.warn]. *)
Class AsyncMonad (M : Type -> Type) := {
  resolve : forall {A}, A -> M A;
  reject : forall {A}, Error -> M A;
  await : forall {A B}, M A -> (A -> M B) -> M B;
  try_catch : forall {A}, M A -> (Error -> M A) -> M A;
  sleep : Z -> M unit;
  console_warn : Z -> M unit
}.

Declare Scope async_scope.
Delimit Scope async_scope with async.
Notation "x <- m ;; k" := (await m (fun x => k))
  (at level 20, m at level 99, k at level 200, only parsing) : async_scope.
Notation "m ;; k" := (await m (fun _ => k))
  (at level 100, k at level 200, only parsing, right associativity) : async_scope.
Open Scope async_scope.

Fixpoint Promise_then {A B} (p : Promise A) (f : A -> Task B) : Promise B :=
  match p with
  | Settled (Ok a) w => f a w
  | Settled (Err e) w => Settled (Err e) w
  | AwaitGenerate rq w k => AwaitGenerate rq w (fun r w' => Promise_then (k r w') f)
  | AwaitTimeout ms w k => AwaitTimeout ms w (fun w' => Promise_then (k w') f)
  end.

Fixpoint Promise_catch {A} (p : Promise A) (h : Error -> Task A) : Promise A :=
  match p with
  | Settled (Ok a) w => Settled (Ok a) w
  | Settled (Err e) w => h e w
  | AwaitGenerate rq w k => AwaitGenerate rq w (fun r w' => Promise_catch (k r w') h)
  | AwaitTimeout ms w k => AwaitTimeout ms w (fun w' => Promise_catch (k w') h)
  end.

(** [try { ... } finally { f }] where [f] only updates state. *)
Fixpoint Promise_finally {A} (p : Promise A) (f : World -> World) : Promise A :=
  match p with
  | Settled r w => Settled r (f w)
  | AwaitGenerate rq w k => AwaitGenerate rq w (fun r w' => Promise_finally (k r w') f)
  | AwaitTimeout ms w k => AwaitTimeout ms w (fun w' => Promise_finally (k w') f)
  end.

#[export] Instance Task_AsyncMonad : AsyncMonad Task := {
  resolve := fun A a w => Settled (Ok a) w;
  reject := fun A e w => Settled (Err e) w;
  await := fun A B m f w => Promise_then (m w) f;
  try_catch := fun A m h w => Promise_catch (m w) h;
  sleep := fun ms w => AwaitTimeout ms w (fun w' => Settled (Ok tt) w');
  console_warn := fun d w => Settled (Ok tt) (set_console (console w ++ [Warn d]) w)
}.

(** Synchronous steps inside an async function. *)
Definition read {A} (f : World -> A) : Task A := fun w => Settled (Ok (f w)) w.
Definition update (f : World -> World) : Task unit := fun w => Settled (Ok tt) (f w).
Definition attempt {A} (f : World -> res A) : Task A := fun w => Settled (f w) w.
Definition finally {A} (m : Task A) (f : World -> World) : Task A :=
  fun w => Promise_finally (m w) f.

(** [await ai.models.generateContent(rq)]. *)
Definition generateContent (rq : Request) : Task Response :=
  fun w => AwaitGenerate rq w (fun r w' => Settled r w').

(** *** [retryWithBackoff] (part_000, lines 23-40) *)

(** [e?.message?.includes('429') || e?.message?.includes('RESOURCE_EXHAUSTED')] *)
Definition isQuotaError (e : Error) : bool :=
  message_includes e "429" || message_includes e "RESOURCE_EXHAUSTED".

(** The [for] loop, by recursion on the iterations that remain,
    [maxRetries - i]; with none left the loop is over and the function
    ends with [return fn()]. *)
Fixpoint retry_loop `{AsyncMonad M} {T} (fn : M T) (maxRetries : nat)
    (remaining : nat) (i : nat) (delay : Z) : M T :=
  match remaining with
  | O => fn
  | S remaining' =>
      try_catch fn (fun e =>
        if isQuotaError e && (i <? maxRetries - 1)%nat then
          console_warn delay ;;
          sleep delay ;;
          retry_loop fn maxRetries remaining' (i + 1)%nat (delay * 2)
        else reject e)
  end.

(** [maxRetries] is [None] when the caller leaves it out: the default, 2. *)
Definition retryWithBackoff `{AsyncMonad M} {T} (fn : M T)
    (maxRetries : option nat) : M T :=
  let maxRetries := default 2%nat maxRetries in
  retry_loop fn maxRetries maxRetries 0%nat 2000.

(** ** The response cache over local storage *)

(** [getCachedData] and [setCachedData] (part_000, lines 13-20; the same
    text in part_001, lines 6-13). [localStorage.getItem] gives [null] for
    an absent key, and [saved ? JSON.parse(saved) : null] tests the stored
    string itself. *)
Definition getCachedData `{JSON T} (key : string) (w : World) : res (option T) :=
  match localStorage w !! ("cache_" +:+ key) with
  | Some saved =>
      if truthy saved then
        match JSON_parse saved with
        | Ok v => Ok (Some v)
        | Err e => Err e
        end
      else Ok None
  | None => Ok None
  end.

Definition setCachedData `{JSON T} (key : string) (data : T) (w : World) : World :=
  set_localStorage (<["cache_" +:+ key := JSON_stringify data]> (localStorage w)) w.

(** [a || b] on strings. *)
Definition or_else (a b : string) : string := if truthy a then a else b.

(** [response.text || ''] *)
Definition text_or_empty (response : Response) : string :=
  match text response with
  | Some s => or_else s ""
  | None => ""
  end.

(** The [links] of a trends result: each grounding chunk mapped to its
    [web?.title] and [web?.uri], keeping those where both are truthy;
    [[]] when the response has no chunks. *)
Definition link_of (chunk : GroundingChunk) : SearchResult.t :=
  {| SearchResult.title := w ← web chunk; web_title w;
     SearchResult.uri := w ← web chunk; web_uri w |}.

Definition option_truthy (o : option string) : bool :=
  match o with
  | Some s => truthy s
  | None => false
  end.

Definition links_of (response : Response) : list SearchResult.t :=
  match groundingChunks response with
  | Some chunks =>
      List.filter
        (fun c => option_truthy (SearchResult.title c) && option_truthy (SearchResult.uri c))
        (List.map link_of chunks)
  | None => []
  end.

Definition trends_of (response : Response) : Trends :=
  {| trends_text := text_or_empty response; trends_links := links_of response |}.

Definition console_error (label : string) (e : Error) (w : World) : World :=
  set_console (console w ++ [Error_ label e]) w.

(** ** The service with retry and backoff (part_000) *)

Module ServiceBackoff.
Section Service.
Context `{Builtins} `{!JSON (list Question.t)} `{!JSON string} `{!JSON Trends}.

(** part_000, lines 42-88 *)
Definition generateQuestionsFromContent (lessonId : Z) (content : string)
    (forceNew : bool) : Task (list Question.t) :=
  let cacheKey := "questions_lesson_" +:+ Number_toString lessonId in
  let generate : Task (list Question.t) :=
    retryWithBackoff (
      response <- generateContent (QuizPrompt (String.substring 0 1000 content) None) ;;
      let jsonStr := String_trim (text_or_empty response) in
      data <- attempt (fun _ => JSON_parse (or_else jsonStr "[]")) ;;
      update (setCachedData cacheKey data) ;;
      resolve data) None in
  if negb forceNew then
    cached <- attempt (getCachedData cacheKey) ;;
    match cached with
    | Some cached => if truthy cached then resolve cached else generate
    | None => generate
    end
  else generate.

(** part_000, lines 90-107 *)
Definition generateStudyMindmap (lessonId : Z) (content : string) : Task string :=
  let cacheKey := "mindmap_lesson_" +:+ Number_toString lessonId in
  let generate : Task string :=
    retryWithBackoff (
      response <- generateContent (MindmapPrompt (String.substring 0 800 content)) ;;
      let result := text_or_empty response in
      update (setCachedData cacheKey result) ;;
      resolve result) None in
  cached <- attempt (getCachedData cacheKey) ;;
  match cached with
  | Some cached => if truthy cached then resolve cached else generate
  | None => generate
  end.

(** part_000, lines 109-130 *)
Definition searchGuangzhouExamTrends : Task Trends :=
  let cacheKey := "exam_trends" in
  let query : Task Trends :=
    retryWithBackoff (
      response <- generateContent TrendsPrompt ;;
      let result := trends_of response in
      update (setCachedData cacheKey result) ;;
      resolve result) None in
  cached <- attempt (getCachedData cacheKey) ;;
  match cached with
  | Some cached => if truthy cached then resolve cached else query
  | None => query
  end.

End Service.
End ServiceBackoff.

(** ** The service with the trends time stamp (part_001) *)

Module ServiceTimestamp.
Section Service.
Context `{Builtins} `{!JSON (list Question.t)} `{!JSON string} `{!JSON Trends}.

(** part_001, lines 15-73 *)
Definition generateQuestionsFromContent (lessonId : Z) (content : string)
    (forceNew : bool) : Task (list Question.t) :=
  let cacheKey := "questions_lesson_" +:+ Number_toString lessonId in
  let generate : Task (list Question.t) :=
    now <- read clock ;;
    try_catch (
      response <- generateContent (QuizPrompt content (Some now)) ;;
      let jsonStr := String_trim (text_or_empty response) in
      data <- attempt (fun _ => JSON_parse (or_else jsonStr "[]")) ;;
      update (setCachedData cacheKey data) ;;
      resolve data)
    (fun e =>
      update (console_error "AI Question Generation Error" e) ;;
      resolve []) in
  if negb forceNew then
    cached <- attempt (getCachedData cacheKey) ;;
    match cached with
    | Some cached => if truthy cached then resolve cached else generate
    | None => generate
    end
  else generate.

(** part_001, lines 75-97 *)
Definition generateStudyMindmap (lessonId : Z) (content : string) : Task string :=
  let cacheKey := "mindmap_lesson_" +:+ Number_toString lessonId in
  let generate : Task string :=
    response <- generateContent (MindmapPrompt content) ;;
    let result := text_or_empty response in
    update (setCachedData cacheKey result) ;;
    resolve result in
  cached <- attempt (getCachedData cacheKey) ;;
  match cached with
  | Some cached => if truthy cached then resolve cached else generate
  | None => generate
  end.

(** [(Date.now() - parseInt(lastUpdate)) < 3600000]; a comparison with
    [NaN] is false. *)
Definition within_the_hour (now : Z) (lastUpdate : string) : bool :=
  match parseInt lastUpdate with
  | Some t => now - t <? 3600000
  | None => false
  end.

(** part_001, lines 99-124 *)
Definition searchGuangzhouExamTrends : Task Trends :=
  let cacheKey := "exam_trends" in
  let query : Task Trends :=
    response <- generateContent TrendsPrompt ;;
    let result := trends_of response in
    update (setCachedData cacheKey result) ;;
    now <- read clock ;;
    update (fun w =>
      set_localStorage (<["trends_timestamp" := Number_toString now]> (localStorage w)) w) ;;
    resolve result in
  cached <- attempt (getCachedData cacheKey) ;;
  lastUpdate <- read (fun w => localStorage w !! "trends_timestamp") ;;
  now <- read clock ;;
  match cached, lastUpdate with
  | Some cached, Some lastUpdate =>
      if truthy cached && truthy lastUpdate && within_the_hour now lastUpdate
      then resolve cached
      else query
  | _, _ => query
  end.

End Service.
End ServiceTimestamp.

(** ** The App component: what both revisions share *)

Section AppCommon.
Context `{Builtins} `{!JSON UserProgress}.

(** [saveUserProgress] (part_002, lines 64-67; part_003, lines 32-35) *)
Definition saveUserProgress (updated : UserProgress) (w : World) : World :=
  set_localStorage
    (<["history_user" := JSON_stringify updated]> (localStorage w))
    (set_user (Some updated) w).

(** [handleLogin] (part_002, lines 69-81; part_003, lines 37-49) *)
Definition handleLogin (w : World) : World :=
  if negb (truthy (String_trim (loginName w))) then w
  else
    let newUser :=
      {| userId := Number_toString (clock w);
         userName := loginName w;
         completedLessons := [];
         quizScores := ∅;
         wrongQuestions := [];
         lastActive := Date_toISOString (clock w) |} in
    saveUserProgress newUser w.

(** The state of a component that has just been mounted. *)
Definition initialState (storage : gmap string string) (now : Z)
    (log : list ConsoleEntry) : World :=
  {| localStorage := storage; clock := now; console := log;
     activeTab := TabStudy; user := None; loginName := "";
     selectedLesson := None; reviewMode := ModeSummary; mindmapContent := "";
     questions := []; loading := false; apiError := None; trends := None;
     userAnswers := ∅; score := None; visibleHints := ∅; prefetchQueue := ∅ |}.

(** The [useEffect] that runs once after mounting (part_002, lines 59-62;
    part_003, lines 27-30). *)
Definition loadUser (w : World) : res unit * World :=
  match localStorage w !! "history_user" with
  | Some savedUser =>
      if truthy savedUser then
        match JSON_parse savedUser with
        | Ok u => (Ok tt, set_user (Some u) w)
        | Err e => (Err e, w)
        end
      else (Ok tt, w)
  | None => (Ok tt, w)
  end.

(** The log-out button (part_002, line 446; part_003, line 624):
    [localStorage.removeItem('history_user'); window.location.reload()]. *)
Definition logout (w : World) : res unit * World :=
  loadUser (initialState (delete "history_user" (localStorage w)) (clock w) (console w)).

(** The counters and the list that the [forEach] of [calculateScore]
    fills. *)
Record Tally := {
  choiceCorrect : Z;
  choiceTotal : Z;
  currentWrong : list Question.t
}.

(** The body of the [forEach] (part_002, lines 151-162; part_003,
    lines 118-130); [userAnswers[q.id]] is [undefined], which equals no
    string, when the question has no recorded answer. *)
Definition grade (answers : gmap string string) (acc : Tally) (q : Question.t) : Tally :=
  match Question.type q with
  | choice =>
      if decide (answers !! Question.id q = Some (Question.answer q)) then
        {| choiceCorrect := choiceCorrect acc + 1;
           choiceTotal := choiceTotal acc + 1;
           currentWrong := currentWrong acc |}
      else
        {| choiceCorrect := choiceCorrect acc;
           choiceTotal := choiceTotal acc + 1;
           currentWrong := currentWrong acc ++ [q] |}
  | material =>
      {| choiceCorrect := choiceCorrect acc;
         choiceTotal := choiceTotal acc;
         currentWrong := currentWrong acc ++ [q] |}
  end.

Definition tally (qs : list Question.t) (answers : gmap string string) : Tally :=
  fold_left (grade answers) qs
    {| choiceCorrect := 0; choiceTotal := 0; currentWrong := [] |}.

(** [choiceTotal > 0 ? Math.round((choiceCorrect / choiceTotal) * 100) : 100] *)
Definition finalScore (t : Tally) : Z :=
  if 0 <? choiceTotal t then
    Math_round
      (PrimFloat.mul (PrimFloat.div (Number (choiceCorrect t)) (Number (choiceTotal t)))
         (Number 100))
  else 100.

(** [user.quizScores[id] || 0] *)
Definition or_zero (stored : option Z) : Z :=
  match stored with
  | Some s => if s =? 0 then 0 else s
  | None => 0
  end.

(** [selectedLesson!.id] with no lesson selected. *)
Definition TypeError_null_id : Error :=
  {| message := Some "Cannot read properties of null (reading 'id')" |}.

(** [calculateScore] (part_002, lines 146-175; part_003, lines 113-149),
    given how the newly wrong questions are picked, the one place where
    the two revisions differ. *)
Definition recordScore (newWrongs : UserProgress -> list Question.t -> list Question.t)
    (w : World) : res unit * World :=
  let t := tally (questions w) (userAnswers w) in
  let w1 := set_score (Some (finalScore t)) w in
  match user w with
  | Some u =>
      match selectedLesson w with
      | Some lesson =>
          let currentBest := or_zero (quizScores u !! Lesson.id lesson) in
          (Ok tt,
           saveUserProgress
             {| userId := userId u;
                userName := userName u;
                completedLessons := completedLessons u;
                quizScores :=
                  <[Lesson.id lesson := Z.max currentBest (finalScore t)]> (quizScores u);
                wrongQuestions := wrongQuestions u ++ newWrongs u (currentWrong t);
                lastActive := lastActive u |} w1)
      | None => (Err TypeError_null_id, w1)
      end
  | None => (Ok tt, w1)
  end.

(** [clearWrongQuestion] (part_002, lines 181-184; part_003,
    lines 155-161) *)
Definition clearWrongQuestion (id : string) (w : World) : World :=
  match user w with
  | None => w
  | Some u =>
      saveUserProgress
        {| userId := userId u;
           userName := userName u;
           completedLessons := completedLessons u;
           quizScores := quizScores u;
           wrongQuestions :=
             List.filter (fun q => negb (String.eqb (Question.id q) id)) (wrongQuestions u);
           lastActive := lastActive u |} w
  end.

(** The end of [handleReview] (part_002, lines 106-111; part_003,
    lines 79-85), with the [user] its closure holds. *)
Definition markCompleted (closure_user : option UserProgress) (lesson : Lesson.t)
    (w : World) : World :=
  match closure_user with
  | Some u =>
      if negb (bool_decide (Lesson.id lesson ∈ completedLessons u)) then
        saveUserProgress
          {| userId := userId u;
             userName := userName u;
             completedLessons := completedLessons u ++ [Lesson.id lesson];
             quizScores := quizScores u;
             wrongQuestions := wrongQuestions u;
             lastActive := lastActive u |} w
      else w
  | None => w
  end.

End AppCommon.

(** ** The App with the error banner (part_002) *)

Module AppBanner.
Section App.
Context `{Builtins} `{!JSON UserProgress} `{!JSON (list Question.t)} `{!JSON string}.

(** What the component imports from [./services/geminiService]. *)
Variable generateQuestionsFromContent : Z -> string -> bool -> Task (list Question.t).
Variable generateStudyMindmap : Z -> string -> Task string.
Variable searchGuangzhouExamTrends : Task Trends.

(** part_002, lines 84-112. The handler reads [user] from the closure of
    the render that created it: the value at the moment of the click.
    [if (cachedMM)] holds for a stored string that is not empty. *)
Definition handleReview (lesson : Lesson.t) : Task unit :=
  closure_user <- read user ;;
  update (set_selectedLesson (Some lesson)) ;;
  update (set_reviewMode ModeSummary) ;;
  update (set_apiError None) ;;
  cachedMM <- read (fun w =>
    localStorage w !! ("cache_mindmap_lesson_" +:+ Number_toString (Lesson.id lesson))) ;;
  match cachedMM with
  | Some (String c s) =>
      mm <- attempt (fun _ => JSON_parse (String c s)) ;;
      update (set_mindmapContent mm)
  | _ =>
      update (set_loading true) ;;
      finally
        (try_catch
           (mm <- generateStudyMindmap (Lesson.id lesson) (Lesson.content lesson) ;;
            update (set_mindmapContent mm))
           (fun err =>
              if message_includes err "429" then
                update (set_apiError
                  (Some "由于请求过于频繁，专家逻辑暂时无法加载。请稍等1分钟再试。"))
              else resolve tt))
        (set_loading false)
  end ;;
  update (markCompleted closure_user lesson).

(** part_002, lines 114-144 *)
Definition handleStartPractice (lesson : Lesson.t) (forceNew : bool) : Task unit :=
  update (set_selectedLesson (Some lesson)) ;;
  update (set_activeTab TabPractice) ;;
  update (set_userAnswers ∅) ;;
  update (set_score None) ;;
  update (set_visibleHints ∅) ;;
  update (set_apiError None) ;;
  cachedQs <- read (fun w =>
    if negb forceNew then
      localStorage w !! ("cache_questions_lesson_" +:+ Number_toString (Lesson.id lesson))
    else None) ;;
  match cachedQs with
  | Some (String c s) =>
      qs <- attempt (fun _ => JSON_parse (String c s)) ;;
      update (set_questions qs)
  | _ =>
      update (set_loading true) ;;
      finally
        (try_catch
           (qs <- generateQuestionsFromContent (Lesson.id lesson) (Lesson.content lesson)
                    forceNew ;;
            update (set_questions qs))
           (fun err =>
              update (console_error "" err) ;;
              if message_includes err "429" then
                update (set_apiError
                  (Some "今日名师出题配额已达上限或频率过高，请休息片刻或查看已读单元。"))
              else
                update (set_apiError (Some "出题过程中遇到了一点小麻烦，请重试。"))))
        (set_loading false)
  end.

(** [currentWrong.filter(q => !user.wrongQuestions.find(wq => wq.id === q.id))]
    (part_002, line 172) *)
Definition newWrongs (u : UserProgress) (currentWrong : list Question.t) : list Question.t :=
  List.filter
    (fun q =>
       match List.find (fun wq => String.eqb (Question.id wq) (Question.id q))
               (wrongQuestions u) with
       | Some _ => false
       | None => true
       end)
    currentWrong.

(** part_002, lines 146-175 *)
Definition calculateScore (w : World) : res unit * World := recordScore newWrongs w.

(** The button of the trends tab (part_002, line 389) *)
Definition handleTrends : Task unit :=
  update (set_loading true) ;;
  update (set_apiError None) ;;
  finally
    (try_catch
       (data <- searchGuangzhouExamTrends ;;
        update (set_trends (Some data)))
       (fun err =>
          if message_includes err "429" then
            update (set_apiError (Some "考情搜索过于频繁，请稍后再试。"))
          else resolve tt))
    (set_loading false).

(** The button of the banner (part_002, line 245) *)
Definition closeBanner (w : World) : World := set_apiError None w.

End App.
End AppBanner.

(** ** The event loop *)

(** Calling an async function without awaiting it runs its body up to its
    first [await] and leaves the rest pending; the event loop resumes a
    pending promise when the reply or the timer it waits for arrives.
    Each pending promise carries the number of the user action that
    started it. *)
Record Loop := {
  world : World;
  pending : list (nat * Promise unit);
  actions : nat
}.

Definition world_of {A} (p : Promise A) : World :=
  match p with
  | Settled _ w => w
  | AwaitGenerate _ w _ => w
  | AwaitTimeout _ w _ => w
  end.

Definition settled {A} (p : Promise A) : bool :=
  match p with
  | Settled _ _ => true
  | _ => false
  end.

Definition awaits_reply {A} (p : Promise A) : bool :=
  match p with
  | AwaitGenerate _ _ _ => true
  | _ => false
  end.

(** The promise of a call whose result nobody reads. *)
Definition detach {A} (p : Promise A) : Promise unit :=
  Promise_then p (fun _ => resolve tt).

(** [f(...)], not awaited, inside the user action [action]. *)
Definition start {A} (action : nat) (t : Task A) (l : Loop) : Loop :=
  let p := detach (t (world l)) in
  {| world := world_of p;
     pending := if settled p then pending l else pending l ++ [(action, p)];
     actions := actions l |}.

(** [f(...).catch(() => {})] *)
Definition start_and_ignore {A} (action : nat) (t : Task A) (l : Loop) : Loop :=
  start action (try_catch (t ;; resolve tt) (fun _ => resolve tt)) l.

Inductive Arrival :=
| Replied (r : res Response)
| TimerFired.

Definition resume (ev : Arrival) (p : Promise unit) (w : World) : option (Promise unit) :=
  match p, ev with
  | AwaitGenerate _ _ k, Replied r => Some (k r w)
  | AwaitTimeout _ _ k, TimerFired => Some (k w)
  | _, _ => None
  end.

(** The [i]-th pending promise receives what it waits for. *)
Definition deliver (i : nat) (ev : Arrival) (l : Loop) : Loop :=
  match pending l !! i with
  | Some (action, p) =>
      match resume ev p (world l) with
      | Some p' =>
          {| world := world_of p';
             pending :=
               if settled p' then delete i (pending l)
               else <[i := (action, p')]> (pending l);
             actions := actions l |}
      | None => l
      end
  | None => l
  end.

(** A user action: the handler runs with a fresh action number. *)
Definition dispatch (handler : nat -> Loop -> Loop) (l : Loop) : Loop :=
  handler (actions l)
    {| world := world l; pending := pending l; actions := S (actions l) |}.

(** The requests to the AI service that the action [action] has in
    flight. *)
Definition in_flight (action : nat) (l : Loop) : nat :=
  length (List.filter (fun e => Nat.eqb (fst e) action && awaits_reply (snd e)) (pending l)).

(** ** The App with hover prefetch (part_003) *)

Module AppPrefetch.
Section App.
Context `{Builtins} `{!JSON UserProgress} `{!JSON (list Question.t)} `{!JSON string}.

(** What the component imports from [./services/geminiService]. *)
Variable generateQuestionsFromContent : Z -> string -> bool -> Task (list Question.t).
Variable generateStudyMindmap : Z -> string -> Task string.
Variable searchGuangzhouExamTrends : Task Trends.

(** part_003, lines 52-57: no [await]; [forceNew] takes its default. *)
Definition prefetchLessonData (lesson : Lesson.t) (action : nat) (l : Loop) : Loop :=
  if bool_decide (Lesson.id lesson ∈ prefetchQueue (world l)) then l
  else
    let l1 :=
      {| world := set_prefetchQueue ({[Lesson.id lesson]} ∪ prefetchQueue (world l)) (world l);
         pending := pending l;
         actions := actions l |} in
    let l2 :=
      start_and_ignore action
        (generateQuestionsFromContent (Lesson.id lesson) (Lesson.content lesson) false) l1 in
    start_and_ignore action
      (generateStudyMindmap (Lesson.id lesson) (Lesson.content lesson)) l2.

(** part_003, lines 60-85 *)
Definition handleReview (lesson : Lesson.t) : Task unit :=
  closure_user <- read user ;;
  update (set_selectedLesson (Some lesson)) ;;
  update (set_reviewMode ModeSummary) ;;
  cachedMM <- read (fun w =>
    localStorage w !! ("cache_mindmap_lesson_" +:+ Number_toString (Lesson.id lesson))) ;;
  match cachedMM with
  | Some (String c s) =>
      mm <- attempt (fun _ => JSON_parse (String c s)) ;;
      update (set_mindmapContent mm)
  | _ =>
      update (set_loading true) ;;
      finally
        (try_catch
           (mm <- generateStudyMindmap (Lesson.id lesson) (Lesson.content lesson) ;;
            update (set_mindmapContent mm))
           (fun err => update (console_error "Failed to fetch mindmap" err)))
        (set_loading false)
  end ;;
  update (markCompleted closure_user lesson).

(** part_003, lines 87-111 *)
Definition handleStartPractice (lesson : Lesson.t) (forceNew : bool) : Task unit :=
  update (set_selectedLesson (Some lesson)) ;;
  update (set_activeTab TabPractice) ;;
  update (set_userAnswers ∅) ;;
  update (set_score None) ;;
  update (set_visibleHints ∅) ;;
  cachedQs <- read (fun w =>
    if negb forceNew then
      localStorage w !! ("cache_questions_lesson_" +:+ Number_toString (Lesson.id lesson))
    else None) ;;
  match cachedQs with
  | Some (String c s) =>
      qs <- attempt (fun _ => JSON_parse (String c s)) ;;
      update (set_questions qs)
  | _ =>
      update (set_loading true) ;;
      finally
        (try_catch
           (qs <- generateQuestionsFromContent (Lesson.id lesson) (Lesson.content lesson)
                    forceNew ;;
            update (set_questions qs))
           (fun err => update (console_error "Failed to generate practice questions" err)))
        (set_loading false)
  end.

(** [existingWrongIds] and [newlyAddedWrongs] (part_003, lines 137-138) *)
Definition newWrongs (u : UserProgress) (currentWrong : list Question.t) : list Question.t :=
  let existingWrongIds : gset string :=
    list_to_set (List.map Question.id (wrongQuestions u)) in
  List.filter (fun q => negb (bool_decide (Question.id q ∈ existingWrongIds))) currentWrong.

(** part_003, lines 113-149 *)
Definition calculateScore (w : World) : res unit * World := recordScore newWrongs w.

(** The refresh button of the trends tab (part_003, line 531):
    [searchGuangzhouExamTrends().then(...).catch(...)] *)
Definition refreshTrends : Task unit :=
  update (set_loading true) ;;
  try_catch
    (data <- searchGuangzhouExamTrends ;;
     update (set_trends (Some data)) ;;
     update (set_loading false))
    (fun _ => update (set_loading false)).

(** The first-load button of the trends tab (part_003, lines 539-549) *)
Definition handleTrends : Task unit :=
  update (set_loading true) ;;
  finally
    (try_catch
       (data <- searchGuangzhouExamTrends ;;
        update (set_trends (Some data)))
       (fun err => update (console_error "Search failed" err)))
    (set_loading false).

End App.
End AppPrefetch.

(** ** Running one async function to its end *)

(** The AI service as one run sees it: the outcome of the [n]-th request
    and the time it takes. *)
Record Network := {
  reply : nat -> res Response;
  latency : nat -> Z
}.

Record Run (A : Type) := {
  result : res A;
  final : World;
  requests : list Request;
  timers : list Z
}.
Arguments result {A} r.
Arguments final {A} r.
Arguments requests {A} r.
Arguments timers {A} r.

Definition tick (d : Z) (w : World) : World := set_clock (clock w + d) w.

(** Nothing else runs in between: each [await] is answered at once, the
    clock moved on by the time the answer took. *)
Fixpoint run_from {A} (net : Network) (p : Promise A) (rqs : list Request)
    (tms : list Z) : Run A :=
  match p with
  | Settled r w => {| result := r; final := w; requests := rqs; timers := tms |}
  | AwaitGenerate rq w k =>
      run_from net (k (reply net (length rqs)) (tick (latency net (length rqs)) w))
        (rqs ++ [rq]) tms
  | AwaitTimeout ms w k => run_from net (k (tick ms w)) rqs (tms ++ [ms])
  end.

Definition run {A} (net : Network) (t : Task A) (w : World) : Run A :=
  run_from net (t w) [] [].

(** ** A tracing reading of async code, for [retryWithBackoff] *)

(** What [retryWithBackoff] does with its argument: it calls it, it
    warns, it sleeps. *)
Inductive Step (T : Type) : Type :=
| Called (r : res T)
| Warned (delay : Z)
| Slept (delay : Z).
Arguments Called {T} r.
Arguments Warned {T} delay.
Arguments Slept {T} delay.

Section Traced.
Context {S T : Type}.
(** How the state changes while a timer runs. *)
Variable elapse : Z -> S -> S.

Definition Traced (A : Type) : Type := S -> res A * S * list (Step T).

#[export] Instance Traced_AsyncMonad : AsyncMonad Traced := {
  resolve := fun A a s => (Ok a, s, []);
  reject := fun A e s => (Err e, s, []);
  await := fun A B m f s =>
    match m s with
    | (Ok a, s1, tr1) => let '(r, s2, tr2) := f a s1 in (r, s2, tr1 ++ tr2)
    | (Err e, s1, tr1) => (Err e, s1, tr1)
    end;
  try_catch := fun A m h s =>
    match m s with
    | (Ok a, s1, tr1) => (Ok a, s1, tr1)
    | (Err e, s1, tr1) => let '(r, s2, tr2) := h e s1 in (r, s2, tr1 ++ tr2)
    end;
  sleep := fun ms s => (Ok tt, elapse ms s, [Slept ms]);
  console_warn := fun d s => (Ok tt, s, [Warned d])
}.

(** An arbitrary async function [fn], each call of it recorded. *)
Definition traced (fn : S -> res T * S) : Traced T :=
  fun s => let '(r, s1) := fn s in (r, s1, [Called r]).

End Traced.

(** The trace of the failed calls [errs], each followed by a warning and
    a sleep, the delay doubling from [delay] on. *)
Fixpoint backoff_trace {T} (errs : list Error) (delay : Z) : list (Step T) :=
  match errs with
  | [] => []
  | e :: errs' =>
      Called (Err e) :: Warned delay :: Slept delay :: backoff_trace errs' (delay * 2)
  end.

Definition calls_in {T} (tr : list (Step T)) : nat :=
  length (List.filter (fun st => match st with Called _ => true | _ => false end) tr).

Definition sleeps_in {T} (tr : list (Step T)) : list Z :=
  omap (fun st => match st with Slept d => Some d | _ => None end) tr.


(** ** What the claims say, as predicates *)

(** What [retryWithBackoff] promises for a traced [fn] when it is allowed
    [maxRetries] calls, from the state [s]: the calls before the last all
    threw a rate-limit error and were each followed by a sleep, 2000 ms
    first and doubling; the last call's outcome is the outcome of the
    whole; there are at most [maxRetries] calls; an error that is not a
    rate-limit error ends the run wherever it occurs; and a rate-limit
    error is the outcome only when the calls are used up. *)
Definition retry_contract {S T} (elapse : Z -> S -> S) (fn : S -> res T * S)
    (maxRetries : nat) (s : S) : Prop :=
  exists (errs : list Error) (last : res T) (s' : S),
    let tr := backoff_trace errs 2000 ++ [Called last] in
    @retryWithBackoff Traced (Traced_AsyncMonad elapse) T (traced fn) (Some maxRetries) s
      = (last, s', tr)
    /\ Forall (fun e => isQuotaError e = true) errs
    /\ (calls_in tr <= maxRetries)%nat
    /\ sleeps_in tr = List.map (fun j => 2000 * 2 ^ Z.of_nat j) (seq 0 (calls_in tr - 1))
    /\ (forall e, In (Called (Err e)) tr -> isQuotaError e = false -> last = Err e)
    /\ (forall e, last = Err e -> isQuotaError e = false \/ calls_in tr = maxRetries).

(** An [fn] that always fails with a rate-limit error, counting its
    calls. *)
Definition always_429 (n : nat) : res unit * nat :=
  (Err {| message := Some "429 Too Many Requests" |}, Datatypes.S n).


(** [q.type === 'choice'] *)
Definition is_choice (q : Question.t) : bool :=
  match Question.type q with
  | choice => true
  | material => false
  end.

(** A choice question whose recorded answer equals [q.answer]. *)
Definition answered_right (answers : gmap string string) (q : Question.t) : bool :=
  is_choice q && bool_decide (answers !! Question.id q = Some (Question.answer q)).

Definition count_of {A} (f : A -> bool) (l : list A) : Z :=
  Z.of_nat (length (List.filter f l)).

(** The score as the claim words it: [Math.round(100 * c / t)], and 100
    without choice questions. *)
Definition score_as_claimed (c t : Z) : Z :=
  if 0 <? t then
    Math_round (PrimFloat.div (PrimFloat.mul (Number 100) (Number c)) (Number t))
  else 100.

(** The score as the code computes it, from the two counts. *)
Definition score_as_coded (c t : Z) : Z :=
  if 0 <? t then
    Math_round (PrimFloat.mul (PrimFloat.div (Number c) (Number t)) (Number 100))
  else 100.

(** The percentage rounded half up, in exact arithmetic. *)
Definition score_exact (c t : Z) : Z := (200 * c + t) / (2 * t).

(** The three agree on every quiz of [t] choice questions, [c] of them
    right. *)
Definition scores_agree (t c : nat) : bool :=
  (score_as_coded (Z.of_nat c) (Z.of_nat t) =? score_as_claimed (Z.of_nat c) (Z.of_nat t))
  && (score_as_coded (Z.of_nat c) (Z.of_nat t) =? score_exact (Z.of_nat c) (Z.of_nat t)).

(** ** A sample platform, for concrete runs *)

Module Sample.

Definition SyntaxError : Error := {| message := Some "Unexpected end of JSON input" |}.

Definition digit_of (a : ascii) : option Z :=
  let n := Z.of_nat (nat_of_ascii a) in
  if (48 <=? n) && (n <=? 57) then Some (n - 48) else None.

(** The leading decimal digits of a string. *)
Fixpoint parse_digits (s : string) (acc : option Z) : option Z :=
  match s with
  | EmptyString => acc
  | String a s' =>
      match digit_of a with
      | Some d => parse_digits s' (Some (10 * default 0 acc + d))
      | None => acc
      end
  end.

#[export] Instance builtins : Builtins := {
  Number_toString := pretty;
  parseInt := fun s => parse_digits s None;
  String_trim := fun s => s;
  Date_toISOString := fun _ => "1970-01-01T00:00:00.000Z"
}.

(** Codecs that know one value of each type: the empty array, the empty
    string, the trends without text, a user without progress. *)
Definition parse_only {T} (repr : string) (v : T) (s : string) : res T :=
  if String.eqb s repr then Ok v else Err SyntaxError.

Definition no_trends : Trends := {| trends_text := ""; trends_links := [] |}.

Definition nobody : UserProgress :=
  {| userId := "0"; userName := "nobody"; completedLessons := []; quizScores := ∅;
     wrongQuestions := []; lastActive := "1970-01-01T00:00:00.000Z" |}.

#[export] Instance questions_JSON : JSON (list Question.t) := {
  JSON_stringify := fun _ => "[]";
  JSON_parse := parse_only "[]" [];
  JSON_parse_empty := fun v (E : Err SyntaxError = Ok v) =>
    match E in _ = r return match r with Ok _ => False | Err _ => True end with
    | eq_refl => I
    end
}.

#[export] Instance string_JSON : JSON string := {
  JSON_stringify := fun s => "'" +:+ s +:+ "'";
  JSON_parse := fun s =>
    match s with
    | String "'" rest =>
        match String.length rest with
        | O => Err SyntaxError
        | Datatypes.S n =>
            if String.eqb (String.substring n 1 rest) "'"
            then Ok (String.substring 0 n rest)
            else Err SyntaxError
        end
    | _ => Err SyntaxError
    end;
  JSON_parse_empty := fun v (E : Err SyntaxError = Ok v) =>
    match E in _ = r return match r with Ok _ => False | Err _ => True end with
    | eq_refl => I
    end
}.

#[export] Instance trends_JSON : JSON Trends := {
  JSON_stringify := fun _ => "{}";
  JSON_parse := parse_only "{}" no_trends;
  JSON_parse_empty := fun v (E : Err SyntaxError = Ok v) =>
    match E in _ = r return match r with Ok _ => False | Err _ => True end with
    | eq_refl => I
    end
}.

#[export] Instance user_JSON : JSON UserProgress := {
  JSON_stringify := fun _ => "{}";
  JSON_parse := parse_only "{}" nobody;
  JSON_parse_empty := fun v (E : Err SyntaxError = Ok v) =>
    match E in _ = r return match r with Ok _ => False | Err _ => True end with
    | eq_refl => I
    end
}.

(** A freshly mounted component with nothing stored. *)
Definition blank : World := initialState ∅ 0 [].

Definition lesson1 : Lesson.t :=
  {| Lesson.id := 1; Lesson.title := "Lesson 1"; Lesson.period := "I";
     Lesson.content := "content"; Lesson.keyConcepts := [] |}.

(** A choice question whose answer is A. *)
Definition question (i : nat) : Question.t :=
  {| Question.id := "q" +:+ pretty i; Question.type := choice; Question.stem := "";
     Question.options := None; Question.answer := "A"; Question.analysis := "";
     Question.material := None; Question.hint := None |}.

(** A quiz of [n] choice questions of which the first [k] are answered
    A. *)
Definition quiz (n k : nat) : World :=
  set_userAnswers (list_to_map (List.map (fun i => ("q" +:+ pretty i, "A")) (seq 0 k)))
    (set_questions (List.map question (seq 0 n))
       (set_selectedLesson (Some lesson1) blank)).

End Sample.


(** *** The trends cache, as claimed *)

Section TrendsClaim.
Context `{Builtins} `{!JSON Trends}.

(** A cached entry exists, that is, a value that is not empty and parses
    is stored under ['cache_exam_trends'], and the stored
    ['trends_timestamp'] is a number less than an hour before the
    current time. *)
Definition trends_fresh (w : World) (cached : Trends) : Prop :=
  getCachedData "exam_trends" w = Ok (Some cached)
  /\ exists (ts : string) (t : Z),
       localStorage w !! "trends_timestamp" = Some ts
       /\ ts <> ""
       /\ parseInt ts = Some t
       /\ clock w - t < 3600000.

(** What the claim says of [searchGuangzhouExamTrends], for every state
    of local storage: the cached result, and no request, exactly when the
    cache is fresh; the parse error, and no request, when the stored
    entry does not parse; otherwise one request, and on success the cache
    entry and a new time stamp, on failure the error and nothing
    stored. *)
Definition trends_contract (search : Task Trends) : Prop :=
  forall (net : Network) (w : World),
    let r := run net search w in
    (forall cached, trends_fresh w cached ->
       r = {| result := Ok cached; final := w; requests := []; timers := [] |})
    /\ ((exists cached, trends_fresh w cached)
        <-> requests r = [] /\ exists v, result r = Ok v)
    /\ (forall e, getCachedData (T:=Trends) "exam_trends" w = Err e ->
          r = {| result := Err e; final := w; requests := []; timers := [] |})
    /\ ((forall cached, ~ trends_fresh w cached) ->
        (forall e, getCachedData (T:=Trends) "exam_trends" w <> Err e) ->
        requests r = [TrendsPrompt] /\ timers r = []
        /\ (forall resp, reply net 0 = Ok resp ->
              result r = Ok (trends_of resp)
              /\ localStorage (final r)
                 = <["trends_timestamp" := Number_toString (clock (final r))]>
                     (<["cache_exam_trends" := JSON_stringify (trends_of resp)]>
                        (localStorage w)))
        /\ (forall e, reply net 0 = Err e ->
              result r = Err e /\ localStorage (final r) = localStorage w)).

(** What the revision with retry does instead, for every state of local
    storage: the cached result, and no request, exactly when a cached
    entry exists, whatever its age; the parse error when the stored entry
    does not parse; otherwise one request, and a second one, after a
    warning and a wait of 2000 ms, exactly when the first failed with a
    rate-limit error; the cache entry alone is written when the request
    that ends the call succeeds, and the time stamp never. *)
Definition trends_contract_without_age (search : Task Trends) : Prop :=
  forall (net : Network) (w : World),
    let r := run net search w in
    (forall cached, getCachedData "exam_trends" w = Ok (Some cached) ->
       r = {| result := Ok cached; final := w; requests := []; timers := [] |})
    /\ ((exists cached : Trends, getCachedData "exam_trends" w = Ok (Some cached))
        <-> requests r = [] /\ exists v, result r = Ok v)
    /\ (forall e, getCachedData (T:=Trends) "exam_trends" w = Err e ->
          r = {| result := Err e; final := w; requests := []; timers := [] |})
    /\ (getCachedData (T:=Trends) "exam_trends" w = Ok None ->
        let w0 := tick (latency net 0) w in
        (forall resp, reply net 0 = Ok resp ->
           r = {| result := Ok (trends_of resp);
                  final := setCachedData "exam_trends" (trends_of resp) w0;
                  requests := [TrendsPrompt]; timers := [] |})
        /\ (forall e, reply net 0 = Err e -> isQuotaError e = false ->
              r = {| result := Err e; final := w0;
                     requests := [TrendsPrompt]; timers := [] |})
        /\ (forall e, reply net 0 = Err e -> isQuotaError e = true ->
              let w1 :=
                tick (latency net 1)
                  (tick 2000 (set_console (console w0 ++ [Warn 2000]) w0)) in
              (forall resp, reply net 1 = Ok resp ->
                 r = {| result := Ok (trends_of resp);
                        final := setCachedData "exam_trends" (trends_of resp) w1;
                        requests := [TrendsPrompt; TrendsPrompt]; timers := [2000] |})
              /\ (forall e', reply net 1 = Err e' ->
                    r = {| result := Err e'; final := w1;
                           requests := [TrendsPrompt; TrendsPrompt]; timers := [2000] |})))
    /\ localStorage (final r) !! "trends_timestamp" = localStorage w !! "trends_timestamp".

End TrendsClaim.


(** The score recorded for a lesson, a missing entry counting as 0. *)
Definition recorded (u : UserProgress) (lessonId : Z) : Z :=
  default 0 (quizScores u !! lessonId).

Definition wrong_ids (u : UserProgress) : list string :=
  List.map Question.id (wrongQuestions u).



(** ** What a task leaves alone *)

(** [Promise_frames R w0 p]: the promise [p], started in or resumed in
    the world [w0], hands back a world related to [w0] by [R], and so
    does every later stretch of it with respect to the world it is
    resumed in. *)
Inductive Promise_frames {A} (R : World -> World -> Prop) : World -> Promise A -> Prop :=
| frames_settled (w0 : World) (r : res A) (w : World) :
    R w0 w -> Promise_frames R w0 (Settled r w)
| frames_generate (w0 : World) (rq : Request) (w : World)
    (k : res Response -> World -> Promise A) :
    R w0 w ->
    (forall r w', Promise_frames R w' (k r w')) ->
    Promise_frames R w0 (AwaitGenerate rq w k)
| frames_timeout (w0 : World) (ms : Z) (w : World) (k : World -> Promise A) :
    R w0 w ->
    (forall w', Promise_frames R w' (k w')) ->
    Promise_frames R w0 (AwaitTimeout ms w k).

Definition Task_frames {A} (R : World -> World -> Prop) (t : Task A) : Prop :=
  forall w, Promise_frames R w (t w).

(** The [user] record is the same in both worlds. *)
Definition same_user (w w' : World) : Prop := user w' = user w.



(** ** The revisions, by name *)

Inductive AppRevision := Banner | Prefetch.
Inductive ServiceRevision := Backoff | Timestamp.

Section Revisions.
Context `{Builtins} `{!JSON UserProgress} `{!JSON (list Question.t)} `{!JSON string}
  `{!JSON Trends}.

Definition generateQuestionsFromContent_of (svc : ServiceRevision) :
    Z -> string -> bool -> Task (list Question.t) :=
  match svc with
  | Backoff => ServiceBackoff.generateQuestionsFromContent
  | Timestamp => ServiceTimestamp.generateQuestionsFromContent
  end.

Definition generateStudyMindmap_of (svc : ServiceRevision) : Z -> string -> Task string :=
  match svc with
  | Backoff => ServiceBackoff.generateStudyMindmap
  | Timestamp => ServiceTimestamp.generateStudyMindmap
  end.

Definition searchGuangzhouExamTrends_of (svc : ServiceRevision) : Task Trends :=
  match svc with
  | Backoff => ServiceBackoff.searchGuangzhouExamTrends
  | Timestamp => ServiceTimestamp.searchGuangzhouExamTrends
  end.

Definition handleReview_of (app : AppRevision) (svc : ServiceRevision) :
    Lesson.t -> Task unit :=
  match app with
  | Banner => AppBanner.handleReview (generateStudyMindmap_of svc)
  | Prefetch => AppPrefetch.handleReview (generateStudyMindmap_of svc)
  end.

Definition handleStartPractice_of (app : AppRevision) (svc : ServiceRevision) :
    Lesson.t -> bool -> Task unit :=
  match app with
  | Banner => AppBanner.handleStartPractice (generateQuestionsFromContent_of svc)
  | Prefetch => AppPrefetch.handleStartPractice (generateQuestionsFromContent_of svc)
  end.

Definition handleTrends_of (app : AppRevision) (svc : ServiceRevision) : Task unit :=
  match app with
  | Banner => AppBanner.handleTrends (searchGuangzhouExamTrends_of svc)
  | Prefetch => AppPrefetch.handleTrends (searchGuangzhouExamTrends_of svc)
  end.

Definition calculateScore_of (app : AppRevision) : World -> res unit * World :=
  match app with
  | Banner => AppBanner.calculateScore
  | Prefetch => AppPrefetch.calculateScore
  end.

End Revisions.

(** The user record after a first reading of [lesson]. *)
Definition with_completed (u : UserProgress) (lesson : Lesson.t) : UserProgress :=
  {| userId := userId u;
     userName := userName u;
     completedLessons := completedLessons u ++ [Lesson.id lesson];
     quizScores := quizScores u;
     wrongQuestions := wrongQuestions u;
     lastActive := lastActive u |}.

(** ** Sample worlds and networks *)

Module SampleRuns.

(** The service answers every request with the empty array. *)
Definition always_empty : Network :=
  {| reply := fun _ => Ok {| text := Some "[]"; groundingChunks := None |};
     latency := fun _ => 150 |}.

(** Local storage holds a cached (empty) quiz for lesson 1. *)
Definition cached_quiz : World :=
  set_localStorage {[ "cache_questions_lesson_1" := "[]" ]} Sample.blank.

(** Local storage holds cached trends and no time stamp. *)
Definition cached_trends : World :=
  set_localStorage {[ "cache_exam_trends" := "{}" ]} Sample.blank.

(** Cached trends stamped at 1000 ms, read at 2000 ms. *)
Definition fresh_trends : World :=
  set_clock 2000
    (set_localStorage {[ "cache_exam_trends" := "{}"; "trends_timestamp" := "1000" ]}
       Sample.blank).

(** A logged-in user who got question 0 wrong before, in front of a quiz
    of three questions with the first answered. *)
Definition returning_user : UserProgress :=
  {| userId := "1"; userName := "Li"; completedLessons := [1];
     quizScores := {[ 1 := 80 ]}; wrongQuestions := [Sample.question 0];
     lastActive := "1970-01-01T00:00:00.000Z" |}.

Definition returning_quiz : World := set_user (Some returning_user) (Sample.quiz 3 1).

(** Local storage holds text that is not JSON under the cache keys of
    lesson 1. *)
Definition corrupt_cache : World :=
  set_localStorage
    {[ "cache_questions_lesson_1" := "{"; "cache_mindmap_lesson_1" := "{" ]} Sample.blank.

Definition lesson2 : Lesson.t :=
  {| Lesson.id := 2; Lesson.title := "Lesson 2"; Lesson.period := "II";
     Lesson.content := "more content"; Lesson.keyConcepts := [] |}.


End SampleRuns.


(** ** Promises that cannot be rejected *)

Inductive Promise_fulfils {A} : Promise A -> Prop :=
| fulfils_settled (a : A) (w : World) : Promise_fulfils (Settled (Ok a) w)
| fulfils_generate (rq : Request) (w : World) (k : res Response -> World -> Promise A) :
    (forall r w', Promise_fulfils (k r w')) -> Promise_fulfils (AwaitGenerate rq w k)
| fulfils_timeout (ms : Z) (w : World) (k : World -> Promise A) :
    (forall w', Promise_fulfils (k w')) -> Promise_fulfils (AwaitTimeout ms w k).

Definition Task_fulfils {A} (t : Task A) : Prop := forall w, Promise_fulfils (t w).


(** ** The App on the event loop *)

(** What the user does with the page. [HoverLesson] and [RefreshTrends]
    exist in part_003 only. *)
Inductive Action :=
| ClickLesson (lesson : Lesson.t)
| HoverLesson (lesson : Lesson.t)
| StartPractice (lesson : Lesson.t) (forceNew : bool)
| ClickTrends
| RefreshTrends
| SubmitQuiz
| RemoveWrong (id : string).

Inductive LoopEvent :=
| User (act : Action)
| Arrives (i : nat) (ev : Arrival).

Definition with_world (w : World) (l : Loop) : Loop :=
  {| world := w; pending := pending l; actions := actions l |}.

Section AppLoop.
Context `{Builtins} `{!JSON UserProgress} `{!JSON (list Question.t)} `{!JSON string}
  `{!JSON Trends}.
Variable app : AppRevision.
Variable svc : ServiceRevision.

(** The handler that the page binds to each action ([onClick],
    [onMouseEnter]); none is awaited by its caller. *)
Definition handle (act : Action) (n : nat) (l : Loop) : Loop :=
  match act with
  | ClickLesson lesson => start n (handleReview_of app svc lesson) l
  | HoverLesson lesson =>
      match app with
      | Prefetch =>
          AppPrefetch.prefetchLessonData (generateQuestionsFromContent_of svc)
            (generateStudyMindmap_of svc) lesson n l
      | Banner => l
      end
  | StartPractice lesson forceNew =>
      start n (handleStartPractice_of app svc lesson forceNew) l
  | ClickTrends => start n (handleTrends_of app svc) l
  | RefreshTrends =>
      match app with
      | Prefetch => start n (AppPrefetch.refreshTrends (searchGuangzhouExamTrends_of svc)) l
      | Banner => l
      end
  | SubmitQuiz => with_world (snd (calculateScore_of app (world l))) l
  | RemoveWrong id => with_world (clearWrongQuestion id (world l)) l
  end.

Definition loop_step (l : Loop) (e : LoopEvent) : Loop :=
  match e with
  | User act => dispatch (handle act) l
  | Arrives i ev => deliver i ev l
  end.

Definition idle (w : World) : Loop := {| world := w; pending := []; actions := 0 |}.

Definition loop_run (es : list LoopEvent) (w : World) : Loop :=
  fold_left loop_step es (idle w).

(** What the claim says: whatever happens, no user action has more than
    one request to the AI service in flight. *)
Definition single_flight : Prop :=
  forall (es : list LoopEvent) (w : World) (a : nat),
    (in_flight a (loop_run es w) <= 1)%nat.

End AppLoop.

Definition user_actions (es : list LoopEvent) : list Action :=
  omap (fun e => match e with User act => Some act | Arrives _ _ => None end) es.

(** The requests an action may have in flight: two for the hover
    prefetch of part_003, one for everything else. *)
Definition allowance (app : AppRevision) (act : option Action) : nat :=
  match app, act with
  | Prefetch, Some (HoverLesson _) => 2
  | _, _ => 1
  end.

(** The pending promises that the action [a] started. *)
Definition started_by (a : nat) (ps : list (nat * Promise unit)) : nat :=
  length (List.filter (fun e => Nat.eqb (fst e) a) ps).


(** ** What a service call may change *)

(** [touches_only keys w w']: from [w] to [w'] local storage changed at
    most under [keys], and beside local storage only the clock and the
    console changed. *)
Definition touches_only (keys : list string) (w w' : World) : Prop :=
  (forall k, k ∉ keys -> localStorage w' !! k = localStorage w !! k)
  /\ set_localStorage (localStorage w) (set_clock (clock w) (set_console (console w) w')) = w.


(** ** Claims about the traffic of a service call *)

(** The traffic of a call through [retryWithBackoff] with its default
    of two attempts: no request, one, or the same request twice with one
    wait of 2000 ms between them. *)
Definition at_most_one_retry {A} (r : Run A) (rq : Request) : Prop :=
  (requests r = [] /\ timers r = [])
  \/ (requests r = [rq] /\ timers r = [])
  \/ (requests r = [rq; rq] /\ timers r = [2000]).


(** ** Invariants of the page, over the event loop *)

(** From [w] to [w'] the property [P] is not lost. *)
Inductive keeps (P : World -> Prop) (w w' : World) : Prop :=
| keeps_intro : (P w -> P w') -> keeps P w w'.

(** Whatever a pending promise does once it is resumed is related by [R]
    to the world it is resumed in. *)
Definition Promise_resumes {A} (R : World -> World -> Prop) (p : Promise A) : Prop :=
  match p with
  | Settled _ _ => True
  | AwaitGenerate _ _ k => forall r w', Promise_frames R w' (k r w')
  | AwaitTimeout _ _ k => forall w', Promise_frames R w' (k w')
  end.

Definition Loop_frames (R : World -> World -> Prop) (l : Loop) : Prop :=
  Forall (fun e => Promise_resumes R (snd e)) (pending l).

(** Every stretch of every handler of the page, and every synchronous
    handler, takes a world to one related by [R]. *)
Definition handlers_frame `{Builtins} `{!JSON UserProgress} `{!JSON (list Question.t)}
    `{!JSON string} `{!JSON Trends} (app : AppRevision) (svc : ServiceRevision)
    (R : World -> World -> Prop) : Prop :=
  (forall lesson, Task_frames R (handleReview_of app svc lesson))
  /\ (forall lesson forceNew, Task_frames R (handleStartPractice_of app svc lesson forceNew))
  /\ Task_frames R (handleTrends_of app svc)
  /\ Task_frames R (AppPrefetch.refreshTrends (searchGuangzhouExamTrends_of svc))
  /\ (forall id content forceNew,
        Task_frames R (generateQuestionsFromContent_of svc id content forceNew))
  /\ (forall id content, Task_frames R (generateStudyMindmap_of svc id content))
  /\ (forall w id, R w (set_prefetchQueue ({[id]} ∪ prefetchQueue w) w))
  /\ (forall w, R w (snd (calculateScore_of app w)))
  /\ (forall id w, R w (clearWrongQuestion id w)).

(** The saved copy of the progress is the serialization of the [user]
    on the page. *)
Definition persisted `{!JSON UserProgress} (w : World) : Prop :=
  forall u, user w = Some u -> localStorage w !! "history_user" = Some (JSON_stringify u).

(** ** How a promise ends *)

(** Wherever the promise [p] is settled, its outcome and the world then
    satisfy [Q]. *)
Inductive Promise_ends {A} (Q : res A -> World -> Prop) : Promise A -> Prop :=
| ends_settled (r : res A) (w : World) : Q r w -> Promise_ends Q (Settled r w)
| ends_generate (rq : Request) (w : World) (k : res Response -> World -> Promise A) :
    (forall r w', Promise_ends Q (k r w')) -> Promise_ends Q (AwaitGenerate rq w k)
| ends_timeout (ms : Z) (w : World) (k : World -> Promise A) :
    (forall w', Promise_ends Q (k w')) -> Promise_ends Q (AwaitTimeout ms w k).

(** The promise takes the loading overlay away when it is settled. *)
Definition stops_loading {A} (p : Promise A) : Prop :=
  Promise_ends (fun _ w => loading w = false) p.

Definition same_loading (w w' : World) : Prop := loading w' = loading w.

(** Every pending promise either takes the overlay away in the end or
    never touches it, and while the overlay is shown one of the first
    kind is pending. *)
Definition loading_accounted (l : Loop) : Prop :=
  Forall (fun e => stops_loading (snd e) \/ Promise_resumes same_loading (snd e)) (pending l)
  /\ (loading (world l) = true -> Exists (fun e => stops_loading (snd e)) (pending l)).


(** ** Answering a quiz *)

(** [String.fromCharCode(65 + i)], the letter of option [i]: one
    character, here for the codes below 256, that is for the first 191
    options of a question. *)
Definition option_letter (i : nat) : string := String (ascii_of_nat (65 + i)) "".

(** The click on option [i] of the question [q] (part_002, line 324;
    part_003, line 377):
    [score === null && setUserAnswers(prev => ({...prev, [q.id]: ...}))]. *)
Definition selectOption (q : Question.t) (i : nat) (w : World) : World :=
  match score w with
  | None => set_userAnswers (<[Question.id q := option_letter i]> (userAnswers w)) w
  | Some _ => w
  end.

(** [toggleHint] (part_002, lines 177-179; part_003, lines 151-153):
    [setVisibleHints(prev => ({...prev, [id]: !prev[id]}))]; a missing
    entry is [undefined], whose negation is [true]. *)
Definition toggleHint (id : string) (w : World) : World :=
  set_visibleHints
    (<[id := negb (default false (visibleHints w !! id))]> (visibleHints w)) w.

(** [visibleHints[q.id]] as a condition of the render. *)
Definition hint_visible (id : string) (w : World) : bool :=
  default false (visibleHints w !! id).


(** ** The completed lessons, over the event loop *)

(** [user.completedLessons], empty while nobody is logged in. *)
Definition completed_of (w : World) : list Z :=
  match user w with
  | Some u => completedLessons u
  | None => []
  end.

Definition same_completed (w w' : World) : Prop := completed_of w' = completed_of w.

(** What a [handleReview] whose render saw the list [base] may do to the
    completed lessons when it goes on: leave them, or set them to [base]
    with the lesson [id] appended. *)
Definition completes (base : list Z) (id : Z) (w w' : World) : Prop :=
  completed_of w' = completed_of w \/ completed_of w' = base ++ [id].

(** The user action number [n] was a click on a lesson. *)
Definition is_review (acts : list Action) (n : nat) : bool :=
  match acts !! n with
  | Some (ClickLesson _) => true
  | _ => false
  end.

(** The events [es], which follow the user actions [acts] and start from
    the loop [l], never click a lesson while the handler of an earlier
    click on a lesson is still pending. *)
Fixpoint reviews_apart `{Builtins} `{!JSON UserProgress} `{!JSON (list Question.t)}
    `{!JSON string} `{!JSON Trends} (app : AppRevision) (svc : ServiceRevision)
    (es : list LoopEvent) (acts : list Action) (l : Loop) : Prop :=
  match es with
  | [] => True
  | User act :: es' =>
      match act with
      | ClickLesson _ => Forall (fun e => is_review acts (fst e) = false) (pending l)
      | _ => True
      end
      /\ reviews_apart app svc es' (acts ++ [act]) (loop_step app svc l (User act))
  | Arrives i ev :: es' =>
      reviews_apart app svc es' acts (loop_step app svc l (Arrives i ev))
  end.

(** What the promise started by the user action number [n] may do to
    the completed lessons when it goes on: the handler of a click on a
    lesson appends [id] to [base] or leaves the list alone, every other
    promise leaves it alone. *)
Definition review_relation (acts : list Action) (base : list Z) (id : Z) (n : nat) :
    World -> World -> Prop :=
  if is_review acts n then completes base id else same_completed.

(** The pending promises are accounted for by the actions that started
    them, and the list is [base], with [id] appended or not. *)
Definition reviews_accounted (acts : list Action) (base : list Z) (id : Z) (l : Loop) : Prop :=
  actions l = length acts
  /\ Forall (fun e => (fst e < length acts)%nat
                      /\ Promise_resumes (review_relation acts base id (fst e)) (snd e))
       (pending l)
  /\ (completed_of (world l) = base \/ completed_of (world l) = base ++ [id]).

(** * Properties *)

(** ** [retryWithBackoff] *)

Section RetryFacts.
Context {S T : Type}.
Variable elapse : Z -> S -> S.
Variable fn : S -> res T * S.

Let retry := @retry_loop Traced (Traced_AsyncMonad elapse) T (traced fn).

Lemma retry_loop_trace (maxRetries remaining i : nat) (delay : Z) (s : S) :
  (i + remaining = maxRetries)%nat ->
  (1 <= remaining)%nat ->
  exists errs last s',
    retry maxRetries remaining i delay s
      = (last, s', backoff_trace errs delay ++ [Called last])
    /\ Forall (fun e => isQuotaError e = true) errs
    /\ (length errs < remaining)%nat
    /\ (forall e, last = Err e ->
          isQuotaError e = false \/ (i + Datatypes.S (length errs) = maxRetries)%nat).
Proof.
  revert i delay s.
  induction remaining as [|r IH]; intros i delay s Hsum Hpos; [lia|].
  unfold retry in *. cbn [retry_loop]. cbn [try_catch Traced_AsyncMonad].
  unfold traced at 1. destruct (fn s) as [[v|e] s1] eqn:Hfn.
  - exists [], (Ok v), s1. cbn.
    split; [reflexivity|]. split; [constructor|]. split; [lia|]. intros e He; discriminate.
  - destruct (isQuotaError e) eqn:Hq; cbn [andb].
    + destruct (i <? maxRetries - 1)%nat eqn:Hlt.
      * apply Nat.ltb_lt in Hlt.
        destruct (IH (i + 1)%nat (delay * 2) (elapse delay s1)) as
          (errs & last & s' & Hrun & Hall & Hlen & Hlast); [lia | lia |].
        exists (e :: errs), last, s'.
        cbn [await console_warn sleep Traced_AsyncMonad]. rewrite Hrun. cbn.
        split; [reflexivity|]. split; [constructor; assumption|]. split; [lia|].
        intros e' He'. destruct (Hlast e' He'); [left; assumption | right; lia].
      * apply Nat.ltb_ge in Hlt.
        exists [], (Err e), s1. cbn.
        split; [reflexivity|]. split; [constructor|]. split; [lia|].
        intros e' [= <-]. right. lia.
    + exists [], (Err e), s1. cbn.
      split; [reflexivity|]. split; [constructor|]. split; [lia|].
      intros e' [= <-]. left. assumption.
Qed.

Lemma calls_in_backoff_trace (errs : list Error) (delay : Z) (last : res T) :
  calls_in (backoff_trace errs delay ++ [Called last]) = Datatypes.S (length errs).
Proof.
  revert delay. induction errs as [|e errs IH]; intros delay; [reflexivity|].
  unfold calls_in in *. cbn. f_equal. apply IH.
Qed.

Lemma sleeps_in_backoff_trace (errs : list Error) (delay : Z) (last : res T) :
  sleeps_in (backoff_trace errs delay ++ [Called last])
  = List.map (fun j => delay * 2 ^ Z.of_nat j) (seq 0 (length errs)).
Proof.
  revert delay. induction errs as [|e errs IH]; intros delay; [reflexivity|].
  unfold sleeps_in in *. cbn [backoff_trace app omap list_omap length seq List.map].
  rewrite IH. f_equal; [cbn; lia|].
  rewrite <- seq_shift, List.map_map. apply List.map_ext. intros j.
  rewrite Nat2Z.inj_succ, Z.pow_succ_r by lia. lia.
Qed.

End RetryFacts.

Lemma In_backoff_trace {T} (errs : list Error) (delay : Z) (e : Error) :
  In (Called (T:=T) (Err e)) (backoff_trace errs delay) -> In e errs.
Proof.
  revert delay. induction errs as [|e0 errs IH]; intros delay; cbn; [tauto|].
  intros [[= ->]|[[=]|[[=]|Hin]]]; [left; reflexivity|right; eapply IH; eassumption].
Qed.

(** C1: for every async function [fn] and every [maxRetries >= 1],
    [retryWithBackoff fn maxRetries] calls [fn] at most [maxRetries]
    times; it calls again only after a rate-limit error ('429' or
    'RESOURCE_EXHAUSTED' in the message) while a call remains, sleeping
    2000 ms, then twice as long each time; any other error is rethrown at
    once and a rate-limit error on the last permitted call is rethrown
    too. Left out, [maxRetries] is 2. *)
Theorem retryWithBackoff_contract {S T} (elapse : Z -> S -> S) (fn : S -> res T * S)
    (maxRetries : nat) (s : S) :
  (1 <= maxRetries)%nat ->
  retry_contract elapse fn maxRetries s
  /\ @retryWithBackoff Traced (Traced_AsyncMonad elapse) T (traced fn) None s
     = @retryWithBackoff Traced (Traced_AsyncMonad elapse) T (traced fn) (Some 2%nat) s.
Proof.
  intros Hpos. split; [|reflexivity].
  destruct (retry_loop_trace elapse fn maxRetries maxRetries 0 2000 s)
    as (errs & last & s' & Hrun & Hall & Hlen & Hlast); [lia | lia |].
  exists errs, last, s'. cbv zeta.
  rewrite calls_in_backoff_trace, sleeps_in_backoff_trace.
  split; [exact Hrun|]. split; [exact Hall|]. split; [lia|].
  split; [f_equal; f_equal; lia|]. split.
  - intros e Hin Hq. apply in_app_or in Hin. destruct Hin as [Hin|[[= <-]|[]]]; [|reflexivity].
    apply In_backoff_trace in Hin. rewrite Forall_forall in Hall.
    rewrite (Hall e) in Hq by (apply list_elem_of_In; exact Hin). discriminate.
  - intros e He. destruct (Hlast e He) as [Hq|Hn]; [left; exact Hq|right; lia].
Qed.

Lemma retryWithBackoff_contract_witness :
  (1 <= 3)%nat
  /\ retry_contract (fun _ n => n) always_429 3 0%nat.
Proof.
  split; [lia|]. apply (retryWithBackoff_contract (fun _ n => n) always_429 3 0%nat). lia.
Defined.

Example retry_always_429 :
  @retryWithBackoff Traced (Traced_AsyncMonad (fun _ n => n)) unit (traced always_429)
    (Some 3%nat) 0%nat
  = (Err {| message := Some "429 Too Many Requests" |}, 3%nat,
     [Called (Err {| message := Some "429 Too Many Requests" |}); Warned 2000; Slept 2000;
      Called (Err {| message := Some "429 Too Many Requests" |}); Warned 4000; Slept 4000;
      Called (Err {| message := Some "429 Too Many Requests" |})]).
Proof. reflexivity. Qed.

Example isQuotaError_samples :
  isQuotaError {| message := Some "got status: 429 Too Many Requests" |} = true
  /\ isQuotaError {| message := Some "quota: RESOURCE_EXHAUSTED" |} = true
  /\ isQuotaError {| message := Some "Failed to fetch" |} = false
  /\ isQuotaError {| message := None |} = false.
Proof. repeat split; reflexivity. Qed.

(** ** [calculateScore]: the score *)

Example Math_round_samples :
  Math_round (PrimFloat.div (Number 1) (Number 2)) = 1
  /\ Math_round (PrimFloat.div (Number 1) (Number 4)) = 0
  /\ Math_round (PrimFloat.div (Number 7) (Number 2)) = 4
  /\ Math_round (Number 100) = 100
  /\ Math_round (PrimFloat.opp (PrimFloat.div (Number 1) (Number 2))) = 0
  /\ Math_round (PrimFloat.opp (PrimFloat.div (Number 3) (Number 2))) = -1.
Proof. vm_compute. repeat split; reflexivity. Qed.

Lemma fold_grade (answers : gmap string string) (qs : list Question.t) (acc : Tally) :
  fold_left (grade answers) qs acc
  = {| choiceCorrect := choiceCorrect acc + count_of (answered_right answers) qs;
       choiceTotal := choiceTotal acc + count_of is_choice qs;
       currentWrong :=
         currentWrong acc ++ List.filter (fun q => negb (answered_right answers q)) qs |}.
Proof.
  revert acc. induction qs as [|q qs IH]; intros acc.
  - destruct acc. cbn. unfold count_of. cbn. f_equal; [lia | lia | symmetry; apply app_nil_r].
  - cbn [fold_left]. rewrite IH. unfold grade, count_of, answered_right, is_choice.
    cbn [List.filter]. destruct (Question.type q); cbn [andb negb].
    + rewrite bool_decide_decide.
      destruct (decide (answers !! Question.id q = Some (Question.answer q)));
        cbn [choiceCorrect choiceTotal currentWrong negb length];
        f_equal; try lia; rewrite <- ?app_assoc; reflexivity.
    + cbn [choiceCorrect choiceTotal currentWrong]. f_equal; rewrite <- ?app_assoc; reflexivity.
Qed.

Lemma tally_counts (qs : list Question.t) (answers : gmap string string) :
  tally qs answers
  = {| choiceCorrect := count_of (answered_right answers) qs;
       choiceTotal := count_of is_choice qs;
       currentWrong := List.filter (fun q => negb (answered_right answers q)) qs |}.
Proof. unfold tally. rewrite fold_grade. reflexivity. Qed.

Lemma scores_agree_table :
  forallb (fun t => forallb (scores_agree t) (seq 0 (Datatypes.S t))) (seq 1 39) = true.
Proof. vm_compute. reflexivity. Qed.

Lemma scores_agree_below_40 (c t : Z) :
  0 <= c <= t -> 0 < t < 40 ->
  score_as_coded c t = score_as_claimed c t /\ score_as_coded c t = score_exact c t.
Proof.
  intros Hc Ht.
  pose proof scores_agree_table as Htab. rewrite forallb_forall in Htab.
  specialize (Htab (Z.to_nat t)). rewrite forallb_forall in Htab.
  specialize (Htab ltac:(apply in_seq; lia) (Z.to_nat c) ltac:(apply in_seq; lia)).
  unfold scores_agree in Htab. rewrite !Z2Nat.id in Htab by lia.
  apply andb_prop in Htab. destruct Htab as [H1 H2].
  split; apply Z.eqb_eq; assumption.
Qed.

Lemma right_le_choice (answers : gmap string string) (qs : list Question.t) :
  0 <= count_of (answered_right answers) qs <= count_of is_choice qs.
Proof.
  unfold count_of. split; [lia|]. apply inj_le.
  induction qs as [|q qs IH]; [reflexivity|].
  cbn [List.filter]. unfold answered_right at 1.
  destruct (is_choice q); cbn [andb]; [|exact IH].
  destruct (bool_decide _); cbn [length]; lia.
Qed.

Lemma recordScore_score `{!JSON UserProgress}
    (newWrongs : UserProgress -> list Question.t -> list Question.t) (w : World) :
  score (snd (recordScore newWrongs w))
  = Some (score_as_coded (count_of (answered_right (userAnswers w)) (questions w))
            (count_of is_choice (questions w))).
Proof.
  unfold recordScore. rewrite tally_counts.
  destruct (user w) as [u|]; [destruct (selectedLesson w) as [lesson|]|]; reflexivity.
Qed.

(** C2, as amended: on submission [calculateScore] sets the score to
    [Math.round((c / t) * 100)], the quotient rounded to a double before
    it is multiplied, where [t] counts the choice questions of the quiz
    and [c] those whose recorded answer equals [q.answer]; with fewer
    than 40 choice questions this is [Math.round(100 * c / t)] and the
    exact percentage rounded half up; without choice questions the score
    is 100; every other question, and every choice question answered
    wrongly or not at all, is collected into the current wrong list. *)
Theorem calculateScore_score `{!JSON UserProgress} (w : World) :
  let c := count_of (answered_right (userAnswers w)) (questions w) in
  let t := count_of is_choice (questions w) in
  score (snd (AppBanner.calculateScore w)) = Some (score_as_coded c t)
  /\ score (snd (AppPrefetch.calculateScore w)) = Some (score_as_coded c t)
  /\ (t = 0 -> score_as_coded c t = 100)
  /\ (0 < t < 40 ->
      score_as_coded c t = score_as_claimed c t /\ score_as_coded c t = score_exact c t)
  /\ currentWrong (tally (questions w) (userAnswers w))
     = List.filter (fun q => negb (answered_right (userAnswers w) q)) (questions w).
Proof.
  cbv zeta. split; [apply recordScore_score|]. split; [apply recordScore_score|].
  split; [intros ->; reflexivity|]. split.
  - intros Ht. apply scores_agree_below_40; [apply right_le_choice | exact Ht].
  - rewrite tally_counts. reflexivity.
Qed.

(** C2 as stated fails: a quiz of 40 choice questions with 23 right
    answers is scored 57, and [Math.round(100 * 23 / 40)] is 58. *)
Lemma calculateScore_score_counterexample :
  let w := Sample.quiz 40 23 in
  count_of is_choice (questions w) = 40
  /\ count_of (answered_right (userAnswers w)) (questions w) = 23
  /\ score (snd (@AppBanner.calculateScore Sample.user_JSON w)) = Some 57
  /\ score (snd (@AppPrefetch.calculateScore Sample.user_JSON w)) = Some 57
  /\ score_as_claimed 23 40 = 58
  /\ score (snd (@AppPrefetch.calculateScore Sample.user_JSON w))
     <> Some (score_as_claimed (count_of (answered_right (userAnswers w)) (questions w))
               (count_of is_choice (questions w))).
Proof.
  cbv zeta.
  assert (Ht : count_of is_choice (questions (Sample.quiz 40 23)) = 40)
    by (vm_compute; reflexivity).
  assert (Hc : count_of (answered_right (userAnswers (Sample.quiz 40 23)))
                 (questions (Sample.quiz 40 23)) = 23)
    by (vm_compute; reflexivity).
  assert (Hcode : score_as_coded 23 40 = 57) by (vm_compute; reflexivity).
  assert (Hclaim : score_as_claimed 23 40 = 58) by (vm_compute; reflexivity).
  split; [exact Ht|]. split; [exact Hc|].
  unfold AppBanner.calculateScore, AppPrefetch.calculateScore.
  rewrite !recordScore_score, Ht, Hc, Hcode, Hclaim.
  repeat split; discriminate.
Qed.

(** ** The cache *)

Lemma truthy_nonempty (s : string) : s <> "" -> truthy s = true.
Proof. destruct s; [congruence | reflexivity]. Qed.

Lemma stringify_nonempty `{JSON T} (v : T) :
  JSON_parse (JSON_stringify v) = Ok v -> JSON_stringify v <> "".
Proof. intros Hrt Hempty. rewrite Hempty in Hrt. exact (JSON_parse_empty v Hrt). Qed.

Lemma parsed_nonempty `{JSON T} (s : string) (v : T) : JSON_parse s = Ok v -> s <> "".
Proof. intros Hp ->. exact (JSON_parse_empty v Hp). Qed.

(** A stored string that parses is what [getCachedData] returns. *)
Lemma getCachedData_hit `{JSON T} (k s : string) (v : T) (w : World) :
  localStorage w !! ("cache_" +:+ k) = Some s ->
  JSON_parse s = Ok v ->
  getCachedData k w = Ok (Some v).
Proof.
  intros Hs Hp. unfold getCachedData. rewrite Hs.
  rewrite (truthy_nonempty s (parsed_nonempty s v Hp)), Hp. reflexivity.
Qed.

Lemma getCachedData_miss `{JSON T} (k : string) (w : World) :
  localStorage w !! ("cache_" +:+ k) = None ->
  getCachedData (T:=T) k w = Ok None.
Proof. intros Hs. unfold getCachedData. rewrite Hs. reflexivity. Qed.

Lemma set_localStorage_same (w : World) : set_localStorage (localStorage w) w = w.
Proof. destruct w; reflexivity. Qed.

(** C6: for every key [k] and every JSON-serializable value [v],
    [getCachedData k] after [setCachedData k v] returns [v]; both
    functions touch the local-storage key ['cache_' + k] only, and
    [getCachedData] returns [null] when that key is absent. *)
Theorem cache_round_trip `{JSON T} (k : string) (v : T) (w : World) :
  JSON_parse (JSON_stringify v) = Ok v ->
  getCachedData k (setCachedData k v w) = Ok (Some v)
  /\ (forall k', k' <> "cache_" +:+ k ->
        localStorage (setCachedData k v w) !! k' = localStorage w !! k')
  /\ set_localStorage (localStorage w) (setCachedData k v w) = w
  /\ (forall w1 w2 : World,
        localStorage w1 !! ("cache_" +:+ k) = localStorage w2 !! ("cache_" +:+ k) ->
        getCachedData (T:=T) k w1 = getCachedData k w2)
  /\ (localStorage w !! ("cache_" +:+ k) = None -> getCachedData (T:=T) k w = Ok None).
Proof.
  intros Hrt. split; [|split; [|split; [|split]]].
  - apply (getCachedData_hit k (JSON_stringify v)); [|exact Hrt].
    unfold setCachedData. destruct w; cbn. apply lookup_insert_eq.
  - intros k' Hne. unfold setCachedData. destruct w; cbn.
    apply lookup_insert_ne. congruence.
  - unfold setCachedData. destruct w; reflexivity.
  - intros w1 w2 Heq. unfold getCachedData. rewrite Heq. reflexivity.
  - apply getCachedData_miss.
Qed.

Lemma cache_round_trip_witness :
  @JSON_parse string Sample.string_JSON (@JSON_stringify string Sample.string_JSON "hello")
  = Ok "hello"
  /\ @getCachedData string Sample.string_JSON "mindmap_lesson_1"
       (@setCachedData string Sample.string_JSON "mindmap_lesson_1" "hello" Sample.blank)
     = Ok (Some "hello").
Proof.
  split; [reflexivity|].
  apply (@cache_round_trip string Sample.string_JSON "mindmap_lesson_1" "hello" Sample.blank).
  reflexivity.
Defined.

(** ** Running the services *)

(** A run only adds to the requests it starts from. *)
Lemma run_from_requests {A} (net : Network) (p : Promise A) (rqs : list Request)
    (tms : list Z) :
  exists more, requests (run_from net p rqs tms) = rqs ++ more.
Proof.
  revert rqs tms. induction p as [r w|rq w k IH|ms w k IH]; intros rqs tms; cbn [run_from].
  - exists []. cbn. symmetry. apply app_nil_r.
  - destruct (IH (reply net (length rqs)) (tick (latency net (length rqs)) w)
                (rqs ++ [rq]) tms) as [more Hmore].
    exists (rq :: more). rewrite Hmore, <- app_assoc. reflexivity.
  - apply IH.
Qed.

Lemma run_from_asks {A} (net : Network) (rq : Request) (w : World)
    (k : res Response -> World -> Promise A) :
  requests (run_from net (AwaitGenerate rq w k) [] []) <> [].
Proof.
  cbn [run_from].
  destruct (run_from_requests net (k (reply net (length (@nil Request)))
              (tick (latency net (length (@nil Request))) w)) ([] ++ [rq]) [])
    as [more ->].
  discriminate.
Qed.

(** On a failed request part_001 logs the error, returns the empty list
    and leaves local storage as it was. *)
Lemma timestamp_generate_failure `{Builtins} `{!JSON (list Question.t)}
    (net : Network) (w : World) (lessonId : Z) (content : string) (e : Error) :
  reply net 0 = Err e ->
  run net (ServiceTimestamp.generateQuestionsFromContent lessonId content true) w
  = {| result := Ok [];
       final := console_error "AI Question Generation Error" e (tick (latency net 0) w);
       requests := [QuizPrompt content (Some (clock w))];
       timers := [] |}.
Proof.
  intros Hr. unfold run, ServiceTimestamp.generateQuestionsFromContent.
  cbn [negb try_catch Task_AsyncMonad await generateContent read
       Promise_then Promise_catch run_from length].
  rewrite Hr. reflexivity.
Qed.




(** ** [searchGuangzhouExamTrends] *)

Section TrendsFacts.
Context `{Builtins} `{!JSON Trends}.

(** The condition of part_001, line 103, holds only for a fresh cache. *)
Lemma condition_fresh (w : World) (cached : Trends) (ts : string) :
  getCachedData "exam_trends" w = Ok (Some cached) ->
  localStorage w !! "trends_timestamp" = Some ts ->
  truthy cached && truthy ts && ServiceTimestamp.within_the_hour (clock w) ts = true ->
  trends_fresh w cached.
Proof.
  intros Hc Hts Hcond. split; [exact Hc|].
  apply andb_prop in Hcond. destruct Hcond as [Hcond Hw].
  apply andb_prop in Hcond. destruct Hcond as [_ Ht].
  unfold ServiceTimestamp.within_the_hour in Hw.
  destruct (parseInt ts) as [t|] eqn:Hp; [|discriminate].
  exists ts, t. split; [exact Hts|]. split; [intros ->; discriminate|].
  split; [exact Hp|]. apply Z.ltb_lt. exact Hw.
Qed.

(** And a fresh cache makes it hold. *)
Lemma fresh_condition (w : World) (cached : Trends) :
  trends_fresh w cached ->
  exists ts, localStorage w !! "trends_timestamp" = Some ts
    /\ truthy cached && truthy ts && ServiceTimestamp.within_the_hour (clock w) ts = true.
Proof.
  intros (_ & ts & t & Hts & Hne & Hp & Hlt). exists ts. split; [exact Hts|].
  unfold ServiceTimestamp.within_the_hour. rewrite Hp, (truthy_nonempty ts Hne).
  replace (clock w - t <? 3600000) with true by (symmetry; apply Z.ltb_lt; exact Hlt).
  reflexivity.
Qed.

End TrendsFacts.

(** C4, as amended: in the revision that keeps a time stamp (part_001)
    [searchGuangzhouExamTrends] returns the cached result without a
    request exactly when a value that is not empty and parses is stored
    under ['cache_exam_trends'] and the stored ['trends_timestamp'] is a
    number less than 3600000 ms before the current time; when the stored
    entry does not parse it throws the parse error without a request;
    otherwise it sends one request and on success writes the cache entry
    and a new time stamp, on failure throws and stores nothing. In the
    revision with retry (part_000) it returns the cached result without
    a request exactly when such an entry is stored, whatever its age,
    throws likewise on an entry that does not parse, and otherwise sends
    one request, and a second one after 2000 ms exactly when the first
    failed with a rate-limit error; it writes the cache entry alone when
    the request that ends the call succeeds, and never touches
    ['trends_timestamp']. *)
Theorem searchGuangzhouExamTrends_cache `{Builtins} `{!JSON Trends} :
  trends_contract ServiceTimestamp.searchGuangzhouExamTrends
  /\ trends_contract_without_age ServiceBackoff.searchGuangzhouExamTrends.
Proof.
  split.
  { (* part_001 *)
    intros net w. cbv zeta.
    assert (Hhit : forall cached, trends_fresh w cached ->
              run net ServiceTimestamp.searchGuangzhouExamTrends w
              = {| result := Ok cached; final := w; requests := []; timers := [] |}).
    { intros cached Hfresh. destruct (fresh_condition w cached Hfresh) as (ts & Hts & Hcond).
      destruct Hfresh as [Hc _].
      unfold run, ServiceTimestamp.searchGuangzhouExamTrends.
      cbn [await Task_AsyncMonad attempt read Promise_then].
      rewrite Hc, Hts, Hcond. reflexivity. }
    assert (Hquery : forall stored : option Trends,
              getCachedData "exam_trends" w = Ok stored ->
              (forall cached, ~ trends_fresh w cached) ->
              run net ServiceTimestamp.searchGuangzhouExamTrends w
              = match reply net 0 with
                | Ok resp =>
                    {| result := Ok (trends_of resp);
                       final :=
                         set_localStorage
                           (<["trends_timestamp" :=
                                Number_toString (clock w + latency net 0)]>
                              (<["cache_exam_trends" := JSON_stringify (trends_of resp)]>
                                 (localStorage w)))
                           (tick (latency net 0) w);
                       requests := [TrendsPrompt]; timers := [] |}
                | Err e =>
                    {| result := Err e; final := tick (latency net 0) w;
                       requests := [TrendsPrompt]; timers := [] |}
                end).
    { intros stored Hc Hstale.
      unfold run, ServiceTimestamp.searchGuangzhouExamTrends.
      cbn [await Task_AsyncMonad attempt read Promise_then].
      rewrite Hc.
      assert (Hgo : forall A (a b : A) cached ts,
                stored = Some cached ->
                localStorage w !! "trends_timestamp" = Some ts ->
                (if truthy cached && truthy ts
                    && ServiceTimestamp.within_the_hour (clock w) ts then a else b) = b).
      { intros A a b cached ts -> Hts.
        destruct (truthy cached && truthy ts
                  && ServiceTimestamp.within_the_hour (clock w) ts) eqn:Hcond; [|reflexivity].
        destruct (Hstale cached (condition_fresh w cached ts Hc Hts Hcond)). }
      destruct stored as [cached|];
        [destruct (localStorage w !! "trends_timestamp") as [ts|] eqn:Hts;
           [rewrite (Hgo _ _ _ cached ts eq_refl eq_refl)|]|];
        cbn [await Task_AsyncMonad generateContent Promise_then run_from length app];
        destruct (reply net 0); cbn; try reflexivity;
        unfold setCachedData, tick; destruct w; reflexivity. }
    assert (Hthrow : forall e, getCachedData (T:=Trends) "exam_trends" w = Err e ->
              run net ServiceTimestamp.searchGuangzhouExamTrends w
              = {| result := Err e; final := w; requests := []; timers := [] |}).
    { intros e Hc. unfold run, ServiceTimestamp.searchGuangzhouExamTrends.
      cbn [await Task_AsyncMonad attempt read Promise_then]. rewrite Hc. reflexivity. }
    split; [exact Hhit|]. split; [|split; [exact Hthrow|]].
    - split.
      + intros [cached Hfresh]. rewrite (Hhit cached Hfresh). cbn. split; [reflexivity|].
        exists cached. reflexivity.
      + intros [Hnone [v Hv]].
        destruct (getCachedData (T:=Trends) "exam_trends" w) as [stored|e] eqn:Hc.
        * destruct stored as [cached|].
          -- destruct (localStorage w !! "trends_timestamp") as [ts|] eqn:Hts.
             ++ destruct (truthy cached && truthy ts
                          && ServiceTimestamp.within_the_hour (clock w) ts) eqn:Hcond.
                ** exists cached. exact (condition_fresh w cached ts Hc Hts Hcond).
                ** exfalso. revert Hnone.
                   unfold run, ServiceTimestamp.searchGuangzhouExamTrends.
                   cbn [await Task_AsyncMonad attempt read Promise_then].
                   rewrite Hc, Hts, Hcond.
                   cbn [await Task_AsyncMonad generateContent Promise_then].
                   apply run_from_asks.
             ++ exfalso. revert Hnone.
                unfold run, ServiceTimestamp.searchGuangzhouExamTrends.
                cbn [await Task_AsyncMonad attempt read Promise_then].
                rewrite Hc, Hts.
                cbn [await Task_AsyncMonad generateContent Promise_then].
                apply run_from_asks.
          -- exfalso. revert Hnone.
             unfold run, ServiceTimestamp.searchGuangzhouExamTrends.
             cbn [await Task_AsyncMonad attempt read Promise_then].
             rewrite Hc.
             destruct (localStorage w !! "trends_timestamp");
               cbn [await Task_AsyncMonad generateContent Promise_then];
               apply run_from_asks.
        * rewrite (Hthrow e eq_refl) in Hv. discriminate.
    - intros Hstale Hparses.
      destruct (getCachedData (T:=Trends) "exam_trends" w) as [stored|e] eqn:Hc;
        [|destruct (Hparses e eq_refl)].
      rewrite (Hquery stored eq_refl Hstale).
      destruct (reply net 0) as [resp|e]; cbn [result final requests timers].
      + split; [reflexivity|]. split; [reflexivity|]. split.
        * intros resp' [= <-]. split; [reflexivity|]. destruct w; reflexivity.
        * intros e [=].
      + split; [reflexivity|]. split; [reflexivity|]. split.
        * intros resp [=].
        * intros e' [= <-]. split; [reflexivity|]. destruct w; reflexivity. }
  { (* part_000 *)
    intros net w. cbv zeta.
    assert (Hhit : forall cached, getCachedData "exam_trends" w = Ok (Some cached) ->
              run net ServiceBackoff.searchGuangzhouExamTrends w
              = {| result := Ok cached; final := w; requests := []; timers := [] |}).
    { intros cached Hc. unfold run, ServiceBackoff.searchGuangzhouExamTrends.
      cbn [await Task_AsyncMonad attempt Promise_then]. rewrite Hc. reflexivity. }
    assert (Hthrow : forall e, getCachedData (T:=Trends) "exam_trends" w = Err e ->
              run net ServiceBackoff.searchGuangzhouExamTrends w
              = {| result := Err e; final := w; requests := []; timers := [] |}).
    { intros e Hc. unfold run, ServiceBackoff.searchGuangzhouExamTrends.
      cbn [await Task_AsyncMonad attempt Promise_then]. rewrite Hc. reflexivity. }
    split; [exact Hhit|]. split; [|split; [exact Hthrow|split]].
    - split.
      + intros [cached Hc]. rewrite (Hhit cached Hc). cbn. split; [reflexivity|].
        exists cached. reflexivity.
      + intros [Hnone [v Hv]].
        destruct (getCachedData (T:=Trends) "exam_trends" w) as [[cached|]|e] eqn:Hc.
        * exists cached. reflexivity.
        * exfalso. revert Hnone.
          unfold run, ServiceBackoff.searchGuangzhouExamTrends, retryWithBackoff.
          cbn [await Task_AsyncMonad attempt Promise_then]. rewrite Hc.
          cbn [default retry_loop try_catch Task_AsyncMonad await generateContent
               Promise_then Promise_catch].
          apply run_from_asks.
        * rewrite (Hthrow e eq_refl) in Hv. discriminate.
    - intros Hc.
      unfold run, ServiceBackoff.searchGuangzhouExamTrends, retryWithBackoff.
      cbn [await Task_AsyncMonad attempt Promise_then]. rewrite Hc.
      cbn [default retry_loop try_catch Task_AsyncMonad await generateContent sleep
           console_warn update resolve reject Promise_then Promise_catch run_from length
           List.app].
      split; [|split].
      + intros resp ->. reflexivity.
      + intros e -> Hq. cbn [Promise_then Promise_catch]. rewrite Hq. reflexivity.
      + intros e -> Hq. cbn [Promise_then Promise_catch]. rewrite Hq.
        cbn [andb Nat.ltb Nat.leb Nat.sub Nat.add update resolve reject Task_AsyncMonad
             Promise_then Promise_catch run_from length List.app].
        split.
        * intros resp ->. reflexivity.
        * intros e' ->. cbn [Promise_then Promise_catch]. rewrite andb_false_r. reflexivity.
    - unfold run, ServiceBackoff.searchGuangzhouExamTrends, retryWithBackoff.
      cbn [await Task_AsyncMonad attempt Promise_then].
      destruct (getCachedData (T:=Trends) "exam_trends" w) as [[cached|]|e];
        [reflexivity| |reflexivity].
      cbn [default retry_loop try_catch Task_AsyncMonad await generateContent sleep
           console_warn Promise_then Promise_catch run_from length List.app].
      destruct (reply net 0) as [resp|e].
      + destruct w; cbn. apply lookup_insert_ne. discriminate.
      + cbn [Promise_then Promise_catch].
        destruct (isQuotaError e); cbn [andb Nat.ltb Nat.leb Nat.sub]; [|reflexivity].
        cbn. destruct (reply net 1) as [resp|e'];
          [|cbn; rewrite andb_false_r; reflexivity].
        destruct w; cbn. apply lookup_insert_ne. discriminate. }
Qed.

(** C4 as stated fails on the revision with retry: with trends cached and
    no time stamp stored, the cache is not fresh, yet the cached result
    is returned and no request is made. It also fails on the revision
    with the time stamp when the value stored under the key is the empty
    string: the stamp is fresh, and a request is made. *)
Lemma searchGuangzhouExamTrends_cache_counterexample :
  let emptied : World :=
    set_clock 2000
      (set_localStorage {[ "cache_exam_trends" := ""; "trends_timestamp" := "1000" ]}
         Sample.blank) in
  run SampleRuns.always_empty
    (@ServiceBackoff.searchGuangzhouExamTrends Sample.trends_JSON) SampleRuns.cached_trends
  = {| result := Ok Sample.no_trends; final := SampleRuns.cached_trends;
       requests := []; timers := [] |}
  /\ (forall cached,
        ~ @trends_fresh Sample.builtins Sample.trends_JSON SampleRuns.cached_trends cached)
  /\ ~ @trends_contract Sample.builtins Sample.trends_JSON
         (@ServiceBackoff.searchGuangzhouExamTrends Sample.trends_JSON)
  /\ localStorage emptied !! "cache_exam_trends" = Some ""
  /\ requests
       (run SampleRuns.always_empty
          (@ServiceTimestamp.searchGuangzhouExamTrends Sample.builtins Sample.trends_JSON)
          emptied)
     = [TrendsPrompt].
Proof.
  cbv zeta.
  assert (Hstale : forall cached,
            ~ @trends_fresh Sample.builtins Sample.trends_JSON SampleRuns.cached_trends cached).
  { intros cached (_ & ts & t & Hts & _). vm_compute in Hts. discriminate. }
  split; [reflexivity|]. split; [exact Hstale|]. split; [|split; reflexivity].
  intros Hcontract.
  destruct (Hcontract SampleRuns.always_empty SampleRuns.cached_trends)
    as (_ & [_ Hserved] & _).
  destruct Hserved as [cached Hfresh].
  - split; [reflexivity|]. exists Sample.no_trends. reflexivity.
  - exact (Hstale cached Hfresh).
Qed.

Lemma searchGuangzhouExamTrends_cache_witness :
  let limited : Network :=
    {| reply := fun n =>
         match n with
         | O => Err {| message := Some "429 Too Many Requests" |}
         | _ => Ok {| text := None; groundingChunks := None |}
         end;
       latency := fun _ => 150 |} in
  @trends_fresh Sample.builtins Sample.trends_JSON SampleRuns.fresh_trends Sample.no_trends
  /\ run SampleRuns.always_empty
       (@ServiceTimestamp.searchGuangzhouExamTrends Sample.builtins Sample.trends_JSON)
       SampleRuns.fresh_trends
     = {| result := Ok Sample.no_trends; final := SampleRuns.fresh_trends;
          requests := []; timers := [] |}
  /\ requests
       (run limited (@ServiceBackoff.searchGuangzhouExamTrends Sample.trends_JSON)
          Sample.blank)
     = [TrendsPrompt; TrendsPrompt]
  /\ localStorage
       (final (run limited (@ServiceBackoff.searchGuangzhouExamTrends Sample.trends_JSON)
                 Sample.blank))
     !! "cache_exam_trends" = Some "{}".
Proof.
  cbv zeta.
  assert (Hfresh : @trends_fresh Sample.builtins Sample.trends_JSON SampleRuns.fresh_trends
                     Sample.no_trends).
  { split; [reflexivity|]. exists "1000", 1000.
    split; [reflexivity|]. split; [discriminate|]. split; [reflexivity|]. reflexivity. }
  split; [exact Hfresh|].
  destruct (@searchGuangzhouExamTrends_cache Sample.builtins Sample.trends_JSON)
    as [Hts Hbo].
  split.
  - destruct (Hts SampleRuns.always_empty SampleRuns.fresh_trends) as [Hhit _].
    apply Hhit. exact Hfresh.
  - destruct (Hbo {| reply := fun n =>
                       match n with
                       | O => Err {| message := Some "429 Too Many Requests" |}
                       | _ => Ok {| text := None; groundingChunks := None |}
                       end;
                     latency := fun _ => 150 |} Sample.blank)
      as (_ & _ & _ & Hmiss & _).
    destruct (Hmiss eq_refl) as (_ & _ & Hretry).
    destruct (Hretry {| message := Some "429 Too Many Requests" |} eq_refl eq_refl)
      as [Hsecond _].
    rewrite (Hsecond {| text := None; groundingChunks := None |} eq_refl).
    split; reflexivity.
Defined.

(** ** [calculateScore]: the wrong questions and the best score *)

Lemma find_id_None (x : string) (l : list Question.t) :
  List.find (fun wq => String.eqb (Question.id wq) x) l = None
  <-> ~ In x (List.map Question.id l).
Proof.
  induction l as [|q l IH]; cbn; [tauto|].
  destruct (String.eqb_spec (Question.id q) x) as [Heq|Hne].
  - split; [discriminate | intros Hn; destruct Hn; left; exact Heq].
  - rewrite IH. tauto.
Qed.

Lemma newWrongs_banner (u : UserProgress) (cw : list Question.t) :
  AppBanner.newWrongs u cw
  = List.filter (fun q => negb (bool_decide (Question.id q ∈ wrong_ids u))) cw.
Proof.
  unfold AppBanner.newWrongs. apply filter_ext. intros q.
  destruct (List.find _ (wrongQuestions u)) eqn:Hf.
  - rewrite bool_decide_eq_true_2; [reflexivity|].
    destruct (decide (Question.id q ∈ wrong_ids u)) as [Hin|Hn]; [exact Hin|].
    rewrite list_elem_of_In in Hn. apply find_id_None in Hn. congruence.
  - apply find_id_None in Hf. rewrite bool_decide_eq_false_2; [reflexivity|].
    rewrite list_elem_of_In. exact Hf.
Qed.

Lemma newWrongs_prefetch (u : UserProgress) (cw : list Question.t) :
  AppPrefetch.newWrongs u cw
  = List.filter (fun q => negb (bool_decide (Question.id q ∈ wrong_ids u))) cw.
Proof.
  unfold AppPrefetch.newWrongs. apply filter_ext. intros q. f_equal.
  apply bool_decide_ext. rewrite elem_of_list_to_set. reflexivity.
Qed.

Lemma NoDup_ids_filter (f : Question.t -> bool) (l : list Question.t) :
  NoDup (List.map Question.id l) -> NoDup (List.map Question.id (List.filter f l)).
Proof.
  induction l as [|q l IH]; cbn; [trivial|].
  intros Hnd. apply NoDup_cons in Hnd. destruct Hnd as [Hq Hl].
  destruct (f q); cbn; [|exact (IH Hl)].
  apply NoDup_cons. split; [|exact (IH Hl)].
  intros Hin. apply Hq. apply list_elem_of_In in Hin. apply list_elem_of_In.
  apply in_map_iff in Hin. destruct Hin as (q' & Hid & Hin').
  apply filter_In in Hin'. apply in_map_iff. exists q'. tauto.
Qed.

(** Appending the wrong questions whose id is new keeps ids distinct. *)
Lemma NoDup_ids_append (old cw : list Question.t) :
  NoDup (List.map Question.id old) ->
  NoDup (List.map Question.id cw) ->
  NoDup (List.map Question.id
           (old ++ List.filter
                     (fun q => negb (bool_decide (Question.id q ∈ List.map Question.id old)))
                     cw)).
Proof.
  intros Hold Hcw. rewrite List.map_app. apply NoDup_app.
  split; [exact Hold|]. split; [|apply NoDup_ids_filter; exact Hcw].
  intros x Hx Hx'. apply list_elem_of_In in Hx'.
  apply in_map_iff in Hx'. destruct Hx' as (q & <- & Hq).
  apply filter_In in Hq. destruct Hq as [_ Hq].
  rewrite bool_decide_eq_true_2 in Hq by exact Hx. discriminate.
Qed.

Lemma currentWrong_ids (w : World) :
  NoDup (List.map Question.id (questions w)) ->
  NoDup (List.map Question.id (currentWrong (tally (questions w) (userAnswers w)))).
Proof. intros Hnd. rewrite tally_counts. cbn. apply NoDup_ids_filter. exact Hnd. Qed.

Lemma recordScore_wrong `{!JSON UserProgress}
    (newWrongs : UserProgress -> list Question.t -> list Question.t)
    (w : World) (u : UserProgress) :
  (forall u cw, newWrongs u cw
     = List.filter (fun q => negb (bool_decide (Question.id q ∈ wrong_ids u))) cw) ->
  user w = Some u ->
  NoDup (List.map Question.id (questions w)) ->
  NoDup (wrong_ids u) ->
  exists (u' : UserProgress) (added : list Question.t),
    user (snd (recordScore newWrongs w)) = Some u'
    /\ wrongQuestions u' = wrongQuestions u ++ added
    /\ NoDup (wrong_ids u')
    /\ forall q, q ∈ added ->
         q ∈ currentWrong (tally (questions w) (userAnswers w))
         /\ Question.id q ∉ wrong_ids u.
Proof.
  intros Hnw Hu Hqs Hold. unfold recordScore. rewrite Hu.
  destruct (selectedLesson w) as [lesson|].
  - eexists. exists (newWrongs u (currentWrong (tally (questions w) (userAnswers w)))).
    split; [reflexivity|]. split; [reflexivity|]. split.
    + unfold wrong_ids. cbn [wrongQuestions]. rewrite Hnw.
      apply NoDup_ids_append; [exact Hold | apply currentWrong_ids; exact Hqs].
    + intros q Hq. rewrite Hnw in Hq. apply list_elem_of_In, filter_In in Hq.
      destruct Hq as [Hin Hnew]. split; [apply list_elem_of_In; exact Hin|].
      intros Hid. rewrite bool_decide_eq_true_2 in Hnew by exact Hid. discriminate.
  - exists u, []. cbn. rewrite Hu, app_nil_r.
    split; [reflexivity|]. split; [reflexivity|]. split; [exact Hold|].
    intros q Hq. inversion Hq.
Qed.

(** C8: if the questions of the current quiz have distinct ids and
    [user.wrongQuestions] has no two entries with the same id, then after
    [calculateScore] the updated list still has none: the old entries stay
    in front and a newly wrong question whose id is already present is
    not added; and [clearWrongQuestion id] removes exactly the entries
    whose id is [id]. *)
Theorem wrongQuestions_ids_unique `{!JSON UserProgress} (w : World) (u : UserProgress) :
  user w = Some u ->
  NoDup (List.map Question.id (questions w)) ->
  NoDup (wrong_ids u) ->
  (exists u' added,
     user (snd (AppBanner.calculateScore w)) = Some u'
     /\ wrongQuestions u' = wrongQuestions u ++ added
     /\ NoDup (wrong_ids u')
     /\ forall q, q ∈ added ->
          q ∈ currentWrong (tally (questions w) (userAnswers w))
          /\ Question.id q ∉ wrong_ids u)
  /\ (exists u' added,
        user (snd (AppPrefetch.calculateScore w)) = Some u'
        /\ wrongQuestions u' = wrongQuestions u ++ added
        /\ NoDup (wrong_ids u')
        /\ forall q, q ∈ added ->
             q ∈ currentWrong (tally (questions w) (userAnswers w))
             /\ Question.id q ∉ wrong_ids u)
  /\ (forall id, exists u',
        user (clearWrongQuestion id w) = Some u'
        /\ (forall q, q ∈ wrongQuestions u' <-> q ∈ wrongQuestions u /\ Question.id q <> id)
        /\ NoDup (wrong_ids u')).
Proof.
  intros Hu Hqs Hold. split; [|split].
  - apply recordScore_wrong; [apply newWrongs_banner | assumption..].
  - apply recordScore_wrong; [apply newWrongs_prefetch | assumption..].
  - intros id. unfold clearWrongQuestion. rewrite Hu. eexists. split; [reflexivity|].
    cbn [wrongQuestions]. split.
    + intros q. rewrite !list_elem_of_In, filter_In.
      destruct (String.eqb_spec (Question.id q) id); cbn; split;
        intros [Hin Hne]; split; congruence.
    + apply NoDup_ids_filter. exact Hold.
Qed.

Lemma wrongQuestions_ids_unique_witness :
  user SampleRuns.returning_quiz = Some SampleRuns.returning_user
  /\ NoDup (List.map Question.id (questions SampleRuns.returning_quiz))
  /\ NoDup (wrong_ids SampleRuns.returning_user)
  /\ exists u' added,
       user (snd (@AppPrefetch.calculateScore Sample.user_JSON SampleRuns.returning_quiz))
       = Some u'
       /\ wrongQuestions u' = wrongQuestions SampleRuns.returning_user ++ added
       /\ NoDup (wrong_ids u')
       /\ forall q, q ∈ added ->
            q ∈ currentWrong (tally (questions SampleRuns.returning_quiz)
                                (userAnswers SampleRuns.returning_quiz))
            /\ Question.id q ∉ wrong_ids SampleRuns.returning_user.
Proof.
  assert (Hqs : NoDup (List.map Question.id (questions SampleRuns.returning_quiz))).
  { vm_compute. repeat constructor; rewrite ?list_elem_of_In; cbn;
      intros H; repeat (destruct H as [H|H]; [discriminate H|]); exact H. }
  assert (Hold : NoDup (wrong_ids SampleRuns.returning_user)).
  { vm_compute. repeat constructor. rewrite list_elem_of_In. intros []. }
  split; [reflexivity|]. split; [exact Hqs|]. split; [exact Hold|].
  apply (@wrongQuestions_ids_unique Sample.user_JSON SampleRuns.returning_quiz
           SampleRuns.returning_user eq_refl Hqs Hold).
Defined.

Lemma or_zero_default (stored : option Z) : or_zero stored = default 0 stored.
Proof.
  destruct stored as [s|]; [|reflexivity]. cbn.
  destruct (Z.eqb_spec s 0) as [->|]; reflexivity.
Qed.

(** C9: [calculateScore] writes the larger of the score stored for the
    lesson, a missing entry counting as 0, and the score just computed,
    into [quizScores[lessonId]], and leaves the other lessons alone: no
    submission lowers the score recorded for any lesson. *)
Theorem quizScores_monotone `{!JSON UserProgress} (w : World) (u : UserProgress) :
  user w = Some u ->
  (exists u',
     user (snd (AppBanner.calculateScore w)) = Some u'
     /\ (forall l, recorded u l <= recorded u' l)
     /\ (forall lesson, selectedLesson w = Some lesson ->
           quizScores u'
           = <[Lesson.id lesson :=
                 Z.max (recorded u (Lesson.id lesson))
                   (finalScore (tally (questions w) (userAnswers w)))]> (quizScores u)))
  /\ (exists u',
        user (snd (AppPrefetch.calculateScore w)) = Some u'
        /\ (forall l, recorded u l <= recorded u' l)
        /\ (forall lesson, selectedLesson w = Some lesson ->
              quizScores u'
              = <[Lesson.id lesson :=
                    Z.max (recorded u (Lesson.id lesson))
                      (finalScore (tally (questions w) (userAnswers w)))]> (quizScores u))).
Proof.
  unfold AppBanner.calculateScore, AppPrefetch.calculateScore.
  intros Hu.
  enough (Hboth : forall newWrongs, exists u',
            user (snd (recordScore newWrongs w)) = Some u'
            /\ (forall l, recorded u l <= recorded u' l)
            /\ (forall lesson, selectedLesson w = Some lesson ->
                  quizScores u'
                  = <[Lesson.id lesson :=
                        Z.max (recorded u (Lesson.id lesson))
                          (finalScore (tally (questions w) (userAnswers w)))]>
                      (quizScores u)))
    by (split; apply Hboth).
  intros newWrongs. unfold recordScore. rewrite Hu.
  destruct (selectedLesson w) as [lesson|].
  - eexists. split; [reflexivity|]. cbn [quizScores]. rewrite or_zero_default. split.
    + intros l. unfold recorded. cbn [quizScores].
      destruct (decide (Lesson.id lesson = l)) as [<-|Hne].
      * rewrite lookup_insert_eq. cbn. lia.
      * rewrite lookup_insert_ne by exact Hne. lia.
    + intros lesson' [= <-]. reflexivity.
  - exists u. cbn. split; [exact Hu|]. split; [intros l; lia | intros lesson [=]].
Qed.

Lemma quizScores_monotone_witness :
  user SampleRuns.returning_quiz = Some SampleRuns.returning_user
  /\ exists u',
       user (snd (@AppBanner.calculateScore Sample.user_JSON SampleRuns.returning_quiz))
       = Some u'
       /\ (forall l, recorded SampleRuns.returning_user l <= recorded u' l)
       /\ (forall lesson, selectedLesson SampleRuns.returning_quiz = Some lesson ->
             quizScores u'
             = <[Lesson.id lesson :=
                   Z.max (recorded SampleRuns.returning_user (Lesson.id lesson))
                     (finalScore (tally (questions SampleRuns.returning_quiz)
                                    (userAnswers SampleRuns.returning_quiz)))]>
                 (quizScores SampleRuns.returning_user)).
Proof.
  split; [reflexivity|].
  apply (@quizScores_monotone Sample.user_JSON SampleRuns.returning_quiz
           SampleRuns.returning_user eq_refl).
Defined.

Example returning_quiz_scores :
  score (snd (@AppBanner.calculateScore Sample.user_JSON SampleRuns.returning_quiz)) = Some 33
  /\ (quizScores <$> user (snd (@AppBanner.calculateScore Sample.user_JSON
                                   SampleRuns.returning_quiz))) = Some {[ 1 := 80 ]}
  /\ (wrong_ids <$> user (snd (@AppPrefetch.calculateScore Sample.user_JSON
                                  SampleRuns.returning_quiz))) = Some ["q0"; "q1"; "q2"].
Proof. vm_compute. repeat split; reflexivity. Qed.

(** ** What tasks leave alone *)

Section FrameFacts.
Variable R : World -> World -> Prop.
Hypothesis R_refl : forall w, R w w.
Hypothesis R_trans : forall w1 w2 w3, R w1 w2 -> R w2 w3 -> R w1 w3.

Lemma frames_from {A} (w0 w : World) (p : Promise A) :
  R w0 w -> Promise_frames R w p -> Promise_frames R w0 p.
Proof.
  intros H0 Hp. destruct Hp as [w r w1 H1|w rq w1 k H1 Hk|w ms w1 k H1 Hk].
  - apply frames_settled. eapply R_trans; eassumption.
  - apply frames_generate; [eapply R_trans; eassumption | exact Hk].
  - apply frames_timeout; [eapply R_trans; eassumption | exact Hk].
Qed.

Lemma Promise_then_frames {A B} (w0 : World) (p : Promise A) (f : A -> Task B) :
  Promise_frames R w0 p -> (forall a, Task_frames R (f a)) ->
  Promise_frames R w0 (Promise_then p f).
Proof.
  intros Hp Hf. induction Hp as [w0 r w H1|w0 rq w k H1 Hk IH|w0 ms w k H1 Hk IH].
  - destruct r as [a|e]; cbn.
    + apply (frames_from w0 w); [exact H1 | apply Hf].
    + apply frames_settled. exact H1.
  - cbn. apply frames_generate; [exact H1 | exact IH].
  - cbn. apply frames_timeout; [exact H1 | exact IH].
Qed.

Lemma Promise_catch_frames {A} (w0 : World) (p : Promise A) (h : Error -> Task A) :
  Promise_frames R w0 p -> (forall e, Task_frames R (h e)) ->
  Promise_frames R w0 (Promise_catch p h).
Proof.
  intros Hp Hh. induction Hp as [w0 r w H1|w0 rq w k H1 Hk IH|w0 ms w k H1 Hk IH].
  - destruct r as [a|e]; cbn.
    + apply frames_settled. exact H1.
    + apply (frames_from w0 w); [exact H1 | apply Hh].
  - cbn. apply frames_generate; [exact H1 | exact IH].
  - cbn. apply frames_timeout; [exact H1 | exact IH].
Qed.

Lemma Promise_finally_frames {A} (w0 : World) (p : Promise A) (f : World -> World) :
  Promise_frames R w0 p -> (forall w, R w (f w)) ->
  Promise_frames R w0 (Promise_finally p f).
Proof.
  intros Hp Hf. induction Hp as [w0 r w H1|w0 rq w k H1 Hk IH|w0 ms w k H1 Hk IH]; cbn.
  - apply frames_settled. eapply R_trans; [exact H1 | apply Hf].
  - apply frames_generate; [exact H1 | exact IH].
  - apply frames_timeout; [exact H1 | exact IH].
Qed.

Lemma frames_resolve {A} (a : A) : Task_frames R (resolve a).
Proof. intros w. apply frames_settled, R_refl. Qed.

Lemma frames_reject {A} (e : Error) : Task_frames R (reject (A:=A) e).
Proof. intros w. apply frames_settled, R_refl. Qed.

Lemma frames_read {A} (f : World -> A) : Task_frames R (read f).
Proof. intros w. apply frames_settled, R_refl. Qed.

Lemma frames_attempt {A} (f : World -> res A) : Task_frames R (attempt f).
Proof. intros w. apply frames_settled, R_refl. Qed.

Lemma frames_update (f : World -> World) :
  (forall w, R w (f w)) -> Task_frames R (update f).
Proof. intros Hf w. apply frames_settled, Hf. Qed.

Lemma frames_await {A B} (m : Task A) (f : A -> Task B) :
  Task_frames R m -> (forall a, Task_frames R (f a)) -> Task_frames R (await m f).
Proof. intros Hm Hf w. apply Promise_then_frames; [apply Hm | exact Hf]. Qed.

Lemma frames_try_catch {A} (m : Task A) (h : Error -> Task A) :
  Task_frames R m -> (forall e, Task_frames R (h e)) -> Task_frames R (try_catch m h).
Proof. intros Hm Hh w. apply Promise_catch_frames; [apply Hm | exact Hh]. Qed.

Lemma frames_finally {A} (m : Task A) (f : World -> World) :
  Task_frames R m -> (forall w, R w (f w)) -> Task_frames R (finally m f).
Proof. intros Hm Hf w. apply Promise_finally_frames; [apply Hm | exact Hf]. Qed.

Lemma frames_generateContent (rq : Request) : Task_frames R (generateContent rq).
Proof.
  intros w. apply frames_generate; [apply R_refl|].
  intros r w'. apply frames_settled, R_refl.
Qed.

Lemma frames_sleep (ms : Z) : Task_frames R (sleep ms).
Proof.
  intros w. apply frames_timeout; [apply R_refl|].
  intros w'. apply frames_settled, R_refl.
Qed.

Hypothesis R_console : forall w log, R w (set_console log w).

Lemma frames_console_warn (d : Z) : Task_frames R (console_warn d).
Proof. intros w. apply frames_settled, R_console. Qed.

Lemma frames_retryWithBackoff {T} (fn : Task T) (maxRetries : option nat) :
  Task_frames R fn -> Task_frames R (retryWithBackoff fn maxRetries).
Proof.
  intros Hfn.
  enough (Hloop : forall bound remaining i delay,
            Task_frames R (retry_loop fn bound remaining i delay))
    by apply Hloop.
  intros bound remaining.
  induction remaining as [|r IH]; intros i delay; cbn [retry_loop]; [exact Hfn|].
  apply frames_try_catch; [exact Hfn|].
  intros e. destruct (isQuotaError e && (i <? bound - 1)%nat); [|apply frames_reject].
  apply frames_await; [apply frames_console_warn|]. intros _.
  apply frames_await; [apply frames_sleep|]. intros _. apply IH.
Qed.

Hypothesis R_tick : forall w d, R w (tick d w).

(** A run to the end ends in a world related to the first. *)
Lemma run_from_frames {A} (net : Network) (w0 : World) (p : Promise A)
    (rqs : list Request) (tms : list Z) :
  Promise_frames R w0 p -> R w0 (final (run_from net p rqs tms)).
Proof.
  intros Hp. revert rqs tms.
  induction Hp as [w0 r w H1|w0 rq w k H1 Hk IH|w0 ms w k H1 Hk IH]; intros rqs tms; cbn.
  - exact H1.
  - eapply R_trans; [exact H1|]. eapply R_trans; [apply (R_tick w)|]. apply IH.
  - eapply R_trans; [exact H1|]. eapply R_trans; [apply (R_tick w)|]. apply IH.
Qed.

End FrameFacts.

(** The run of [p] followed by [f] is the run of [p], then that of [f]. *)
Lemma run_from_then {A B} (net : Network) (p : Promise A) (f : A -> Task B)
    (rqs : list Request) (tms : list Z) :
  run_from net (Promise_then p f) rqs tms
  = let r1 := run_from net p rqs tms in
    match result r1 with
    | Ok a => run_from net (f a (final r1)) (requests r1) (timers r1)
    | Err e =>
        {| result := Err e; final := final r1;
           requests := requests r1; timers := timers r1 |}
    end.
Proof.
  revert rqs tms. induction p as [r w|rq w k IH|ms w k IH]; intros rqs tms; cbn.
  - destruct r; reflexivity.
  - apply IH.
  - apply IH.
Qed.

(** ** The [user] record under the services and the handlers *)

Lemma same_user_refl (w : World) : same_user w w.
Proof. reflexivity. Qed.

Lemma same_user_trans (w1 w2 w3 : World) :
  same_user w1 w2 -> same_user w2 w3 -> same_user w1 w3.
Proof. unfold same_user. congruence. Qed.

Lemma same_user_console (w : World) (log : list ConsoleEntry) :
  same_user w (set_console log w).
Proof. reflexivity. Qed.

Lemma same_user_tick (w : World) (d : Z) : same_user w (tick d w).
Proof. reflexivity. Qed.

Ltac keeps_user :=
  repeat first
    [ exact same_user_refl | exact same_user_trans
    | exact same_user_console | exact same_user_tick
    | progress intros
    | apply frames_resolve | apply frames_reject | apply frames_read
    | apply frames_attempt | apply frames_update | apply frames_await
    | apply frames_try_catch | apply frames_finally | apply frames_generateContent
    | apply frames_sleep | apply frames_console_warn | apply frames_retryWithBackoff
    | match goal with
      | |- Task_frames _ (match ?x with _ => _ end) => destruct x
      | |- same_user ?w _ => reflexivity
      end ].

Section ServicesKeepUser.
Context `{Builtins} `{!JSON (list Question.t)} `{!JSON string} `{!JSON Trends}.

Lemma backoff_mindmap_keeps_user (lessonId : Z) (content : string) :
  Task_frames same_user (ServiceBackoff.generateStudyMindmap lessonId content).
Proof. unfold ServiceBackoff.generateStudyMindmap. cbv zeta. keeps_user. Qed.

Lemma timestamp_mindmap_keeps_user (lessonId : Z) (content : string) :
  Task_frames same_user (ServiceTimestamp.generateStudyMindmap lessonId content).
Proof. unfold ServiceTimestamp.generateStudyMindmap. cbv zeta. keeps_user. Qed.

End ServicesKeepUser.

Lemma run_from_await {A B} (net : Network) (m : Task A) (f : A -> Task B) (w : World)
    (rqs : list Request) (tms : list Z) :
  run_from net (await m f w) rqs tms
  = let r1 := run_from net (m w) rqs tms in
    match result r1 with
    | Ok a => run_from net (f a (final r1)) (requests r1) (timers r1)
    | Err e =>
        {| result := Err e; final := final r1;
           requests := requests r1; timers := timers r1 |}
    end.
Proof. apply run_from_then. Qed.

(** The end of [handleReview]: whatever its body did short of touching
    the user record, the lesson is appended to the completed lessons of
    the record in the closure if it was not among them and the body did
    not throw. *)
Lemma run_then_markCompleted `{!JSON UserProgress} (net : Network) (body : Task unit)
    (w0 : World) (u : UserProgress) (lesson : Lesson.t) (rqs : list Request)
    (tms : list Z) :
  Task_frames same_user body ->
  user w0 = Some u ->
  let r := run_from net
             (await body (fun _ => update (markCompleted (Some u) lesson)) w0) rqs tms in
  (user (final r) = Some u
   /\ (result r = Ok tt -> Lesson.id lesson ∈ completedLessons u))
  \/ ((Lesson.id lesson ∉ completedLessons u)
      /\ user (final r) = Some (with_completed u lesson)).
Proof.
  intros Hbody Hu. cbv zeta. rewrite run_from_await. cbv zeta.
  pose proof (run_from_frames same_user same_user_trans same_user_tick net w0 (body w0)
                rqs tms (Hbody w0)) as Hkeep.
  unfold same_user in Hkeep. rewrite Hu in Hkeep.
  destruct (result (run_from net (body w0) rqs tms)) as [[]|e]; cbn.
  - unfold markCompleted.
    destruct (decide (Lesson.id lesson ∈ completedLessons u)) as [Hin|Hnin].
    + rewrite bool_decide_eq_true_2 by exact Hin. cbn. left. split; [exact Hkeep | intros _; exact Hin].
    + rewrite bool_decide_eq_false_2 by exact Hnin. cbn. right. split; [exact Hnin | reflexivity].
  - left. split; [exact Hkeep | discriminate].
Qed.

Section ReviewFacts.
Context `{Builtins} `{!JSON UserProgress} `{!JSON string}.

(** One click on a lesson, in either revision of the App with either
    revision of the service. *)
Lemma handleReview_user (app : AppRevision) (svc : ServiceRevision) (net : Network)
    (lesson : Lesson.t) (w : World) (u : UserProgress) :
  user w = Some u ->
  let r := run net (handleReview_of app svc lesson) w in
  (user (final r) = Some u
   /\ (result r = Ok tt -> Lesson.id lesson ∈ completedLessons u))
  \/ ((Lesson.id lesson ∉ completedLessons u)
      /\ user (final r) = Some (with_completed u lesson)).
Proof.
  intros Hu.
  assert (Hsvc : forall id c, Task_frames same_user (generateStudyMindmap_of svc id c)).
  { intros id c. destruct svc;
      [exact (backoff_mindmap_keeps_user id c) | exact (timestamp_mindmap_keeps_user id c)]. }
  unfold run, handleReview_of.
  destruct app;
    [unfold AppBanner.handleReview;
     do 5 (rewrite run_from_await; cbn [read update run_from result final requests timers])
    |unfold AppPrefetch.handleReview;
     do 4 (rewrite run_from_await; cbn [read update run_from result final requests timers])];
    rewrite Hu;
    (apply run_then_markCompleted; [|exact Hu]);
    keeps_user; apply Hsvc.
Qed.

End ReviewFacts.



(** ** Errors in the handlers *)

(** C5, where the code falls short of it: with text that is not JSON
    under the cache key of the lesson, [handleStartPractice] and
    [handleReview] of both App revisions throw out of [JSON.parse] before
    their [try] block; the promise of the handler is rejected, no banner
    is set and nothing is logged. *)
Theorem cached_parse_error_uncaught (app : AppRevision) (svc : ServiceRevision) :
  let practice :=
    run SampleRuns.always_empty
      (@handleStartPractice_of Sample.builtins Sample.questions_JSON app svc
         Sample.lesson1 false)
      SampleRuns.corrupt_cache in
  let review :=
    run SampleRuns.always_empty
      (@handleReview_of Sample.builtins Sample.user_JSON Sample.string_JSON app svc
         Sample.lesson1)
      SampleRuns.corrupt_cache in
  result practice = Err Sample.SyntaxError
  /\ apiError (final practice) = None
  /\ console (final practice) = []
  /\ requests practice = []
  /\ result review = Err Sample.SyntaxError
  /\ apiError (final review) = None
  /\ console (final review) = []
  /\ requests review = [].
Proof. destruct app, svc; vm_compute; repeat split; reflexivity. Qed.

Lemma Promise_then_fulfils {A B} (p : Promise A) (f : A -> Task B) :
  Promise_fulfils p -> (forall a, Task_fulfils (f a)) -> Promise_fulfils (Promise_then p f).
Proof.
  intros Hp Hf. induction Hp as [a w|rq w k Hk IH|ms w k Hk IH]; cbn.
  - apply Hf.
  - apply fulfils_generate. exact IH.
  - apply fulfils_timeout. exact IH.
Qed.

(** A [catch] whose handler cannot throw catches everything. *)
Lemma Promise_catch_fulfils {A} (p : Promise A) (h : Error -> Task A) :
  (forall e, Task_fulfils (h e)) -> Promise_fulfils (Promise_catch p h).
Proof.
  intros Hh. induction p as [r w|rq w k IH|ms w k IH]; cbn.
  - destruct r as [a|e]; [apply fulfils_settled | apply Hh].
  - apply fulfils_generate. intros r w'. apply IH.
  - apply fulfils_timeout. intros w'. apply IH.
Qed.

Lemma Promise_finally_fulfils {A} (p : Promise A) (f : World -> World) :
  Promise_fulfils p -> Promise_fulfils (Promise_finally p f).
Proof.
  intros Hp. induction Hp as [a w|rq w k Hk IH|ms w k Hk IH]; cbn.
  - apply fulfils_settled.
  - apply fulfils_generate. exact IH.
  - apply fulfils_timeout. exact IH.
Qed.

Lemma fulfils_update (f : World -> World) : Task_fulfils (update f).
Proof. intros w. apply fulfils_settled. Qed.

Lemma fulfils_resolve {A} (a : A) : Task_fulfils (resolve a).
Proof. intros w. apply fulfils_settled. Qed.

Lemma fulfils_await {A B} (m : Task A) (f : A -> Task B) :
  Task_fulfils m -> (forall a, Task_fulfils (f a)) -> Task_fulfils (await m f).
Proof. intros Hm Hf w. apply Promise_then_fulfils; [apply Hm | exact Hf]. Qed.

Lemma fulfils_try_catch {A} (m : Task A) (h : Error -> Task A) :
  (forall e, Task_fulfils (h e)) -> Task_fulfils (try_catch m h).
Proof. intros Hh w. apply Promise_catch_fulfils. exact Hh. Qed.

Lemma fulfils_finally {A} (m : Task A) (f : World -> World) :
  Task_fulfils m -> Task_fulfils (finally m f).
Proof. intros Hm w. apply Promise_finally_fulfils. apply Hm. Qed.

Lemma run_from_fulfils {A} (net : Network) (p : Promise A) (rqs : list Request)
    (tms : list Z) :
  Promise_fulfils p -> exists a, result (run_from net p rqs tms) = Ok a.
Proof.
  intros Hp. revert rqs tms.
  induction Hp as [a w|rq w k Hk IH|ms w k Hk IH]; intros rqs tms; cbn.
  - exists a. reflexivity.
  - apply IH.
  - apply IH.
Qed.

Ltac cannot_throw :=
  repeat first
    [ progress intros
    | apply fulfils_update | apply fulfils_resolve | apply fulfils_await
    | apply fulfils_try_catch | apply fulfils_finally
    | match goal with
      | |- Task_fulfils (match ?x with _ => _ end) => destruct x
      end ].

Section HandlerErrors.
Context `{Builtins} `{!JSON UserProgress} `{!JSON (list Question.t)} `{!JSON string}
  `{!JSON Trends}.

(** Every error of the service, whatever the service does, is caught by
    [handleStartPractice]: its promise is rejected only by the
    [JSON.parse] of the cached questions, which it runs outside its [try]
    block. *)
Lemma handleStartPractice_rejects_only_on_cache (app : AppRevision)
    (generateQuestionsFromContent : Z -> string -> bool -> Task (list Question.t))
    (net : Network) (lesson : Lesson.t) (forceNew : bool) (w : World) :
  let handler :=
    match app with
    | Banner => AppBanner.handleStartPractice generateQuestionsFromContent
    | Prefetch => AppPrefetch.handleStartPractice generateQuestionsFromContent
    end in
  result (run net (handler lesson forceNew) w) = Ok tt
  \/ (forceNew = false
      /\ exists s e,
           localStorage w
           !! ("cache_questions_lesson_" +:+ Number_toString (Lesson.id lesson)) = Some s
           /\ JSON_parse (T:=list Question.t) s = Err e
           /\ result (run net (handler lesson forceNew) w) = Err e).
Proof.
  cbv zeta. unfold run.
  destruct app;
    [unfold AppBanner.handleStartPractice;
     do 7 (rewrite run_from_await; cbn [read update run_from result final requests timers])
    |unfold AppPrefetch.handleStartPractice;
     do 6 (rewrite run_from_await; cbn [read update run_from result final requests timers])].
  all: destruct forceNew; cbn [negb].
  all: try (left;
            match goal with
            | |- result (run_from _ (?t ?w) _ _) = _ =>
                assert (Hf : Task_fulfils t) by cannot_throw;
                destruct (run_from_fulfils net (t w) [] [] (Hf w)) as [[] ->]; reflexivity
            end).
  all: repeat match goal with
              | |- context [localStorage (?f ?v ?x)] =>
                  change (localStorage (f v x)) with (localStorage x)
              end.
  all: destruct (localStorage w !! _) as [[|c s]|] eqn:Hs.
  all: try (left;
            match goal with
            | |- result (run_from _ (?t ?w) _ _) = _ =>
                assert (Hf : Task_fulfils t) by cannot_throw;
                destruct (run_from_fulfils net (t w) [] [] (Hf w)) as [[] ->]; reflexivity
            end).
  all: rewrite run_from_await; cbn [attempt run_from result final requests timers];
    destruct (JSON_parse (String c s)) as [qs|e] eqn:Hp; cbn;
    [left; reflexivity | right; split; [reflexivity|]; exists (String c s), e; auto].
Qed.

(** The same for [handleReview] and the cached mind map. *)
Lemma handleReview_rejects_only_on_cache (app : AppRevision)
    (generateStudyMindmap : Z -> string -> Task string)
    (net : Network) (lesson : Lesson.t) (w : World) :
  let handler :=
    match app with
    | Banner => AppBanner.handleReview generateStudyMindmap
    | Prefetch => AppPrefetch.handleReview generateStudyMindmap
    end in
  result (run net (handler lesson) w) = Ok tt
  \/ exists s e,
       localStorage w
       !! ("cache_mindmap_lesson_" +:+ Number_toString (Lesson.id lesson)) = Some s
       /\ JSON_parse (T:=string) s = Err e
       /\ result (run net (handler lesson) w) = Err e.
Proof.
  cbv zeta. unfold run.
  destruct app;
    [unfold AppBanner.handleReview;
     do 5 (rewrite run_from_await; cbn [read update run_from result final requests timers])
    |unfold AppPrefetch.handleReview;
     do 4 (rewrite run_from_await; cbn [read update run_from result final requests timers])].
  all: repeat match goal with
              | |- context [localStorage (?f ?v ?x)] =>
                  change (localStorage (f v x)) with (localStorage x)
              end.
  all: destruct (localStorage w !! _) as [[|c s]|] eqn:Hs.
  all: try (left;
            match goal with
            | |- result (run_from _ (?t ?w) _ _) = _ =>
                assert (Hf : Task_fulfils t) by cannot_throw;
                destruct (run_from_fulfils net (t w) [] [] (Hf w)) as [[] ->]; reflexivity
            end).
  all: do 2 (rewrite run_from_await; cbn [attempt update run_from result final requests timers]);
    destruct (JSON_parse (String c s)) as [mm|e] eqn:Hp; cbn;
    [left; reflexivity | right; exists (String c s), e; auto].
Qed.

(** The trends buttons catch everything. *)
Lemma handleTrends_fulfils (searchGuangzhouExamTrends : Task Trends) :
  Task_fulfils (AppBanner.handleTrends searchGuangzhouExamTrends)
  /\ Task_fulfils (AppPrefetch.handleTrends searchGuangzhouExamTrends)
  /\ Task_fulfils (AppPrefetch.refreshTrends searchGuangzhouExamTrends).
Proof.
  unfold AppBanner.handleTrends, AppPrefetch.handleTrends, AppPrefetch.refreshTrends.
  repeat split; cannot_throw.
Qed.

End HandlerErrors.

(** ** Requests in flight *)

Lemma started_by_app (a : nat) (l1 l2 : list (nat * Promise unit)) :
  started_by a (l1 ++ l2) = (started_by a l1 + started_by a l2)%nat.
Proof. unfold started_by. rewrite List.filter_app, length_app. reflexivity. Qed.

Lemma started_by_delete (a i : nat) (l : list (nat * Promise unit)) :
  (started_by a (delete i l) <= started_by a l)%nat.
Proof.
  revert i. induction l as [|e l IH]; intros i; [destruct i; reflexivity|].
  destruct i as [|i]; unfold started_by in *.
  - cbn. destruct (Nat.eqb (fst e) a); cbn; lia.
  - specialize (IH i). cbn. destruct (Nat.eqb (fst e) a); cbn; [apply le_n_S|]; exact IH.
Qed.

Lemma started_by_insert (a i : nat) (l : list (nat * Promise unit)) (t : nat)
    (p p' : Promise unit) :
  l !! i = Some (t, p) ->
  started_by a (<[i := (t, p')]> l) = started_by a l.
Proof.
  revert i. induction l as [|e l IH]; intros i Hi; [destruct i; discriminate|].
  destruct i as [|i]; unfold started_by in *; cbn in Hi |- *.
  - injection Hi as ->. cbn. destruct (Nat.eqb t a); reflexivity.
  - specialize (IH i Hi). destruct (Nat.eqb (fst e) a); cbn; [f_equal|]; exact IH.
Qed.

Lemma in_flight_started (a : nat) (l : Loop) :
  (in_flight a l <= started_by a (pending l))%nat.
Proof.
  unfold in_flight, started_by. induction (pending l) as [|e ps IH]; [reflexivity|].
  cbn. destruct (Nat.eqb (fst e) a); cbn; [destruct (awaits_reply (snd e)); cbn; lia | exact IH].
Qed.

Lemma start_started {A} (n : nat) (t : Task A) (l : Loop) (a : nat) :
  actions (start n t l) = actions l
  /\ (started_by a (pending (start n t l))
      <= started_by a (pending l) + (if Nat.eqb n a then 1 else 0))%nat.
Proof.
  unfold start. cbn [actions pending]. split; [reflexivity|].
  destruct (settled (detach (t (world l)))); [lia|].
  rewrite started_by_app. unfold started_by at 2. cbn.
  destruct (Nat.eqb n a); cbn; lia.
Qed.

Lemma deliver_started (i : nat) (ev : Arrival) (l : Loop) (a : nat) :
  actions (deliver i ev l) = actions l
  /\ (started_by a (pending (deliver i ev l)) <= started_by a (pending l))%nat.
Proof.
  unfold deliver. destruct (pending l !! i) as [[t p]|] eqn:Hi; [|split; reflexivity].
  destruct (resume ev p (world l)) as [p'|]; [|split; reflexivity].
  cbn [actions pending]. split; [reflexivity|].
  destruct (settled p'); [apply started_by_delete|].
  rewrite (started_by_insert a i (pending l) t p p' Hi). reflexivity.
Qed.

Section LoopFacts.
Context `{Builtins} `{!JSON UserProgress} `{!JSON (list Question.t)} `{!JSON string}
  `{!JSON Trends}.
Variable app : AppRevision.
Variable svc : ServiceRevision.

(** An action adds pending promises under its own number only, and no
    more than its allowance. *)
Lemma handle_started (act : Action) (n : nat) (l : Loop) (a : nat) :
  actions (handle app svc act n l) = actions l
  /\ (started_by a (pending (handle app svc act n l))
      <= started_by a (pending l)
         + (if Nat.eqb n a then allowance app (Some act) else 0))%nat.
Proof.
  assert (Hone : forall act', (1 <= allowance app (Some act'))%nat)
    by (intros act'; destruct app, act'; cbn; lia).
  assert (Hstart : forall A (t : Task A),
            actions (start n t l) = actions l
            /\ (started_by a (pending (start n t l))
                <= started_by a (pending l)
                   + (if Nat.eqb n a then allowance app (Some act) else 0))%nat).
  { intros A t. destruct (start_started n t l a) as [Ha Hs]. split; [exact Ha|].
    specialize (Hone act). destruct (Nat.eqb n a); lia. }
  destruct act as [lesson|lesson|lesson forceNew| | | |id]; cbn [handle];
    try apply Hstart; try (split; [reflexivity | cbn [pending with_world]; lia]).
  - destruct app; [split; [reflexivity | lia]|].
    unfold AppPrefetch.prefetchLessonData.
    destruct (bool_decide _); [split; [reflexivity | lia]|].
    unfold start_and_ignore.
    match goal with
    | |- context [start n ?t2 (start n ?t1 ?l1)] =>
        destruct (start_started n t1 l1 a) as [Ha1 Hs1];
        destruct (start_started n t2 (start n t1 l1) a) as [Ha2 Hs2]
    end.
    cbn [actions pending] in *. split; [congruence|].
    cbn [allowance]. destruct (Nat.eqb n a); lia.
  - destruct app; [split; [reflexivity | lia] | apply Hstart].
Qed.

Lemma loop_invariant (es : list LoopEvent) (l : Loop) (acts : list Action) :
  actions l = length acts ->
  (forall a, (started_by a (pending l)
              <= if (a <? length acts)%nat then allowance app (acts !! a) else 0)%nat) ->
  let l' := fold_left (loop_step app svc) es l in
  let acts' := acts ++ user_actions es in
  actions l' = length acts'
  /\ forall a, (started_by a (pending l')
                <= if (a <? length acts')%nat then allowance app (acts' !! a) else 0)%nat.
Proof.
  revert l acts. induction es as [|e es IH]; intros l acts Hn Hinv; cbn [fold_left].
  - cbv zeta. cbn [user_actions omap list_omap]. rewrite app_nil_r. split; assumption.
  - destruct e as [act|i ev]; cbn [loop_step].
    + specialize (IH (dispatch (handle app svc act) l) (acts ++ [act])).
      cbv zeta in IH |- *. cbn [user_actions omap list_omap] in *.
      change (omap _ es) with (user_actions es) in *.
      rewrite <- app_assoc in IH. cbn [List.app] in IH. apply IH.
      * unfold dispatch.
        destruct (handle_started act (actions l)
                    {| world := world l; pending := pending l;
                       actions := Datatypes.S (actions l) |} 0) as [Ha _].
        rewrite Ha, length_app. cbn. lia.
      * intros a. unfold dispatch.
        destruct (handle_started act (actions l)
                    {| world := world l; pending := pending l;
                       actions := Datatypes.S (actions l) |} a) as [_ Hs].
        cbn [pending] in Hs. specialize (Hinv a). rewrite length_app. cbn [length].
        destruct (Nat.eqb_spec (actions l) a) as [Heq|Hne].
        -- subst a. rewrite Hn in *.
           replace (length acts <? length acts)%nat with false in Hinv
             by (symmetry; apply Nat.ltb_ge; lia).
           replace (length acts <? length acts + 1)%nat with true
             by (symmetry; apply Nat.ltb_lt; lia).
           rewrite lookup_app_r, Nat.sub_diag by lia. cbn. lia.
        -- destruct (a <? length acts)%nat eqn:Hlt.
           ++ apply Nat.ltb_lt in Hlt.
              replace (a <? length acts + 1)%nat with true
                by (symmetry; apply Nat.ltb_lt; lia).
              rewrite lookup_app_l by lia. lia.
           ++ destruct (a <? length acts + 1)%nat; lia.
    + specialize (IH (deliver i ev l) acts).
      cbv zeta in IH |- *. cbn [user_actions omap list_omap] in *.
      change (omap _ es) with (user_actions es) in *. apply IH.
      * destruct (deliver_started i ev l 0) as [Ha _]. congruence.
      * intros a. destruct (deliver_started i ev l a) as [_ Hs].
        specialize (Hinv a). lia.
Qed.

End LoopFacts.

(** C7, as amended: a click handler ([handleReview],
    [handleStartPractice], the trends buttons) has at most one request to
    the AI service in flight at any time, since it awaits each request,
    and each pause of a retry, before it goes on; the hover prefetch of
    part_003 starts the questions request and the mind-map request of a
    lesson without awaiting either, so that action has up to two in
    flight; a hover over a lesson already in [prefetchQueue] starts
    nothing. In part_002, which has no prefetch, no action ever has more
    than one. *)
Theorem in_flight_per_action `{Builtins} `{!JSON UserProgress} `{!JSON (list Question.t)}
    `{!JSON string} `{!JSON Trends} (svc : ServiceRevision) :
  (forall (app : AppRevision) (es : list LoopEvent) (w : World) (a : nat),
     (in_flight a (loop_run app svc es w) <= allowance app (user_actions es !! a))%nat)
  /\ single_flight Banner svc
  /\ (forall (lesson : Lesson.t) (n : nat) (l : Loop),
        Lesson.id lesson ∈ prefetchQueue (world l) ->
        AppPrefetch.prefetchLessonData (generateQuestionsFromContent_of svc)
          (generateStudyMindmap_of svc) lesson n l = l).
Proof.
  assert (Hall : forall (app : AppRevision) (es : list LoopEvent) (w : World) (a : nat),
            (in_flight a (loop_run app svc es w)
             <= allowance app (user_actions es !! a))%nat).
  { intros app es w a. unfold loop_run.
    destruct (loop_invariant app svc es (idle w) []) as [_ Hinv];
      [reflexivity | intros a'; cbn; lia |].
    specialize (Hinv a). cbn [List.app] in Hinv.
    pose proof (in_flight_started a (fold_left (loop_step app svc) es (idle w))) as Hle.
    destruct (a <? length (user_actions es))%nat; [lia|].
    assert (1 <= allowance app (user_actions es !! a))%nat
      by (destruct app, (user_actions es !! a) as [[]|]; cbn; lia).
    lia. }
  split; [exact Hall|]. split.
  - intros es w a. specialize (Hall Banner es w a). cbn [allowance] in Hall. exact Hall.
  - intros lesson n l Hin. unfold AppPrefetch.prefetchLessonData.
    rewrite bool_decide_eq_true_2 by exact Hin. reflexivity.
Qed.

(** C7 as stated fails in part_003: one hover over a lesson with nothing
    cached leaves two requests of that action in flight. *)
Lemma in_flight_per_action_counterexample :
  in_flight 0
    (@loop_run Sample.builtins Sample.user_JSON Sample.questions_JSON Sample.string_JSON
       Sample.trends_JSON Prefetch Timestamp [User (HoverLesson Sample.lesson1)] Sample.blank)
  = 2%nat
  /\ ~ @single_flight Sample.builtins Sample.user_JSON Sample.questions_JSON
         Sample.string_JSON Sample.trends_JSON Prefetch Timestamp.
Proof.
  assert (Htwo : in_flight 0
            (@loop_run Sample.builtins Sample.user_JSON Sample.questions_JSON
               Sample.string_JSON Sample.trends_JSON Prefetch Timestamp
               [User (HoverLesson Sample.lesson1)] Sample.blank) = 2%nat)
    by (vm_compute; reflexivity).
  split; [exact Htwo|].
  intros Hclaim.
  specialize (Hclaim [User (HoverLesson Sample.lesson1)] Sample.blank 0%nat).
  rewrite Htwo in Hclaim. lia.
Qed.

Example hover_then_replies :
  let l1 :=
    @loop_run Sample.builtins Sample.user_JSON Sample.questions_JSON Sample.string_JSON
      Sample.trends_JSON Prefetch Backoff
      [User (HoverLesson Sample.lesson1);
       Arrives 0 (Replied (Ok {| text := Some "[]"; groundingChunks := None |}));
       User (HoverLesson Sample.lesson1)] Sample.blank in
  in_flight 0 l1 = 1%nat
  /\ in_flight 1 l1 = 0%nat
  /\ localStorage (world l1) !! "cache_questions_lesson_1" = Some "[]".
Proof. vm_compute. repeat split; reflexivity. Qed.

(** * Further properties of the code *)

(** ** Runs of [try]/[catch] and [finally] *)

Lemma run_from_catch {A} (net : Network) (p : Promise A) (h : Error -> Task A)
    (rqs : list Request) (tms : list Z) :
  run_from net (Promise_catch p h) rqs tms
  = let r1 := run_from net p rqs tms in
    match result r1 with
    | Ok a =>
        {| result := Ok a; final := final r1;
           requests := requests r1; timers := timers r1 |}
    | Err e => run_from net (h e (final r1)) (requests r1) (timers r1)
    end.
Proof.
  revert rqs tms. induction p as [r w|rq w k IH|ms w k IH]; intros rqs tms; cbn.
  - destruct r; reflexivity.
  - apply IH.
  - apply IH.
Qed.

Lemma run_from_finally {A} (net : Network) (p : Promise A) (f : World -> World)
    (rqs : list Request) (tms : list Z) :
  run_from net (Promise_finally p f) rqs tms
  = let r1 := run_from net p rqs tms in
    {| result := result r1; final := f (final r1);
       requests := requests r1; timers := timers r1 |}.
Proof.
  revert rqs tms. induction p as [r w|rq w k IH|ms w k IH]; intros rqs tms; cbn.
  - reflexivity.
  - apply IH.
  - apply IH.
Qed.

(** ** The footprint of the services *)

Lemma touches_only_refl (keys : list string) (w : World) : touches_only keys w w.
Proof. split; [reflexivity | destruct w; reflexivity]. Qed.

Lemma touches_only_trans (keys : list string) (w1 w2 w3 : World) :
  touches_only keys w1 w2 -> touches_only keys w2 w3 -> touches_only keys w1 w3.
Proof.
  intros [Hk12 Hf12] [Hk23 Hf23]. split.
  - intros k Hk. rewrite (Hk23 k Hk). apply Hk12, Hk.
  - destruct w1, w2, w3; unfold set_localStorage, set_clock, set_console in *;
      cbn in Hf12, Hf23 |- *.
    injection Hf12 as ->; injection Hf23 as ->. subst. reflexivity.
Qed.

Lemma touches_only_console (keys : list string) (w : World) (log : list ConsoleEntry) :
  touches_only keys w (set_console log w).
Proof. split; [reflexivity | destruct w; reflexivity]. Qed.

Lemma touches_only_tick (keys : list string) (w : World) (d : Z) :
  touches_only keys w (tick d w).
Proof. split; [reflexivity | destruct w; reflexivity]. Qed.

Lemma touches_only_setCachedData `{JSON T} (keys : list string) (key : string) (data : T)
    (w : World) :
  "cache_" +:+ key ∈ keys -> touches_only keys w (setCachedData key data w).
Proof.
  intros Hin. split.
  - intros k Hk. unfold setCachedData.
    change (localStorage (set_localStorage ?m w)) with m.
    apply lookup_insert_ne. intros Heq. apply Hk. rewrite <- Heq. exact Hin.
  - destruct w; reflexivity.
Qed.

Lemma touches_only_setItem (keys : list string) (key value : string) (w : World) :
  key ∈ keys ->
  touches_only keys w (set_localStorage (<[key := value]> (localStorage w)) w).
Proof.
  intros Hin. split.
  - intros k Hk. change (localStorage (set_localStorage ?m w)) with m.
    apply lookup_insert_ne. intros Heq. apply Hk. rewrite <- Heq. exact Hin.
  - destruct w; reflexivity.
Qed.

Ltac touches keys :=
  repeat first
    [ exact (touches_only_refl keys) | exact (touches_only_trans keys)
    | exact (touches_only_console keys) | exact (touches_only_tick keys)
    | progress intros
    | apply frames_resolve | apply frames_reject | apply frames_read
    | apply frames_attempt | apply frames_update | apply frames_await
    | apply frames_try_catch | apply frames_finally | apply frames_generateContent
    | apply frames_sleep | apply frames_console_warn | apply frames_retryWithBackoff
    | match goal with
      | |- Task_frames _ (match ?x with _ => _ end) => destruct x
      | |- touches_only _ ?w (setCachedData _ _ ?w) =>
          apply touches_only_setCachedData; cbn; set_solver
      | |- touches_only _ ?w (set_localStorage (<[_ := _]> (localStorage ?w)) ?w) =>
          apply touches_only_setItem; set_solver
      | |- touches_only _ ?w (console_error _ _ ?w) => apply touches_only_console
      end ].

Section ServiceFootprint.
Context `{Builtins} `{!JSON (list Question.t)} `{!JSON string} `{!JSON Trends}.

Lemma footprint_frames (svc : ServiceRevision) (lessonId : Z) (content : string)
    (forceNew : bool) :
  Task_frames (touches_only ["cache_questions_lesson_" +:+ Number_toString lessonId])
    (generateQuestionsFromContent_of svc lessonId content forceNew)
  /\ Task_frames (touches_only ["cache_mindmap_lesson_" +:+ Number_toString lessonId])
       (generateStudyMindmap_of svc lessonId content)
  /\ Task_frames (touches_only ["cache_exam_trends"; "trends_timestamp"])
       (searchGuangzhouExamTrends_of svc).
Proof.
  destruct svc; cbn [generateQuestionsFromContent_of generateStudyMindmap_of
                     searchGuangzhouExamTrends_of];
    unfold ServiceBackoff.generateQuestionsFromContent, ServiceBackoff.generateStudyMindmap,
      ServiceBackoff.searchGuangzhouExamTrends,
      ServiceTimestamp.generateQuestionsFromContent, ServiceTimestamp.generateStudyMindmap,
      ServiceTimestamp.searchGuangzhouExamTrends;
    cbv zeta; (split; [|split]).
  all: match goal with |- Task_frames (touches_only ?keys) _ => touches keys end.
Qed.

End ServiceFootprint.

(** ** The services, case by case *)

(** Unfolds a run of a service function and splits on what it reads:
    the cache, the replies, the parse of a reply, the kind of an error. *)
Ltac service_simpl :=
  cbn [negb default retry_loop try_catch Task_AsyncMonad await generateContent sleep
       console_warn attempt update resolve reject read Promise_then Promise_catch
       run_from length app andb Nat.ltb Nat.leb Nat.sub Nat.add result final
       requests timers].

Ltac service_run :=
  unfold run, ServiceBackoff.generateQuestionsFromContent, ServiceBackoff.generateStudyMindmap,
    ServiceBackoff.searchGuangzhouExamTrends,
    ServiceTimestamp.generateQuestionsFromContent, ServiceTimestamp.generateStudyMindmap,
    ServiceTimestamp.searchGuangzhouExamTrends, retryWithBackoff;
  cbv zeta;
  repeat
    (service_simpl;
     match goal with
     | |- context [match getCachedData ?k ?w with _ => _ end] =>
         destruct (getCachedData k w) as [[?|]|?] eqn:?
     | |- context [match ?w !! "trends_timestamp" with _ => _ end] =>
         destruct (w !! "trends_timestamp") eqn:?
     | |- context [isQuotaError ?e] => destruct (isQuotaError e) eqn:?
     | |- context [if ?b then _ else _] =>
         lazymatch b with
         | negb ?f => destruct f
         | _ => destruct b eqn:?
         end
     | |- context [match reply ?net ?n with _ => _ end] => destruct (reply net n) eqn:?
     | |- context [match JSON_parse ?s with _ => _ end] => destruct (JSON_parse s) eqn:?
     end);
  service_simpl.

Ltac first_failure :=
  match goal with
  | Hq : isQuotaError ?e = true |- _ =>
      exists e; split;
      [ exact Hq
      | first [ reflexivity | left; reflexivity
              | right; eexists; split; [apply eq_refl | eassumption] ] ]
  end.

Section ServiceFacts.
Context `{Builtins} `{!JSON (list Question.t)} `{!JSON string} `{!JSON Trends}.

(** X1: a call of a service function, in either revision and whatever
    the network answers, changes local storage at most under its own
    cache key (and ['trends_timestamp'] for the trends search); beside
    that only the clock and the console differ afterwards. In particular
    the saved progress under ['history_user'] and the state of the
    component are as before. *)
Theorem services_touch_only_their_cache (svc : ServiceRevision) (net : Network)
    (lessonId : Z) (content : string) (forceNew : bool) (w : World) :
  let after_questions :=
    final (run net (generateQuestionsFromContent_of svc lessonId content forceNew) w) in
  let after_mindmap := final (run net (generateStudyMindmap_of svc lessonId content) w) in
  let after_trends := final (run net (searchGuangzhouExamTrends_of svc) w) in
  touches_only ["cache_questions_lesson_" +:+ Number_toString lessonId] w after_questions
  /\ touches_only ["cache_mindmap_lesson_" +:+ Number_toString lessonId] w after_mindmap
  /\ touches_only ["cache_exam_trends"; "trends_timestamp"] w after_trends
  /\ Forall (fun w' => localStorage w' !! "history_user" = localStorage w !! "history_user"
                       /\ user w' = user w)
       [after_questions; after_mindmap; after_trends].
Proof.
  cbv zeta.
  destruct (footprint_frames svc lessonId content forceNew) as (Hq & Hm & Ht).
  pose proof (fun A keys => @run_from_frames (touches_only keys) (touches_only_trans keys)
                              (touches_only_tick keys) A net w) as Hrun.
  assert (Hfield : forall keys w', touches_only keys w w' -> user w' = user w).
  { intros keys w' [_ Hw']. rewrite <- Hw'. destruct w'; reflexivity. }
  pose proof (Hrun _ _ _ [] [] (Hq w)) as Hq'.
  pose proof (Hrun _ _ _ [] [] (Hm w)) as Hm'.
  pose proof (Hrun _ _ _ [] [] (Ht w)) as Ht'.
  split; [exact Hq'|]. split; [exact Hm'|]. split; [exact Ht'|].
  constructor; [|constructor; [|constructor; [|constructor]]].
  - split; [|exact (Hfield _ _ Hq')]. apply Hq'. cbn.
    rewrite list_elem_of_singleton. discriminate.
  - split; [|exact (Hfield _ _ Hm')]. apply Hm'. cbn.
    rewrite list_elem_of_singleton. discriminate.
  - split; [|exact (Hfield _ _ Ht')]. apply Ht'.
    intros Hin. apply list_elem_of_In in Hin. cbn in Hin. intuition discriminate.
Qed.

(** X2: in part_000 every service call sends at most two requests, the
    second the same as the first and only after a rate-limit failure of
    the first attempt, with one wait of 2000 ms between them; it never
    sends a third. For the quiz a reply that does not parse counts as a
    failure of the attempt. *)
Theorem backoff_services_retry_once (net : Network) (w : World) (lessonId : Z)
    (content : string) (forceNew : bool) :
  let questions :=
    run net (ServiceBackoff.generateQuestionsFromContent lessonId content forceNew) w in
  let mindmap := run net (ServiceBackoff.generateStudyMindmap lessonId content) w in
  let trends := run net ServiceBackoff.searchGuangzhouExamTrends w in
  (at_most_one_retry questions (QuizPrompt (String.substring 0 1000 content) None)
   /\ (length (requests questions) = 2%nat ->
       exists e, isQuotaError e = true
         /\ (reply net 0 = Err e
             \/ exists resp, reply net 0 = Ok resp
                  /\ @JSON_parse (list Question.t) _
                       (or_else (String_trim (text_or_empty resp)) "[]") = Err e)))
  /\ (at_most_one_retry mindmap (MindmapPrompt (String.substring 0 800 content))
      /\ (length (requests mindmap) = 2%nat ->
          exists e, isQuotaError e = true /\ reply net 0 = Err e))
  /\ (at_most_one_retry trends TrendsPrompt
      /\ (length (requests trends) = 2%nat ->
          exists e, isQuotaError e = true /\ reply net 0 = Err e)).
Proof.
  cbv zeta. unfold at_most_one_retry. split; [|split].
  all: service_run.
  all: (split; [tauto | first [discriminate | intros _; first_failure]]).
Qed.

(** X3: a service call that fails stores nothing: when the promise of
    any of the six service functions is rejected, local storage is what
    it was before the call. *)
Theorem services_store_nothing_on_failure (svc : ServiceRevision) (net : Network)
    (w : World) (lessonId : Z) (content : string) (forceNew : bool) (e : Error) :
  let questions := run net (generateQuestionsFromContent_of svc lessonId content forceNew) w in
  let mindmap := run net (generateStudyMindmap_of svc lessonId content) w in
  let trends := run net (searchGuangzhouExamTrends_of svc) w in
  (result questions = Err e -> localStorage (final questions) = localStorage w)
  /\ (result mindmap = Err e -> localStorage (final mindmap) = localStorage w)
  /\ (result trends = Err e -> localStorage (final trends) = localStorage w).
Proof.
  cbv zeta.
  destruct svc; cbn [generateQuestionsFromContent_of generateStudyMindmap_of
                     searchGuangzhouExamTrends_of]; (split; [|split]).
  all: service_run.
  all: first [discriminate | intros _; reflexivity].
Qed.

(** X4: the services of part_001 never retry and never wait: each call
    sends at most one request and sets no timer. Its
    [generateQuestionsFromContent] swallows every failure of the request
    and of parsing the reply: it logs the error and returns the empty
    list, storing nothing; its promise is rejected only by the parse
    error of a corrupt cache entry, before any request is made. *)
Theorem timestamp_services_fail_soft (net : Network) (w : World) (lessonId : Z)
    (content : string) (forceNew : bool) :
  let questions :=
    run net (ServiceTimestamp.generateQuestionsFromContent lessonId content forceNew) w in
  let mindmap := run net (ServiceTimestamp.generateStudyMindmap lessonId content) w in
  let trends := run net ServiceTimestamp.searchGuangzhouExamTrends w in
  ((length (requests questions) <= 1)%nat /\ timers questions = []
   /\ (forall e, result questions = Err e ->
        forceNew = false
        /\ getCachedData (T:=list Question.t)
             ("questions_lesson_" +:+ Number_toString lessonId) w = Err e
        /\ requests questions = [] /\ final questions = w)
   /\ (forall e, reply net 0 = Err e -> requests questions <> [] ->
        result questions = Ok []
        /\ final questions
           = console_error "AI Question Generation Error" e (tick (latency net 0) w)))
  /\ ((length (requests mindmap) <= 1)%nat /\ timers mindmap = [])
  /\ ((length (requests trends) <= 1)%nat /\ timers trends = []).
Proof.
  cbv zeta. split; [|split].
  - service_run.
    all: split; [cbn; lia|]; split; [reflexivity|]; split.
    all: first
      [ intros e' Hres; first [discriminate Hres | injection Hres as <-; auto]
      | intros e' Hr Hne;
        first [ exfalso; apply Hne; reflexivity | discriminate Hr
              | injection Hr as <-; split; reflexivity ] ].
  - service_run; split; first [cbn; lia | reflexivity].
  - service_run; split; first [cbn; lia | reflexivity].
Qed.

End ServiceFacts.

(** ** A result that was fetched, asked for again *)

Lemma stored_under_cache_key `{JSON T} (k : string) (v : T) (w : World) (later : Z) :
  localStorage (set_clock later (setCachedData k v w)) !! ("cache_" +:+ k)
  = Some (JSON_stringify v).
Proof.
  unfold setCachedData.
  change (localStorage (set_clock later (set_localStorage ?m w))) with m.
  apply lookup_insert_eq.
Qed.

Section FetchedAgain.
Context `{Builtins} `{!JSON (list Question.t)} `{!JSON string} `{!JSON Trends}.

(** X5: a quiz that was generated and parsed is served from the cache
    from then on: a later call for the same lesson without [forceNew], at
    any later time, returns the same questions without a request. The
    cache is keyed by the lesson id alone, so this holds even when the
    later call passes different content. *)
Theorem generated_quiz_is_served_from_cache (svc : ServiceRevision) (net net' : Network)
    (w : World) (lessonId : Z) (content content' : string) (forceNew : bool)
    (resp : Response) (data : list Question.t) (later : Z) :
  forceNew = true
  \/ localStorage w !! ("cache_questions_lesson_" +:+ Number_toString lessonId) = None ->
  reply net 0 = Ok resp ->
  JSON_parse (or_else (String_trim (text_or_empty resp)) "[]") = Ok data ->
  JSON_parse (JSON_stringify data) = Ok data ->
  let first := run net (generateQuestionsFromContent_of svc lessonId content forceNew) w in
  let w2 := set_clock later (final first) in
  result first = Ok data
  /\ length (requests first) = 1%nat
  /\ run net' (generateQuestionsFromContent_of svc lessonId content' false) w2
     = {| result := Ok data; final := w2; requests := []; timers := [] |}.
Proof.
  intros Hcold Hr Hp Hrt. cbv zeta.
  assert (Hfirst : final (run net (generateQuestionsFromContent_of svc lessonId content
                                     forceNew) w)
                   = setCachedData ("questions_lesson_" +:+ Number_toString lessonId) data
                       (tick (latency net 0) w)
                   /\ result (run net (generateQuestionsFromContent_of svc lessonId content
                                         forceNew) w) = Ok data
                   /\ length (requests (run net (generateQuestionsFromContent_of svc lessonId
                                                   content forceNew) w)) = 1%nat).
  { assert (Hmiss : forceNew = false ->
              getCachedData (T:=list Question.t)
                ("questions_lesson_" +:+ Number_toString lessonId) w = Ok None).
    { intros ->. destruct Hcold as [[=]|Hnone]. apply getCachedData_miss. exact Hnone. }
    destruct svc; cbn [generateQuestionsFromContent_of];
      unfold run, ServiceBackoff.generateQuestionsFromContent,
        ServiceTimestamp.generateQuestionsFromContent, retryWithBackoff;
      cbv zeta; destruct forceNew;
      cbn [negb await Task_AsyncMonad attempt Promise_then];
      try rewrite (Hmiss eq_refl);
      cbn [negb default retry_loop try_catch Task_AsyncMonad await generateContent read
           attempt Promise_then Promise_catch run_from length];
      rewrite Hr; cbn [attempt Promise_then Promise_catch]; rewrite Hp;
      repeat split. }
  destruct Hfirst as (Hfinal & Hres & Hreq).
  split; [exact Hres|]. split; [exact Hreq|].
  rewrite Hfinal.
  pose proof (getCachedData_hit ("questions_lesson_" +:+ Number_toString lessonId)
                (JSON_stringify data) data _
                (stored_under_cache_key _ data (tick (latency net 0) w) later) Hrt) as Hhit.
  destruct svc; cbn [generateQuestionsFromContent_of];
    unfold run, ServiceBackoff.generateQuestionsFromContent,
      ServiceTimestamp.generateQuestionsFromContent;
    cbn [negb await Task_AsyncMonad attempt Promise_then];
    rewrite Hhit; reflexivity.
Qed.

(** X6: a mind map that was generated is cached under the lesson id, and
    a later call returns it without a request when its text is not
    empty; an empty text is stored too but never served, so every later
    call asks the service again. *)
Theorem mindmap_cache_skips_empty_text (svc : ServiceRevision) (net net' : Network)
    (w : World) (lessonId : Z) (content content' : string) (resp : Response) (later : Z) :
  localStorage w !! ("cache_mindmap_lesson_" +:+ Number_toString lessonId) = None ->
  reply net 0 = Ok resp ->
  JSON_parse (JSON_stringify (text_or_empty resp)) = Ok (text_or_empty resp) ->
  let first := run net (generateStudyMindmap_of svc lessonId content) w in
  let w2 := set_clock later (final first) in
  let second := run net' (generateStudyMindmap_of svc lessonId content') w2 in
  result first = Ok (text_or_empty resp)
  /\ localStorage w2 !! ("cache_mindmap_lesson_" +:+ Number_toString lessonId)
     = Some (JSON_stringify (text_or_empty resp))
  /\ (text_or_empty resp <> "" ->
      second = {| result := Ok (text_or_empty resp); final := w2;
                  requests := []; timers := [] |})
  /\ (text_or_empty resp = "" -> requests second <> []).
Proof.
  intros Hnone Hr Hrt. cbv zeta.
  assert (Hfirst : final (run net (generateStudyMindmap_of svc lessonId content) w)
                   = setCachedData ("mindmap_lesson_" +:+ Number_toString lessonId)
                       (text_or_empty resp) (tick (latency net 0) w)
                   /\ result (run net (generateStudyMindmap_of svc lessonId content) w)
                      = Ok (text_or_empty resp)).
  { destruct svc; cbn [generateStudyMindmap_of];
      unfold run, ServiceBackoff.generateStudyMindmap, ServiceTimestamp.generateStudyMindmap,
        retryWithBackoff;
      cbv zeta; cbn [await Task_AsyncMonad attempt Promise_then];
      rewrite (getCachedData_miss ("mindmap_lesson_" +:+ Number_toString lessonId) w Hnone);
      cbn [default retry_loop try_catch Task_AsyncMonad await generateContent
           attempt Promise_then Promise_catch run_from length];
      rewrite Hr; split; reflexivity. }
  destruct Hfirst as (Hfinal & Hres).
  split; [exact Hres|]. rewrite Hfinal.
  pose proof (stored_under_cache_key ("mindmap_lesson_" +:+ Number_toString lessonId)
                (text_or_empty resp) (tick (latency net 0) w) later) as Hstored.
  split; [exact Hstored|].
  pose proof (getCachedData_hit ("mindmap_lesson_" +:+ Number_toString lessonId)
                (JSON_stringify (text_or_empty resp)) (text_or_empty resp) _ Hstored Hrt)
    as Hhit.
  split.
  - intros Hne.
    destruct svc; cbn [generateStudyMindmap_of];
      unfold run, ServiceBackoff.generateStudyMindmap, ServiceTimestamp.generateStudyMindmap;
      cbn [await Task_AsyncMonad attempt Promise_then];
      rewrite Hhit, (truthy_nonempty _ Hne); reflexivity.
  - intros Hempty.
    destruct svc; cbn [generateStudyMindmap_of];
      unfold run, ServiceBackoff.generateStudyMindmap, ServiceTimestamp.generateStudyMindmap,
        retryWithBackoff;
      cbn [await Task_AsyncMonad attempt Promise_then];
      rewrite Hhit, Hempty;
      cbn [default retry_loop try_catch Task_AsyncMonad await generateContent
           Promise_then Promise_catch];
      apply run_from_asks.
Qed.

(** X7: in part_001 the trends fetched at time [t] are served from the
    cache, without a request, at every later time before [t + 3600000],
    and fetched again from [t + 3600000] on: the time stamp written after
    the query is the one the next call reads. *)
Theorem trends_expire_after_an_hour (net net' : Network) (w : World) (resp : Response)
    (later : Z) :
  localStorage w !! "cache_exam_trends" = None ->
  reply net 0 = Ok resp ->
  JSON_parse (JSON_stringify (trends_of resp)) = Ok (trends_of resp) ->
  let fetched := clock w + latency net 0 in
  parseInt (Number_toString fetched) = Some fetched ->
  Number_toString fetched <> "" ->
  let first := run net ServiceTimestamp.searchGuangzhouExamTrends w in
  let w2 := set_clock later (final first) in
  let second := run net' ServiceTimestamp.searchGuangzhouExamTrends w2 in
  result first = Ok (trends_of resp)
  /\ (later - fetched < 3600000 ->
      second = {| result := Ok (trends_of resp); final := w2; requests := []; timers := [] |})
  /\ (3600000 <= later - fetched -> requests second = [TrendsPrompt]).
Proof.
  intros Hnone Hr Hrt fetched Hparse Hshown. cbv zeta.
  set (stamped :=
         set_localStorage
           (<["trends_timestamp" := Number_toString fetched]>
              (localStorage (setCachedData "exam_trends" (trends_of resp)
                               (tick (latency net 0) w))))
           (setCachedData "exam_trends" (trends_of resp) (tick (latency net 0) w))).
  assert (Hfirst : run net ServiceTimestamp.searchGuangzhouExamTrends w
                   = {| result := Ok (trends_of resp); final := stamped;
                        requests := [TrendsPrompt]; timers := [] |}).
  { unfold run, ServiceTimestamp.searchGuangzhouExamTrends. cbv zeta.
    cbn [await Task_AsyncMonad attempt read Promise_then].
    rewrite (getCachedData_miss "exam_trends" w Hnone).
    cbn [Task_AsyncMonad await generateContent read attempt Promise_then run_from length].
    destruct (localStorage w !! "trends_timestamp");
      cbn [Task_AsyncMonad await generateContent read attempt Promise_then run_from length];
      rewrite Hr; reflexivity. }
  rewrite Hfirst. cbn [result final].
  split; [reflexivity|].
  assert (Hcached : getCachedData "exam_trends" (set_clock later stamped)
                    = Ok (Some (trends_of resp))).
  { apply (getCachedData_hit "exam_trends" (JSON_stringify (trends_of resp))); [|exact Hrt].
    unfold stamped, setCachedData.
    change (localStorage (set_clock later (set_localStorage ?m _))) with m.
    rewrite lookup_insert_ne by discriminate. apply lookup_insert_eq. }
  assert (Hstamp : localStorage (set_clock later stamped) !! "trends_timestamp"
                   = Some (Number_toString fetched)).
  { unfold stamped.
    change (localStorage (set_clock later (set_localStorage ?m _))) with m.
    apply lookup_insert_eq. }
  assert (Hnow : clock (set_clock later stamped) = later) by (destruct w; reflexivity).
  unfold run, ServiceTimestamp.searchGuangzhouExamTrends. cbv zeta.
  cbn [Task_AsyncMonad await read attempt Promise_then].
  rewrite Hcached, Hstamp, Hnow.
  unfold ServiceTimestamp.within_the_hour. rewrite Hparse, (truthy_nonempty _ Hshown).
  change (truthy (trends_of resp)) with true.
  split; intros Hage.
  - replace (later - fetched <? 3600000) with true by (symmetry; apply Z.ltb_lt; exact Hage).
    reflexivity.
  - replace (later - fetched <? 3600000) with false by (symmetry; apply Z.ltb_ge; exact Hage).
    cbn [andb Task_AsyncMonad await generateContent read attempt Promise_then run_from length].
    destruct (reply net' 0); reflexivity.
Qed.

End FetchedAgain.

Lemma List_filter_sublist {A} (f : A -> bool) (l : list A) : sublist (List.filter f l) l.
Proof.
  induction l as [|a l IH]; cbn; [constructor|].
  destruct (f a); [apply sublist_skip | apply sublist_cons]; exact IH.
Qed.

(** X8: every link of a trends result has a title and a uri that are
    not empty; the links are the grounding chunks' links in their order,
    less those without one of the two; a response without grounding
    chunks gives no links. *)
Theorem links_have_title_and_uri (resp : Response) :
  Forall (fun l => exists t u, SearchResult.title l = Some t /\ SearchResult.uri l = Some u
                               /\ t <> "" /\ u <> "")
    (links_of resp)
  /\ sublist (links_of resp) (List.map link_of (default [] (groundingChunks resp)))
  /\ (forall c t u, In c (default [] (groundingChunks resp)) ->
        web c = Some {| web_title := Some t; web_uri := Some u |} -> t <> "" -> u <> "" ->
        In {| SearchResult.title := Some t; SearchResult.uri := Some u |} (links_of resp)).
Proof.
  unfold links_of. destruct (groundingChunks resp) as [chunks|]; cbn [default from_option id].
  - split; [|split].
    + apply Forall_forall. intros l Hin. apply list_elem_of_In, filter_In in Hin.
      destruct Hin as [_ Hl]. apply andb_prop in Hl. destruct Hl as [Ht Hu].
      destruct (SearchResult.title l) as [t|]; [|discriminate].
      destruct (SearchResult.uri l) as [u|]; [|discriminate].
      exists t, u. repeat split; intros ->; discriminate.
    + apply List_filter_sublist.
    + intros c t u Hin Hweb Ht Hu. apply filter_In. split.
      * apply in_map_iff. exists c. split; [|exact Hin].
        unfold link_of. rewrite Hweb. reflexivity.
      * cbn. rewrite (truthy_nonempty t Ht), (truthy_nonempty u Hu). reflexivity.
  - split; [constructor|]. split; [constructor|]. intros c t u [].
Qed.

Lemma generated_quiz_is_served_from_cache_witness :
  let first :=
    run SampleRuns.always_empty
      (@generateQuestionsFromContent_of Sample.builtins Sample.questions_JSON
         Timestamp 1 "content" false) Sample.blank in
  localStorage Sample.blank !! "cache_questions_lesson_1" = None
  /\ result first = Ok []
  /\ run SampleRuns.always_empty
       (@generateQuestionsFromContent_of Sample.builtins Sample.questions_JSON
          Timestamp 1 "other content" false) (set_clock 99 (final first))
     = {| result := Ok []; final := set_clock 99 (final first);
          requests := []; timers := [] |}.
Proof.
  cbv zeta. split; [reflexivity|].
  pose proof (@generated_quiz_is_served_from_cache Sample.builtins Sample.questions_JSON
                Timestamp SampleRuns.always_empty SampleRuns.always_empty Sample.blank 1
                "content" "other content" false
                {| text := Some "[]"; groundingChunks := None |} [] 99
                (or_intror eq_refl) eq_refl eq_refl eq_refl)
    as (Hfirst & _ & Hsecond).
  split; [exact Hfirst | exact Hsecond].
Defined.

Lemma mindmap_cache_skips_empty_text_witness :
  let silent : Network :=
    {| reply := fun _ => Ok {| text := None; groundingChunks := None |};
       latency := fun _ => 150 |} in
  let first :=
    run silent (@generateStudyMindmap_of Sample.builtins Sample.string_JSON Backoff 1 "content")
      Sample.blank in
  result first = Ok ""
  /\ localStorage (set_clock 99 (final first)) !! "cache_mindmap_lesson_1" = Some "''"
  /\ requests
       (run silent
          (@generateStudyMindmap_of Sample.builtins Sample.string_JSON Backoff 1 "content")
          (set_clock 99 (final first))) <> [].
Proof.
  cbv zeta.
  pose proof (@mindmap_cache_skips_empty_text Sample.builtins Sample.string_JSON Backoff
                {| reply := fun _ => Ok {| text := None; groundingChunks := None |};
                   latency := fun _ => 150 |}
                {| reply := fun _ => Ok {| text := None; groundingChunks := None |};
                   latency := fun _ => 150 |}
                Sample.blank 1 "content" "content"
                {| text := None; groundingChunks := None |} 99 eq_refl eq_refl eq_refl)
    as (Hfirst & Hstored & _ & Hagain).
  split; [exact Hfirst|]. split; [exact Hstored|]. apply Hagain. reflexivity.
Defined.

Lemma trends_expire_after_an_hour_witness :
  let silent : Network :=
    {| reply := fun _ => Ok {| text := None; groundingChunks := None |};
       latency := fun _ => 150 |} in
  let search :=
    @ServiceTimestamp.searchGuangzhouExamTrends Sample.builtins Sample.trends_JSON in
  let first := run silent search Sample.blank in
  run silent search (set_clock 3600149 (final first))
  = {| result := Ok Sample.no_trends; final := set_clock 3600149 (final first);
       requests := []; timers := [] |}
  /\ requests (run silent search (set_clock 3600150 (final first))) = [TrendsPrompt].
Proof.
  cbv zeta.
  assert (Hshown : @Number_toString Sample.builtins (clock Sample.blank + 150) <> "")
    by discriminate.
  split.
  - pose proof (@trends_expire_after_an_hour Sample.builtins Sample.trends_JSON
                  {| reply := fun _ => Ok {| text := None; groundingChunks := None |};
                     latency := fun _ => 150 |}
                  {| reply := fun _ => Ok {| text := None; groundingChunks := None |};
                     latency := fun _ => 150 |}
                  Sample.blank {| text := None; groundingChunks := None |} 3600149
                  eq_refl eq_refl eq_refl eq_refl Hshown)
      as (_ & Hhit & _).
    apply Hhit. reflexivity.
  - pose proof (@trends_expire_after_an_hour Sample.builtins Sample.trends_JSON
                  {| reply := fun _ => Ok {| text := None; groundingChunks := None |};
                     latency := fun _ => 150 |}
                  {| reply := fun _ => Ok {| text := None; groundingChunks := None |};
                     latency := fun _ => 150 |}
                  Sample.blank {| text := None; groundingChunks := None |} 3600150
                  eq_refl eq_refl eq_refl eq_refl Hshown)
      as (_ & _ & Hstale).
    apply Hstale. discriminate.
Defined.

(** ** Invariants over the event loop *)

Lemma keeps_refl (P : World -> Prop) (w : World) : keeps P w w.
Proof. constructor. exact (fun HP => HP). Qed.

Lemma keeps_trans (P : World -> Prop) (w1 w2 w3 : World) :
  keeps P w1 w2 -> keeps P w2 w3 -> keeps P w1 w3.
Proof. intros [H12] [H23]. constructor. exact (fun HP => H23 (H12 HP)). Qed.

Lemma Promise_frames_mono {A} (R R' : World -> World -> Prop) (w0 : World) (p : Promise A) :
  (forall w w', R w w' -> R' w w') -> Promise_frames R w0 p -> Promise_frames R' w0 p.
Proof.
  intros Hsub Hp.
  induction Hp as [w0 r w H1|w0 rq w k H1 Hk IH|w0 ms w k H1 Hk IH]; constructor; auto.
Qed.

Section LoopFrames.
Context `{Builtins} `{!JSON UserProgress} `{!JSON (list Question.t)} `{!JSON string}
  `{!JSON Trends}.
Variable R : World -> World -> Prop.
Hypothesis R_refl : forall w, R w w.
Hypothesis R_trans : forall w1 w2 w3, R w1 w2 -> R w2 w3 -> R w1 w3.

Lemma frames_resumes {A} (w0 : World) (p : Promise A) :
  Promise_frames R w0 p -> R w0 (world_of p) /\ Promise_resumes R p.
Proof. intros Hp. destruct Hp; cbn; auto. Qed.

Lemma start_frames {A} (n : nat) (t : Task A) (l : Loop) :
  Task_frames R t -> Loop_frames R l ->
  R (world l) (world (start n t l)) /\ Loop_frames R (start n t l).
Proof.
  intros Ht Hl. unfold start, Loop_frames. cbv zeta. cbn [world pending].
  assert (Hp : Promise_frames R (world l) (detach (t (world l)))).
  { unfold detach. apply Promise_then_frames; [exact R_trans | apply Ht |].
    intros a. apply frames_resolve. exact R_refl. }
  destruct (frames_resumes _ _ Hp) as [Hw Hres].
  split; [exact Hw|].
  destruct (settled (detach (t (world l)))); [exact Hl|].
  apply Forall_app. split; [exact Hl|]. constructor; [exact Hres | constructor].
Qed.

Lemma start_and_ignore_frames {A} (n : nat) (t : Task A) (l : Loop) :
  Task_frames R t -> Loop_frames R l ->
  R (world l) (world (start_and_ignore n t l)) /\ Loop_frames R (start_and_ignore n t l).
Proof.
  intros Ht Hl. unfold start_and_ignore. apply start_frames; [|exact Hl].
  apply frames_try_catch; try assumption.
  - apply frames_await; try assumption. intros a. apply frames_resolve. exact R_refl.
  - intros e. apply frames_resolve. exact R_refl.
Qed.

Lemma deliver_frames (i : nat) (ev : Arrival) (l : Loop) :
  Loop_frames R l ->
  R (world l) (world (deliver i ev l)) /\ Loop_frames R (deliver i ev l).
Proof.
  intros Hl. unfold deliver.
  destruct (pending l !! i) as [[action p]|] eqn:Hi; [|split; [apply R_refl | exact Hl]].
  assert (Hp : Promise_resumes R p).
  { unfold Loop_frames in Hl. rewrite Forall_lookup in Hl. exact (Hl i _ Hi). }
  destruct (resume ev p (world l)) as [p'|] eqn:Hres; [|split; [apply R_refl | exact Hl]].
  assert (Hp' : Promise_frames R (world l) p').
  { destruct p as [r w|rq w k|ms w k], ev as [r'|]; cbn in Hres; try discriminate;
      injection Hres as <-; apply Hp. }
  destruct (frames_resumes _ _ Hp') as [Hw Hk].
  cbn [world pending]. split; [exact Hw|].
  unfold Loop_frames. cbn [pending].
  destruct (settled p').
  - apply Forall_delete. exact Hl.
  - apply Forall_insert; [exact Hl | exact Hk].
Qed.

Variable app : AppRevision.
Variable svc : ServiceRevision.
Hypothesis Happ : handlers_frame app svc R.

Lemma handle_frames (act : Action) (n : nat) (l : Loop) :
  Loop_frames R l ->
  R (world l) (world (handle app svc act n l)) /\ Loop_frames R (handle app svc act n l).
Proof.
  intros Hl.
  destruct Happ as (Hreview & Hpractice & Htrends & Hrefresh & Hq & Hm & Hqueue & Hsubmit
                    & Hclear).
  destruct act as [lesson|lesson|lesson forceNew| | | |id]; cbn [handle].
  - apply start_frames; [apply Hreview | exact Hl].
  - destruct app; [split; [apply R_refl | exact Hl]|].
    unfold AppPrefetch.prefetchLessonData.
    destruct (bool_decide (Lesson.id lesson ∈ prefetchQueue (world l)));
      [split; [apply R_refl | exact Hl]|].
    cbv zeta.
    match goal with
    | |- context [start_and_ignore n ?t2 (start_and_ignore n ?t1 ?l1)] =>
        destruct (start_and_ignore_frames n t1 l1 (Hq _ _ _) Hl) as [Hw1 Hl1];
        destruct (start_and_ignore_frames n t2 (start_and_ignore n t1 l1) (Hm _ _) Hl1)
          as [Hw2 Hl2]
    end.
    split; [|exact Hl2].
    eapply R_trans; [apply (Hqueue (world l) (Lesson.id lesson))|].
    eapply R_trans; [exact Hw1 | exact Hw2].
  - apply start_frames; [apply Hpractice | exact Hl].
  - apply start_frames; [apply Htrends | exact Hl].
  - destruct app; [split; [apply R_refl | exact Hl]|].
    apply start_frames; [apply Hrefresh | exact Hl].
  - split; [apply Hsubmit | exact Hl].
  - split; [apply Hclear | exact Hl].
Qed.

Lemma loop_frames (es : list LoopEvent) (l : Loop) :
  Loop_frames R l ->
  R (world l) (world (fold_left (loop_step app svc) es l))
  /\ Loop_frames R (fold_left (loop_step app svc) es l).
Proof.
  revert l. induction es as [|e es IH]; intros l Hl; cbn [fold_left].
  - split; [apply R_refl | exact Hl].
  - assert (Hstep : R (world l) (world (loop_step app svc l e))
                    /\ Loop_frames R (loop_step app svc l e)).
    { destruct e as [act|i ev]; cbn [loop_step].
      - unfold dispatch.
        apply (handle_frames act (actions l)
                 {| world := world l; pending := pending l;
                    actions := Datatypes.S (actions l) |}).
        exact Hl.
      - apply deliver_frames. exact Hl. }
    destruct Hstep as [Hw1 Hl1]. destruct (IH _ Hl1) as [Hw2 Hl2].
    split; [eapply R_trans; eassumption | exact Hl2].
Qed.

End LoopFrames.

(** ** The saved progress and the prefetch queue *)

(** Proves that a handler keeps a property [P] of the world at every
    stretch; [svc] proves it of the service calls, [upd] of the single
    writes. *)
Ltac keeps_by svc upd :=
  repeat first
    [ exact (keeps_refl _) | exact (keeps_trans _)
    | svc
    | progress intros
    | apply frames_resolve | apply frames_reject | apply frames_read
    | apply frames_attempt | apply frames_update | apply frames_await
    | apply frames_try_catch | apply frames_finally
    | match goal with
      | |- Task_frames _ (match ?x with _ => _ end) => destruct x
      | |- keeps _ _ _ => upd
      end ].

Lemma touches_only_state (keys : list string) (w w' : World) :
  touches_only keys w w' ->
  user w' = user w /\ prefetchQueue w' = prefetchQueue w /\ loading w' = loading w.
Proof.
  intros [_ Hw']. rewrite <- Hw'. destruct w'; repeat split.
Qed.

Section Persisted.
Context `{Builtins} `{!JSON UserProgress} `{!JSON (list Question.t)} `{!JSON string}
  `{!JSON Trends}.

Lemma persisted_saveUserProgress (u : UserProgress) (w : World) :
  persisted (saveUserProgress u w).
Proof.
  intros u' Hu. unfold saveUserProgress in *.
  change (localStorage (set_localStorage ?m _)) with m.
  destruct w; cbn in Hu. injection Hu as <-. apply lookup_insert_eq.
Qed.

Lemma keeps_persisted_touches (keys : list string) :
  "history_user" ∉ keys -> forall w w', touches_only keys w w' -> keeps persisted w w'.
Proof.
  intros Hkey w w' Ht. destruct (touches_only_state keys w w' Ht) as (Hu & _).
  destruct Ht as [Hk _]. constructor. intros HP u Hu'.
  rewrite (Hk _ Hkey). apply HP. rewrite <- Hu. exact Hu'.
Qed.

Lemma services_keep_persisted (svc : ServiceRevision) :
  (forall id content forceNew,
     Task_frames (keeps persisted) (generateQuestionsFromContent_of svc id content forceNew))
  /\ (forall id content,
        Task_frames (keeps persisted) (generateStudyMindmap_of svc id content))
  /\ Task_frames (keeps persisted) (searchGuangzhouExamTrends_of svc).
Proof.
  split; [|split]; intros.
  - destruct (footprint_frames svc id content forceNew) as (Hq & _ & _).
    intros w. eapply Promise_frames_mono; [|apply Hq].
    apply keeps_persisted_touches. cbn. rewrite list_elem_of_singleton. discriminate.
  - destruct (footprint_frames svc id content false) as (_ & Hm & _).
    intros w. eapply Promise_frames_mono; [|apply Hm].
    apply keeps_persisted_touches. cbn. rewrite list_elem_of_singleton. discriminate.
  - destruct (footprint_frames svc 0 "" false) as (_ & _ & Ht).
    intros w. eapply Promise_frames_mono; [|apply Ht].
    apply keeps_persisted_touches.
    intros Hin. apply list_elem_of_In in Hin. cbn in Hin. intuition discriminate.
Qed.

Ltac persisted_update :=
  constructor;
  try unfold markCompleted, clearWrongQuestion, recordScore;
  repeat match goal with
         | |- context [match ?x with _ => _ end] => destruct x
         end;
  first [ intros _; apply persisted_saveUserProgress | exact (fun HP => HP) ].

Lemma handlers_keep_persisted (app : AppRevision) (svc : ServiceRevision) :
  handlers_frame app svc (keeps persisted).
Proof.
  destruct (services_keep_persisted svc) as (Hq & Hm & Ht).
  unfold handlers_frame.
  split; [|split; [|split; [|split; [|split; [|split; [|split; [|split]]]]]]];
    try assumption.
  - intros lesson.
    destruct app; cbn [handleReview_of];
      unfold AppBanner.handleReview, AppPrefetch.handleReview;
      keeps_by ltac:(apply Hm) ltac:(persisted_update).
  - intros lesson forceNew.
    destruct app; cbn [handleStartPractice_of];
      unfold AppBanner.handleStartPractice, AppPrefetch.handleStartPractice;
      keeps_by ltac:(apply Hq) ltac:(persisted_update).
  - destruct app; cbn [handleTrends_of];
      unfold AppBanner.handleTrends, AppPrefetch.handleTrends;
      keeps_by ltac:(apply Ht) ltac:(persisted_update).
  - unfold AppPrefetch.refreshTrends.
    keeps_by ltac:(apply Ht) ltac:(persisted_update).
  - intros w id. constructor. exact (fun HP => HP).
  - intros w. destruct app; cbn [calculateScore_of];
      unfold AppBanner.calculateScore, AppPrefetch.calculateScore; persisted_update.
  - intros id w. persisted_update.
Qed.

End Persisted.

Section LoopInvariants.
Context `{Builtins} `{!JSON UserProgress} `{!JSON (list Question.t)} `{!JSON string}
  `{!JSON Trends}.

(** X9: the saved progress never falls behind the page. Once the entry
    under ['history_user'] is the serialization of the [user] on the
    page, it stays so through every sequence of clicks, hovers, replies
    and timers, in every interleaving of the handlers, in both revisions
    of the page with either revision of the service. *)
Theorem saved_progress_stays_current (app : AppRevision) (svc : ServiceRevision)
    (es : list LoopEvent) (w : World) :
  persisted w -> persisted (world (loop_run app svc es w)).
Proof.
  intros Hw.
  destruct (loop_frames (keeps persisted) (keeps_refl _) (keeps_trans _) app svc
              (handlers_keep_persisted app svc) es (idle w)) as [[Hkeep] _].
  - constructor.
  - exact (Hkeep Hw).
Qed.

Lemma services_keep_queue (svc : ServiceRevision) (P : World -> Prop) :
  (forall w w', prefetchQueue w' = prefetchQueue w -> P w -> P w') ->
  (forall id content forceNew,
     Task_frames (keeps P) (generateQuestionsFromContent_of svc id content forceNew))
  /\ (forall id content, Task_frames (keeps P) (generateStudyMindmap_of svc id content))
  /\ Task_frames (keeps P) (searchGuangzhouExamTrends_of svc).
Proof.
  intros HP.
  assert (Hsub : forall keys w w', touches_only keys w w' -> keeps P w w').
  { intros keys w w' Ht. destruct (touches_only_state keys w w' Ht) as (_ & Hq & _).
    constructor. apply HP, Hq. }
  split; [|split]; intros.
  - destruct (footprint_frames svc id content forceNew) as (Hq & _ & _).
    intros w. eapply Promise_frames_mono; [apply Hsub | apply Hq].
  - destruct (footprint_frames svc id content false) as (_ & Hm & _).
    intros w. eapply Promise_frames_mono; [apply Hsub | apply Hm].
  - destruct (footprint_frames svc 0 "" false) as (_ & _ & Ht).
    intros w. eapply Promise_frames_mono; [apply Hsub | apply Ht].
Qed.

Ltac queue_update :=
  constructor;
  try unfold markCompleted, clearWrongQuestion, recordScore, saveUserProgress;
  repeat match goal with
         | |- context [match ?x with _ => _ end] => destruct x
         end;
  exact (fun HP => HP).

Lemma handlers_keep_queued (app : AppRevision) (svc : ServiceRevision) (lessonId : Z) :
  handlers_frame app svc (keeps (fun w => lessonId ∈ prefetchQueue w)).
Proof.
  destruct (services_keep_queue svc (fun w => lessonId ∈ prefetchQueue w))
    as (Hq & Hm & Ht).
  { intros w w' ->. exact (fun HP => HP). }
  unfold handlers_frame.
  split; [|split; [|split; [|split; [|split; [|split; [|split; [|split]]]]]]];
    try assumption.
  - intros lesson.
    destruct app; cbn [handleReview_of];
      unfold AppBanner.handleReview, AppPrefetch.handleReview;
      keeps_by ltac:(apply Hm) ltac:(queue_update).
  - intros lesson forceNew.
    destruct app; cbn [handleStartPractice_of];
      unfold AppBanner.handleStartPractice, AppPrefetch.handleStartPractice;
      keeps_by ltac:(apply Hq) ltac:(queue_update).
  - destruct app; cbn [handleTrends_of];
      unfold AppBanner.handleTrends, AppPrefetch.handleTrends;
      keeps_by ltac:(apply Ht) ltac:(queue_update).
  - unfold AppPrefetch.refreshTrends.
    keeps_by ltac:(apply Ht) ltac:(queue_update).
  - intros w id. constructor. cbn. intros Hin. apply elem_of_union_r. exact Hin.
  - intros w. destruct app; cbn [calculateScore_of];
      unfold AppBanner.calculateScore, AppPrefetch.calculateScore; queue_update.
  - intros id w. queue_update.
Qed.

(** X10: in part_003 a lesson is prefetched once per page load. After
    the pointer has been over a lesson, whatever happens next (clicks,
    other hovers, replies, failures, in any order), another hover over
    the same lesson starts no request and changes nothing; a prefetch
    that failed is therefore not tried again. *)
Theorem hover_prefetches_once (svc : ServiceRevision) (es1 es2 : list LoopEvent)
    (w : World) (lesson : Lesson.t) :
  let l := loop_run Prefetch svc (es1 ++ User (HoverLesson lesson) :: es2) w in
  Lesson.id lesson ∈ prefetchQueue (world l)
  /\ loop_step Prefetch svc l (User (HoverLesson lesson))
     = {| world := world l; pending := pending l; actions := Datatypes.S (actions l) |}.
Proof.
  cbv zeta.
  set (P := fun w => Lesson.id lesson ∈ prefetchQueue w).
  pose proof (handlers_keep_queued Prefetch svc (Lesson.id lesson)) as Happ.
  fold P in Happ.
  pose proof (loop_frames (keeps P) (keeps_refl _) (keeps_trans _) Prefetch svc Happ) as Hloop.
  assert (Hin : P (world (loop_run Prefetch svc (es1 ++ User (HoverLesson lesson) :: es2) w))).
  { unfold loop_run. rewrite fold_left_app. cbn [fold_left].
    destruct (Hloop es1 (idle w)) as [_ Hl1]; [constructor|].
    set (l1 := fold_left (loop_step Prefetch svc) es1 (idle w)) in *.
    assert (Hl2 : P (world (loop_step Prefetch svc l1 (User (HoverLesson lesson))))
                  /\ Loop_frames (keeps P) (loop_step Prefetch svc l1 (User (HoverLesson lesson)))).
    { cbn [loop_step]. unfold dispatch. cbn [handle].
      unfold AppPrefetch.prefetchLessonData. cbn [world pending actions].
      destruct (bool_decide (Lesson.id lesson ∈ prefetchQueue (world l1))) eqn:Hq.
      - split; [apply bool_decide_eq_true_1 in Hq; exact Hq | exact Hl1].
      - cbv zeta.
        destruct Happ as (_ & _ & _ & _ & Hgq & Hgm & _).
        match goal with
        | |- context [start_and_ignore ?n ?t2 (start_and_ignore ?n ?t1 ?l0)] =>
            destruct (start_and_ignore_frames (keeps P) (keeps_refl _) (keeps_trans _)
                        n t1 l0 (Hgq _ _ _) Hl1) as [[Hw1] Hl1'];
            destruct (start_and_ignore_frames (keeps P) (keeps_refl _) (keeps_trans _)
                        n t2 (start_and_ignore n t1 l0) (Hgm _ _) Hl1') as [[Hw2] Hl2']
        end.
        split; [|exact Hl2'].
        apply Hw2, Hw1. unfold P. cbn. apply elem_of_union_l, elem_of_singleton. reflexivity. }
    destruct Hl2 as [HP2 Hl2].
    destruct (Hloop es2 _ Hl2) as [[Hkeep] _]. exact (Hkeep HP2). }
  split; [exact Hin|].
  cbn [loop_step]. unfold dispatch. cbn [handle].
  unfold AppPrefetch.prefetchLessonData. cbn [world pending actions].
  rewrite (bool_decide_eq_true_2 _ Hin). reflexivity.
Qed.

End LoopInvariants.

Lemma saved_progress_stays_current_witness :
  let logged_in :=
    @handleLogin Sample.builtins Sample.user_JSON (set_loginName "Li" Sample.blank) in
  let es :=
    [User (ClickLesson Sample.lesson1);
     User (StartPractice Sample.lesson1 false);
     Arrives 0 (Replied (Ok {| text := Some "[]"; groundingChunks := None |}));
     User SubmitQuiz] in
  @persisted Sample.user_JSON
    (world (@loop_run Sample.builtins Sample.user_JSON Sample.questions_JSON
              Sample.string_JSON Sample.trends_JSON Banner Backoff es logged_in)).
Proof.
  cbv zeta.
  refine (@saved_progress_stays_current Sample.builtins Sample.user_JSON
            Sample.questions_JSON Sample.string_JSON Sample.trends_JSON
            Banner Backoff _ _ _).
  intros u Hu. vm_compute in Hu. injection Hu as <-. reflexivity.
Defined.

(** ** The loading overlay *)

Lemma ends_mono {A} (Q Q' : res A -> World -> Prop) (p : Promise A) :
  (forall r w, Q r w -> Q' r w) -> Promise_ends Q p -> Promise_ends Q' p.
Proof. intros Hsub Hp. induction Hp; constructor; auto. Qed.

Lemma ends_any {A} (p : Promise A) : Promise_ends (fun _ _ => True) p.
Proof. induction p; constructor; auto. Qed.

Lemma ends_then {A B} (Q1 : res A -> World -> Prop) (Q : res B -> World -> Prop)
    (p : Promise A) (f : A -> Task B) :
  Promise_ends Q1 p ->
  (forall a w, Q1 (Ok a) w -> Promise_ends Q (f a w)) ->
  (forall e w, Q1 (Err e) w -> Q (Err e) w) ->
  Promise_ends Q (Promise_then p f).
Proof.
  intros Hp Hok Herr. induction Hp as [r w HQ|rq w k Hk IH|ms w k Hk IH]; cbn.
  - destruct r; [apply Hok, HQ | constructor; apply Herr, HQ].
  - constructor. exact IH.
  - constructor. exact IH.
Qed.

Lemma ends_catch {A} (Q1 Q : res A -> World -> Prop) (p : Promise A) (h : Error -> Task A) :
  Promise_ends Q1 p ->
  (forall a w, Q1 (Ok a) w -> Q (Ok a) w) ->
  (forall e w, Q1 (Err e) w -> Promise_ends Q (h e w)) ->
  Promise_ends Q (Promise_catch p h).
Proof.
  intros Hp Hok Herr. induction Hp as [r w HQ|rq w k Hk IH|ms w k Hk IH]; cbn.
  - destruct r; [constructor; apply Hok, HQ | apply Herr, HQ].
  - constructor. exact IH.
  - constructor. exact IH.
Qed.

Lemma ends_finally {A} (Q : World -> Prop) (p : Promise A) (f : World -> World) :
  (forall w, Q (f w)) -> Promise_ends (fun _ w => Q w) (Promise_finally p f).
Proof. intros Hf. induction p; cbn; constructor; auto. Qed.

Lemma same_loading_refl (w : World) : same_loading w w.
Proof. reflexivity. Qed.

Lemma same_loading_trans (w1 w2 w3 : World) :
  same_loading w1 w2 -> same_loading w2 w3 -> same_loading w1 w3.
Proof. unfold same_loading. congruence. Qed.

Lemma stops_loading_resume (p p' : Promise unit) (ev : Arrival) (w : World) :
  stops_loading p -> resume ev p w = Some p' -> stops_loading p'.
Proof.
  intros Hp Hres. destruct Hp as [r w0 HQ|rq w0 k Hk|ms w0 k Hk], ev; cbn in Hres;
    try discriminate; injection Hres as <-; apply Hk.
Qed.

Lemma start_accounted {A} (n : nat) (t : Task A) (l : Loop) :
  stops_loading (t (world l)) \/ Promise_frames same_loading (world l) (t (world l)) ->
  loading_accounted l -> loading_accounted (start n t l).
Proof.
  intros Ht [Hall Hshown]. unfold start, loading_accounted. cbv zeta. cbn [world pending].
  set (p := detach (t (world l))).
  assert (Hp : (stops_loading p \/ Promise_resumes same_loading p)
               /\ ((stops_loading p /\ (settled p = true -> loading (world_of p) = false))
                   \/ loading (world_of p) = loading (world l))).
  { destruct Ht as [Hstop|Hsame].
    - assert (Hstop' : stops_loading p).
      { unfold p, detach. eapply ends_then; [exact Hstop| |].
        - intros a w Hw. constructor. exact Hw.
        - intros e w Hw. exact Hw. }
      split; [left; exact Hstop'|]. left. split; [exact Hstop'|].
      destruct Hstop'; cbn; [auto | discriminate | discriminate].
    - assert (Hsame' : Promise_frames same_loading (world l) p).
      { unfold p, detach.
        apply Promise_then_frames; [exact same_loading_trans | exact Hsame |].
        intros a. apply frames_resolve. exact same_loading_refl. }
      destruct (frames_resumes same_loading (world l) p Hsame') as [Hw Hres].
      split; [right; exact Hres | right; exact Hw]. }
  destruct Hp as [Hkind Hworld].
  destruct (settled p) eqn:Hsettled.
  - split; [exact Hall|]. intros Hon.
    destruct Hworld as [[_ Hoff]|Heq]; [rewrite (Hoff eq_refl) in Hon; discriminate|].
    apply Hshown. rewrite <- Heq. exact Hon.
  - split.
    + apply Forall_app. split; [exact Hall|]. constructor; [exact Hkind | constructor].
    + intros Hon. apply Exists_app.
      destruct Hworld as [[Hstop _]|Heq].
      * right. constructor. exact Hstop.
      * left. apply Hshown. rewrite <- Heq. exact Hon.
Qed.

Lemma deliver_accounted (i : nat) (ev : Arrival) (l : Loop) :
  loading_accounted l -> loading_accounted (deliver i ev l).
Proof.
  intros [Hall Hshown]. unfold deliver.
  destruct (pending l !! i) as [[action p]|] eqn:Hi; [|split; assumption].
  destruct (resume ev p (world l)) as [p'|] eqn:Hres; [|split; assumption].
  pose proof (proj1 (Forall_lookup _ _) Hall i _ Hi) as Hkind. cbn [snd] in Hkind.
  assert (Hkind' : stops_loading p' \/ Promise_resumes same_loading p').
  { destruct Hkind as [Hstop|Hsame].
    - left. exact (stops_loading_resume p p' ev (world l) Hstop Hres).
    - right. destruct p as [r w|rq w k|ms w k], ev as [r'|]; cbn in Hres; try discriminate;
        injection Hres as <-;
        apply (frames_resumes same_loading (world l)); apply Hsame. }
  assert (Hstops : stops_loading p ->
            loading (world_of p') = true ->
            Exists (fun e => stops_loading (snd e))
              (if settled p' then delete i (pending l) else <[i := (action, p')]> (pending l))).
  { intros Hstop Hon.
    pose proof (stops_loading_resume p p' ev (world l) Hstop Hres) as Hstop'.
    destruct Hstop' as [r w HQ|rq w k Hk|ms w k Hk]; cbn [settled world_of] in *.
    - rewrite HQ in Hon. discriminate.
    - apply Exists_exists. exists (action, AwaitGenerate rq w k). split.
      + apply (list_elem_of_lookup_2 _ i). apply list_lookup_insert_eq.
        apply lookup_lt_Some in Hi. exact Hi.
      + constructor. exact Hk.
    - apply Exists_exists. exists (action, AwaitTimeout ms w k). split.
      + apply (list_elem_of_lookup_2 _ i). apply list_lookup_insert_eq.
        apply lookup_lt_Some in Hi. exact Hi.
      + constructor. exact Hk. }
  split; cbn [world pending].
  - destruct (settled p').
    + apply Forall_delete. exact Hall.
    + apply Forall_insert; [exact Hall | exact Hkind'].
  - intros Hon.
    destruct Hkind as [Hstop|Hsame]; [exact (Hstops Hstop Hon)|].
    assert (Hsame' : loading (world_of p') = loading (world l)).
    { destruct p as [r w|rq w k|ms w k], ev as [r'|]; cbn in Hres; try discriminate;
        injection Hres as <-;
        apply (frames_resumes same_loading (world l)); apply Hsame. }
    rewrite Hsame' in Hon.
    pose proof (Hshown Hon) as Hex. apply Exists_exists in Hex.
    destruct Hex as [[a q] [Hin Hq]]. cbn [snd] in Hq.
    apply list_elem_of_lookup_1 in Hin. destruct Hin as [j Hj].
    destruct (Nat.eq_dec j i) as [->|Hne].
    + rewrite Hi in Hj. injection Hj as <- <-. apply Hstops; [exact Hq|].
      rewrite Hsame'. exact Hon.
    + apply Exists_exists. exists (a, q). split; [|exact Hq].
      destruct (settled p').
      * destruct (Nat.lt_ge_cases j i) as [Hlt|Hge].
        -- apply (list_elem_of_lookup_2 _ j). rewrite list_lookup_delete_lt by exact Hlt. exact Hj.
        -- apply (list_elem_of_lookup_2 _ (pred j)).
           rewrite list_lookup_delete_ge by lia.
           replace (Datatypes.S (pred j)) with j by lia. exact Hj.
      * apply (list_elem_of_lookup_2 _ j).
        rewrite list_lookup_insert_ne by (intros Heq; apply Hne; symmetry; exact Heq).
        exact Hj.
Qed.

Ltac split_on_scrutinee :=
  repeat match goal with
         | |- context [match ?x with _ => _ end] => destruct x
         end.

Lemma markCompleted_loading `{!JSON UserProgress} (closure_user : option UserProgress)
    (lesson : Lesson.t) (w : World) :
  loading (markCompleted closure_user lesson w) = loading w.
Proof. unfold markCompleted. split_on_scrutinee; reflexivity. Qed.

Section Overlay.
Context `{Builtins} `{!JSON UserProgress} `{!JSON (list Question.t)} `{!JSON string}
  `{!JSON Trends}.

Lemma services_keep_loading (svc : ServiceRevision) :
  (forall id content forceNew,
     Task_frames same_loading (generateQuestionsFromContent_of svc id content forceNew))
  /\ (forall id content, Task_frames same_loading (generateStudyMindmap_of svc id content))
  /\ Task_frames same_loading (searchGuangzhouExamTrends_of svc).
Proof.
  assert (Hsub : forall keys w w', touches_only keys w w' -> same_loading w w').
  { intros keys w w' Ht. apply (touches_only_state keys w w' Ht). }
  split; [|split]; intros.
  - destruct (footprint_frames svc id content forceNew) as (Hq & _ & _).
    intros w. eapply Promise_frames_mono; [apply Hsub | apply Hq].
  - destruct (footprint_frames svc id content false) as (_ & Hm & _).
    intros w. eapply Promise_frames_mono; [apply Hsub | apply Hm].
  - destruct (footprint_frames svc 0 "" false) as (_ & _ & Ht).
    intros w. eapply Promise_frames_mono; [apply Hsub | apply Ht].
Qed.

(** Every asynchronous handler either takes the overlay away when it
    ends, or never touches it (the branch served from the cache). *)
Lemma handlers_account (app : AppRevision) (svc : ServiceRevision) (w : World) :
  (forall lesson,
     stops_loading (handleReview_of app svc lesson w)
     \/ Promise_frames same_loading w (handleReview_of app svc lesson w))
  /\ (forall lesson forceNew,
        stops_loading (handleStartPractice_of app svc lesson forceNew w)
        \/ Promise_frames same_loading w (handleStartPractice_of app svc lesson forceNew w))
  /\ stops_loading (handleTrends_of app svc w)
  /\ stops_loading (AppPrefetch.refreshTrends (searchGuangzhouExamTrends_of svc) w).
Proof.
  split; [|split; [|split]].
  - intros lesson.
    destruct app; cbn [handleReview_of];
      unfold AppBanner.handleReview, AppPrefetch.handleReview;
      cbn [await Task_AsyncMonad read update attempt finally Promise_then];
      match goal with
      | |- context [match ?x with _ => _ end] => destruct x as [[|c s]|]
      end;
      cbn [await Task_AsyncMonad read update attempt finally Promise_then].
    all: try (left; eapply ends_then;
              [ apply (ends_finally (fun w => loading w = false)); reflexivity
              | intros a w' Hw'; constructor; rewrite markCompleted_loading; exact Hw'
              | intros e w' Hw'; exact Hw' ]).
    all: right; destruct (JSON_parse (String c s));
      cbn [await Task_AsyncMonad read update attempt finally Promise_then];
      constructor; unfold same_loading; try rewrite markCompleted_loading; reflexivity.
  - intros lesson forceNew.
    destruct app; cbn [handleStartPractice_of];
      unfold AppBanner.handleStartPractice, AppPrefetch.handleStartPractice;
      cbn [await Task_AsyncMonad read update attempt finally Promise_then];
      match goal with
      | |- context [match ?x with _ => _ end] => destruct x as [[|c s]|]
      end;
      cbn [await Task_AsyncMonad read update attempt finally Promise_then].
    all: try (left; apply (ends_finally (fun w => loading w = false)); reflexivity).
    all: right; destruct (JSON_parse (String c s));
      cbn [await Task_AsyncMonad read update attempt finally Promise_then];
      constructor; reflexivity.
  - destruct app; cbn [handleTrends_of];
      unfold AppBanner.handleTrends, AppPrefetch.handleTrends;
      cbn [await Task_AsyncMonad read update attempt finally Promise_then];
      apply (ends_finally (fun w => loading w = false)); reflexivity.
  - unfold AppPrefetch.refreshTrends.
    cbn [await Task_AsyncMonad read update attempt try_catch Promise_then].
    eapply (ends_catch (fun r w => match r with Ok _ => loading w = false | Err _ => True end)).
    + eapply ends_then; [apply ends_any| |].
      * intros data w' _. cbn [await Task_AsyncMonad update Promise_then].
        constructor. reflexivity.
      * intros e w' _. exact I.
    + intros a w' Hw'. exact Hw'.
    + intros e w' _. constructor. reflexivity.
Qed.

Lemma handle_accounted (app : AppRevision) (svc : ServiceRevision) (act : Action)
    (n : nat) (l : Loop) :
  loading_accounted l -> loading_accounted (handle app svc act n l).
Proof.
  intros Hl.
  destruct (handlers_account app svc (world l)) as (Hreview & Hpractice & Htrends & Hrefresh).
  destruct (services_keep_loading svc) as (Hq & Hm & _).
  assert (Hsync : forall w, loading w = loading (world l) ->
                            loading_accounted (with_world w l)).
  { intros w Hw. destruct Hl as [Hall Hshown]. split; [exact Hall|].
    cbn [with_world world pending]. rewrite Hw. exact Hshown. }
  assert (Hignore : forall A (t : Task A) l0,
            Task_frames same_loading t -> loading_accounted l0 ->
            loading_accounted (start_and_ignore n t l0)).
  { intros A t l0 Ht Hl0. unfold start_and_ignore. apply start_accounted; [|exact Hl0].
    right.
    repeat first [ exact same_loading_refl | exact same_loading_trans | exact Ht
                 | progress intros
                 | apply frames_try_catch | apply frames_await | apply frames_resolve ]. }
  destruct act as [lesson|lesson|lesson forceNew| | | |id]; cbn [handle].
  - apply start_accounted; [apply Hreview | exact Hl].
  - destruct app; [exact Hl|].
    unfold AppPrefetch.prefetchLessonData.
    destruct (bool_decide (Lesson.id lesson ∈ prefetchQueue (world l))); [exact Hl|].
    cbv zeta. apply Hignore; [apply Hm|]. apply Hignore; [apply Hq|].
    apply (Hsync (set_prefetchQueue _ (world l))). reflexivity.
  - apply start_accounted; [apply Hpractice | exact Hl].
  - apply start_accounted; [left; apply Htrends | exact Hl].
  - destruct app; [exact Hl|]. apply start_accounted; [left; apply Hrefresh | exact Hl].
  - apply Hsync. destruct app; cbn [calculateScore_of];
      unfold AppBanner.calculateScore, AppPrefetch.calculateScore, recordScore;
      cbv zeta; split_on_scrutinee; reflexivity.
  - apply Hsync. unfold clearWrongQuestion. split_on_scrutinee; reflexivity.
Qed.

(** X11: the loading overlay does not outlive the requests. Starting
    from a page that is not loading, after any sequence of clicks,
    hovers, replies and timers, in any interleaving, the overlay is shown
    only while a promise is still pending: once every pending promise
    has been settled, [loading] is false, whether the requests succeeded
    or failed. *)
Theorem overlay_ends_with_the_requests (app : AppRevision) (svc : ServiceRevision)
    (es : list LoopEvent) (w : World) :
  loading w = false ->
  let l := loop_run app svc es w in
  (loading (world l) = true -> pending l <> [])
  /\ (pending l = [] -> loading (world l) = false).
Proof.
  intros Hw. cbv zeta.
  assert (Hinv : loading_accounted (loop_run app svc es w)).
  { unfold loop_run.
    assert (Hidle : loading_accounted (idle w)).
    { split; [constructor|]. cbn. rewrite Hw. discriminate. }
    generalize (idle w) Hidle. induction es as [|e es IH]; intros l Hl; cbn [fold_left].
    - exact Hl.
    - apply IH. destruct e as [act|i ev]; cbn [loop_step].
      + unfold dispatch. apply handle_accounted.
        destruct Hl as [Hall Hshown]. split; assumption.
      + apply deliver_accounted. exact Hl. }
  destruct Hinv as [_ Hshown].
  assert (Hpending : loading (world (loop_run app svc es w)) = true ->
                     pending (loop_run app svc es w) <> []).
  { intros Hon Hnil. specialize (Hshown Hon). rewrite Hnil in Hshown. inversion Hshown. }
  split; [exact Hpending|].
  intros Hnil. destruct (loading (world (loop_run app svc es w))); [|reflexivity].
  destruct (Hpending eq_refl Hnil).
Qed.

End Overlay.

Lemma overlay_ends_with_the_requests_witness :
  let es :=
    [User (StartPractice Sample.lesson1 false);
     User ClickTrends;
     Arrives 0 (Replied (Err {| message := Some "503" |}));
     Arrives 0 (Replied (Ok {| text := None; groundingChunks := None |}))] in
  let l :=
    @loop_run Sample.builtins Sample.user_JSON Sample.questions_JSON Sample.string_JSON
      Sample.trends_JSON Prefetch Timestamp es Sample.blank in
  pending l = [] /\ loading (world l) = false.
Proof.
  cbv zeta.
  assert (Hnone : pending
                    (@loop_run Sample.builtins Sample.user_JSON Sample.questions_JSON
                       Sample.string_JSON Sample.trends_JSON Prefetch Timestamp
                       [User (StartPractice Sample.lesson1 false);
                        User ClickTrends;
                        Arrives 0 (Replied (Err {| message := Some "503" |}));
                        Arrives 0 (Replied (Ok {| text := None; groundingChunks := None |}))]
                       Sample.blank) = []) by (vm_compute; reflexivity).
  split; [exact Hnone|].
  exact (proj2 (@overlay_ends_with_the_requests Sample.builtins Sample.user_JSON
                  Sample.questions_JSON Sample.string_JSON Sample.trends_JSON
                  Prefetch Timestamp _ Sample.blank eq_refl) Hnone).
Defined.

(** ** Logging in, reloading, logging out *)

Section Session.
Context `{Builtins} `{!JSON UserProgress}.

(** X12: logging in with a name that is blank after trimming changes
    nothing; otherwise it creates a user with that name, as typed, and
    no progress, and saves it. Wherever the saved copy is current, a
    reload of the page (a fresh mount followed by the mount effect)
    restores exactly that user, provided the user record survives
    [JSON.stringify] and [JSON.parse]. *)
Theorem login_and_reload (w : World) (now : Z) (log : list ConsoleEntry) :
  (truthy (String_trim (loginName w)) = false -> handleLogin w = w)
  /\ (truthy (String_trim (loginName w)) = true ->
      exists u, user (handleLogin w) = Some u
        /\ userName u = loginName w
        /\ completedLessons u = [] /\ quizScores u = ∅ /\ wrongQuestions u = []
        /\ persisted (handleLogin w))
  /\ (forall u, persisted w -> user w = Some u ->
        JSON_parse (JSON_stringify u) = Ok u ->
        loadUser (initialState (localStorage w) now log)
        = (Ok tt, set_user (Some u) (initialState (localStorage w) now log)))
  /\ (localStorage w !! "history_user" = None ->
      loadUser (initialState (localStorage w) now log)
      = (Ok tt, initialState (localStorage w) now log)).
Proof.
  split; [|split; [|split]].
  - intros Hblank. unfold handleLogin. rewrite Hblank. reflexivity.
  - intros Hname. unfold handleLogin. rewrite Hname. cbn [negb].
    eexists. split; [destruct w; reflexivity|].
    repeat split. apply persisted_saveUserProgress.
  - intros u Hsaved Hu Hrt. unfold loadUser. cbn [localStorage initialState].
    rewrite (Hsaved u Hu), (truthy_nonempty _ (stringify_nonempty u Hrt)), Hrt. reflexivity.
  - intros Hnone. unfold loadUser. cbn [localStorage initialState]. rewrite Hnone. reflexivity.
Qed.

(** X13: the log-out button removes the entry ['history_user'] and
    nothing else: the page comes back freshly mounted with no user, and
    every other entry of local storage (the cached quizzes, mind maps
    and trends, the time stamp) is still there. *)
Theorem logout_keeps_the_caches (w : World) :
  logout w = (Ok tt, initialState (delete "history_user" (localStorage w)) (clock w) (console w))
  /\ user (snd (logout w)) = None
  /\ localStorage (snd (logout w)) !! "history_user" = None
  /\ (forall k, k <> "history_user" ->
        localStorage (snd (logout w)) !! k = localStorage w !! k).
Proof.
  assert (Hout : logout w
                 = (Ok tt, initialState (delete "history_user" (localStorage w)) (clock w)
                             (console w))).
  { unfold logout, loadUser. cbn [localStorage initialState].
    rewrite lookup_delete_eq. reflexivity. }
  rewrite Hout. cbn [snd localStorage initialState user].
  split; [reflexivity|]. split; [reflexivity|]. split.
  - apply lookup_delete_eq.
  - intros k Hk. apply lookup_delete_ne. intros Heq. apply Hk. symmetry. exact Heq.
Qed.

End Session.

Lemma login_and_reload_witness :
  let saved := @saveUserProgress Sample.user_JSON Sample.nobody Sample.blank in
  @handleLogin Sample.builtins Sample.user_JSON Sample.blank = Sample.blank
  /\ @loadUser Sample.user_JSON (initialState (localStorage saved) 5 [])
     = (Ok tt, set_user (Some Sample.nobody) (initialState (localStorage saved) 5 [])).
Proof.
  cbv zeta.
  destruct (@login_and_reload Sample.builtins Sample.user_JSON Sample.blank 5 [])
    as (Hblank & _).
  destruct (@login_and_reload Sample.builtins Sample.user_JSON
              (@saveUserProgress Sample.user_JSON Sample.nobody Sample.blank) 5 [])
    as (_ & _ & Hreload & _).
  split; [exact (Hblank eq_refl)|].
  apply (Hreload Sample.nobody); [|reflexivity|reflexivity].
  intros u Hu. vm_compute in Hu. injection Hu as <-. reflexivity.
Defined.

(** ** A quiz that cannot be generated *)

Ltac down_step :=
  cbn [negb default retry_loop await Task_AsyncMonad read update attempt finally
       try_catch generateContent sleep console_warn resolve reject
       Promise_then Promise_catch Promise_finally run_from length List.app
       andb Nat.ltb Nat.leb Nat.sub Nat.add].

Section PracticeFailure.
Context `{Builtins} `{!JSON UserProgress} `{!JSON (list Question.t)} `{!JSON string}
  `{!JSON Trends}.

(** X14: what the "start practice" button does when the service is
    down (every request fails with the error [e]) and no cached quiz is
    used. The handler itself never fails; answers, score and hints are
    reset, the overlay is taken away and nothing is stored. With the
    service of part_000, which rethrows, the questions on the page stay
    as they were and part_002 raises its banner (the quota text only when
    the message contains '429', although 'RESOURCE_EXHAUSTED' is retried
    as well) while part_003 only logs; one request is sent, two for a
    rate-limit error. With the service of part_001, which swallows the
    error, a single request is sent, the questions on the page are
    replaced by the empty list and no banner is raised. *)
Theorem practice_when_the_service_is_down (app : AppRevision) (svc : ServiceRevision)
    (net : Network) (w : World) (lesson : Lesson.t) (forceNew : bool) (e : Error) :
  forceNew = true
  \/ localStorage w !! ("cache_questions_lesson_" +:+ Number_toString (Lesson.id lesson))
     = None ->
  (forall n, reply net n = Err e) ->
  let r := run net (handleStartPractice_of app svc lesson forceNew) w in
  result r = Ok tt
  /\ userAnswers (final r) = ∅ /\ score (final r) = None /\ visibleHints (final r) = ∅
  /\ loading (final r) = false
  /\ localStorage (final r) = localStorage w
  /\ questions (final r) = match svc with Backoff => questions w | Timestamp => [] end
  /\ length (requests r)
     = match svc with
       | Backoff => if isQuotaError e then 2%nat else 1%nat
       | Timestamp => 1%nat
       end
  /\ apiError (final r)
     = match app, svc with
       | Banner, Backoff =>
           Some (if message_includes e "429"
                 then "今日名师出题配额已达上限或频率过高，请休息片刻或查看已读单元。"
                 else "出题过程中遇到了一点小麻烦，请重试。")
       | Banner, Timestamp => None
       | Prefetch, _ => apiError w
       end.
Proof.
  intros Hcold Hdown. cbv zeta.
  assert (Hmiss : forall w', localStorage w' = localStorage w -> forceNew = false ->
            getCachedData (T:=list Question.t)
              ("questions_lesson_" +:+ Number_toString (Lesson.id lesson)) w' = Ok None).
  { intros w' Hw' ->. destruct Hcold as [[=]|Hnone]. apply getCachedData_miss.
    rewrite Hw'. exact Hnone. }
  assert (Hraw : forceNew = false ->
            localStorage w !! ("cache_questions_lesson_" +:+ Number_toString (Lesson.id lesson))
            = None).
  { intros ->. destruct Hcold as [[=]|Hnone]. exact Hnone. }
  destruct app, svc; cbn [handleStartPractice_of generateQuestionsFromContent_of];
    unfold run, AppBanner.handleStartPractice, AppPrefetch.handleStartPractice,
      ServiceBackoff.generateQuestionsFromContent,
      ServiceTimestamp.generateQuestionsFromContent, retryWithBackoff;
    cbv zeta;
    destruct forceNew;
    cbn [negb await Task_AsyncMonad read update attempt finally try_catch Promise_then
         Promise_catch Promise_finally];
    repeat match goal with
           | |- context [localStorage (?f ?v ?x)] =>
               change (localStorage (f v x)) with (localStorage x)
           end;
    try rewrite (Hraw eq_refl);
    cbn [negb await Task_AsyncMonad read update attempt finally try_catch Promise_then
         Promise_catch Promise_finally];
    try (rewrite Hmiss by reflexivity);
    down_step; rewrite (Hdown 0%nat); down_step;
    try (destruct (isQuotaError e) eqn:Hquota; down_step;
         try (rewrite (Hdown 1%nat); down_step; rewrite ?Hquota, ?andb_false_r; down_step));
    try (destruct (message_includes e "429"); down_step);
    cbn [result final requests length]; repeat split; reflexivity.
Qed.

End PracticeFailure.

Lemma practice_when_the_service_is_down_witness :
  let exhausted : Error := {| message := Some "RESOURCE_EXHAUSTED" |} in
  let down : Network := {| reply := fun _ => Err exhausted; latency := fun _ => 150 |} in
  let r :=
    run down
      (@handleStartPractice_of Sample.builtins Sample.questions_JSON Banner Backoff
         Sample.lesson1 true) (Sample.quiz 3 1) in
  length (requests r) = 2%nat
  /\ questions (final r) = questions (Sample.quiz 3 1)
  /\ apiError (final r) = Some "出题过程中遇到了一点小麻烦，请重试。".
Proof.
  cbv zeta.
  pose proof (@practice_when_the_service_is_down Sample.builtins Sample.questions_JSON
                Banner Backoff
                {| reply := fun _ => Err {| message := Some "RESOURCE_EXHAUSTED" |};
                   latency := fun _ => 150 |}
                (Sample.quiz 3 1) Sample.lesson1 true
                {| message := Some "RESOURCE_EXHAUSTED" |}
                (or_introl eq_refl) (fun _ => eq_refl))
    as (_ & _ & _ & _ & _ & _ & Hqs & Hreq & Hbanner).
  split; [exact Hreq|]. split; [exact Hqs | exact Hbanner].
Defined.

(** ** What the prefetch buys *)

(** Two calls started and ignored, each waiting for a reply, and the
    two replies delivered in turn. *)
Lemma two_ignored_calls {A B} (n : nat) (t1 : Task A) (t2 : Task B) (w : World) (acts : nat)
    (rq1 rq2 : Request) (k1 : res Response -> World -> Promise A)
    (k2 : res Response -> World -> Promise B) (r1 r2 : Response) (a1 : A) (a2 : B)
    (f1 f2 : World -> World) :
  t1 w = AwaitGenerate rq1 w k1 ->
  t2 w = AwaitGenerate rq2 w k2 ->
  (forall w', k1 (Ok r1) w' = Settled (Ok a1) (f1 w')) ->
  (forall w', k2 (Ok r2) w' = Settled (Ok a2) (f2 w')) ->
  deliver 0 (Replied (Ok r2))
    (deliver 0 (Replied (Ok r1))
       (start_and_ignore n t2
          (start_and_ignore n t1 {| world := w; pending := []; actions := acts |})))
  = {| world := f2 (f1 w); pending := []; actions := acts |}.
Proof.
  intros Ht1 Ht2 Hk1 Hk2.
  unfold start_and_ignore, start, detach.
  cbn [world pending actions try_catch await Task_AsyncMonad Promise_then Promise_catch].
  rewrite Ht1.
  cbn [world pending actions Promise_then Promise_catch settled world_of List.app].
  rewrite Ht2.
  cbn [world pending actions Promise_then Promise_catch settled world_of List.app].
  unfold deliver.
  cbn [world pending actions lookup list_lookup resume].
  rewrite Hk1.
  cbn [world pending actions Promise_then Promise_catch resolve Task_AsyncMonad settled
       world_of delete list_delete lookup list_lookup resume].
  rewrite Hk2.
  cbn [world pending actions Promise_then Promise_catch resolve Task_AsyncMonad settled
       world_of delete list_delete].
  reflexivity.
Qed.

Section PrefetchPays.
Context `{Builtins} `{!JSON UserProgress} `{!JSON (list Question.t)} `{!JSON string}
  `{!JSON Trends}.

(** X15: in part_003, once the pointer has been over a lesson and the
    two replies of the prefetch have arrived (a quiz that parses, a mind
    map), a click on the lesson shows that mind map and a click on
    "start practice" shows that quiz, each without any request: nothing
    is pending afterwards. *)
Theorem prefetch_serves_the_click (svc : ServiceRevision) (w : World) (lesson : Lesson.t)
    (quiz_reply mindmap_reply : Response) (qs : list Question.t) :
  Lesson.id lesson ∉ prefetchQueue w ->
  localStorage w !! ("cache_questions_lesson_" +:+ Number_toString (Lesson.id lesson)) = None ->
  localStorage w !! ("cache_mindmap_lesson_" +:+ Number_toString (Lesson.id lesson)) = None ->
  JSON_parse (or_else (String_trim (text_or_empty quiz_reply)) "[]") = Ok qs ->
  JSON_parse (JSON_stringify qs) = Ok qs ->
  JSON_parse (JSON_stringify (text_or_empty mindmap_reply)) = Ok (text_or_empty mindmap_reply) ->
  let l :=
    loop_run Prefetch svc
      [User (HoverLesson lesson); Arrives 0 (Replied (Ok quiz_reply));
       Arrives 0 (Replied (Ok mindmap_reply))] w in
  let review := loop_step Prefetch svc l (User (ClickLesson lesson)) in
  let practice := loop_step Prefetch svc l (User (StartPractice lesson false)) in
  pending l = []
  /\ (pending review = []
      /\ mindmapContent (world review) = text_or_empty mindmap_reply)
  /\ (pending practice = [] /\ questions (world practice) = qs).
Proof.
  intros Hfresh Hnoq Hnom Hparse Hrtq Hrtm.
  set (qkey := "questions_lesson_" +:+ Number_toString (Lesson.id lesson)).
  set (mkey := "mindmap_lesson_" +:+ Number_toString (Lesson.id lesson)).
  set (w1 := set_prefetchQueue ({[Lesson.id lesson]} ∪ prefetchQueue w) w).
  set (w3 := setCachedData mkey (text_or_empty mindmap_reply) (setCachedData qkey qs w1)).
  assert (Hl : loop_run Prefetch svc
                 [User (HoverLesson lesson); Arrives 0 (Replied (Ok quiz_reply));
                  Arrives 0 (Replied (Ok mindmap_reply))] w
               = {| world := w3; pending := []; actions := 1 |}).
  { unfold loop_run. cbn [fold_left loop_step]. unfold dispatch at 1. cbn [handle].
    unfold AppPrefetch.prefetchLessonData. cbn [idle world pending actions].
    rewrite (bool_decide_eq_false_2 _ Hfresh). cbv zeta. fold w1.
    assert (Hmq : getCachedData (T:=list Question.t) qkey w1 = Ok None)
      by (apply getCachedData_miss; exact Hnoq).
    assert (Hmm : getCachedData (T:=string) mkey w1 = Ok None)
      by (apply getCachedData_miss; exact Hnom).
    assert (Hq : exists rq k,
              generateQuestionsFromContent_of svc (Lesson.id lesson) (Lesson.content lesson)
                false w1 = AwaitGenerate rq w1 k
              /\ forall w', k (Ok quiz_reply) w' = Settled (Ok qs) (setCachedData qkey qs w')).
    { destruct svc; cbn [generateQuestionsFromContent_of];
        unfold ServiceBackoff.generateQuestionsFromContent,
          ServiceTimestamp.generateQuestionsFromContent, retryWithBackoff;
        cbv zeta; cbn [negb await Task_AsyncMonad attempt Promise_then]; fold qkey;
        rewrite Hmq;
        cbn [default retry_loop await Task_AsyncMonad read attempt update resolve try_catch
             generateContent Promise_then Promise_catch];
        eexists; eexists; (split; [reflexivity|]); intros w';
        cbn [attempt update resolve Task_AsyncMonad Promise_then Promise_catch];
        rewrite Hparse; reflexivity. }
    assert (Hm : exists rq k,
              generateStudyMindmap_of svc (Lesson.id lesson) (Lesson.content lesson) w1
              = AwaitGenerate rq w1 k
              /\ forall w', k (Ok mindmap_reply) w'
                            = Settled (Ok (text_or_empty mindmap_reply))
                                (setCachedData mkey (text_or_empty mindmap_reply) w')).
    { destruct svc; cbn [generateStudyMindmap_of];
        unfold ServiceBackoff.generateStudyMindmap, ServiceTimestamp.generateStudyMindmap,
          retryWithBackoff;
        cbv zeta; cbn [await Task_AsyncMonad attempt Promise_then]; fold mkey;
        rewrite Hmm;
        cbn [default retry_loop await Task_AsyncMonad read attempt update resolve try_catch
             generateContent Promise_then Promise_catch];
        eexists; eexists; (split; [reflexivity|]); intros w'; reflexivity. }
    destruct Hq as (rq1 & k1 & Ht1 & Hk1). destruct Hm as (rq2 & k2 & Ht2 & Hk2).
    exact (two_ignored_calls 0 _ _ w1 1 rq1 rq2 k1 k2 quiz_reply mindmap_reply _ _ _ _
             Ht1 Ht2 Hk1 Hk2). }
  cbv zeta. rewrite Hl. cbn [pending].
  split; [reflexivity|].
  assert (Hne : "cache_" +:+ mkey <> "cache_" +:+ qkey).
  { unfold mkey, qkey. cbn. discriminate. }
  assert (Hm3 : localStorage w3 !! ("cache_" +:+ mkey)
                = Some (JSON_stringify (text_or_empty mindmap_reply))).
  { unfold w3, setCachedData. change (localStorage (set_localStorage ?m _)) with m.
    apply lookup_insert_eq. }
  assert (Hq3 : localStorage w3 !! ("cache_" +:+ qkey) = Some (JSON_stringify qs)).
  { unfold w3, setCachedData. change (localStorage (set_localStorage ?m _)) with m.
    rewrite lookup_insert_ne by exact Hne.
    change (localStorage (set_localStorage ?m _)) with m. apply lookup_insert_eq. }
  split.
  - cbn [loop_step]. unfold dispatch. cbn [handle handleReview_of world pending actions].
    unfold start, detach, AppPrefetch.handleReview.
    cbn [world pending actions await Task_AsyncMonad read update Promise_then].
    repeat match goal with
           | |- context [localStorage (?f ?v ?x)] =>
               change (localStorage (f v x)) with (localStorage x)
           end.
    change ("cache_mindmap_lesson_" +:+ Number_toString (Lesson.id lesson))
      with ("cache_" +:+ mkey).
    rewrite Hm3.
    pose proof (stringify_nonempty _ Hrtm) as Hshown.
    destruct (JSON_stringify (text_or_empty mindmap_reply)) as [|c s];
      [destruct (Hshown eq_refl)|].
    cbn [world pending actions await Task_AsyncMonad read update attempt resolve Promise_then].
    rewrite Hrtm.
    cbn [world pending actions await Task_AsyncMonad read update attempt resolve Promise_then
         settled world_of].
    split; [reflexivity|].
    unfold markCompleted. split_on_scrutinee; reflexivity.
  - cbn [loop_step]. unfold dispatch. cbn [handle handleStartPractice_of world pending actions].
    unfold start, detach, AppPrefetch.handleStartPractice.
    cbn [negb world pending actions await Task_AsyncMonad read update Promise_then].
    repeat match goal with
           | |- context [localStorage (?f ?v ?x)] =>
               change (localStorage (f v x)) with (localStorage x)
           end.
    change ("cache_questions_lesson_" +:+ Number_toString (Lesson.id lesson))
      with ("cache_" +:+ qkey).
    rewrite Hq3.
    pose proof (stringify_nonempty _ Hrtq) as Hshown.
    destruct (JSON_stringify qs) as [|c s]; [destruct (Hshown eq_refl)|].
    cbn [world pending actions await Task_AsyncMonad read update attempt resolve Promise_then].
    rewrite Hrtq.
    cbn [world pending actions await Task_AsyncMonad read update attempt resolve Promise_then
         settled world_of].
    split; reflexivity.
Qed.

End PrefetchPays.

Lemma prefetch_serves_the_click_witness :
  let l :=
    @loop_run Sample.builtins Sample.user_JSON Sample.questions_JSON Sample.string_JSON
      Sample.trends_JSON Prefetch Timestamp
      [User (HoverLesson Sample.lesson1);
       Arrives 0 (Replied (Ok {| text := Some "[]"; groundingChunks := None |}));
       Arrives 0 (Replied (Ok {| text := Some "map"; groundingChunks := None |}))]
      Sample.blank in
  let review :=
    @loop_step Sample.builtins Sample.user_JSON Sample.questions_JSON Sample.string_JSON
      Sample.trends_JSON Prefetch Timestamp l (User (ClickLesson Sample.lesson1)) in
  pending review = [] /\ mindmapContent (world review) = "map".
Proof.
  cbv zeta.
  assert (Hfresh : Lesson.id Sample.lesson1 ∉ prefetchQueue Sample.blank)
    by (apply not_elem_of_empty).
  exact (proj1 (proj2 (@prefetch_serves_the_click Sample.builtins Sample.user_JSON
                         Sample.questions_JSON Sample.string_JSON Sample.trends_JSON
                         Timestamp Sample.blank Sample.lesson1
                         {| text := Some "[]"; groundingChunks := None |}
                         {| text := Some "map"; groundingChunks := None |} []
                         Hfresh eq_refl eq_refl eq_refl eq_refl eq_refl))).
Defined.

(** ** Answering a quiz *)






Section Quiz.
Context `{Builtins} `{!JSON UserProgress} `{!JSON (list Question.t)} `{!JSON string}
  `{!JSON Trends}.

(** X16: while no score is shown, a click on option [i] of a question
    records the letter of that option as its answer, replacing an
    earlier one and leaving the answers to other questions alone, and
    the question then counts as answered right exactly when that letter
    is its answer; once [calculateScore] has run, in either revision and
    whether or not it could save, a click on an option changes
    nothing. *)
Theorem answers_are_frozen_by_the_score (app : AppRevision) (w : World) (q : Question.t)
    (i : nat) :
  (score w = None ->
   userAnswers (selectOption q i w) !! Question.id q = Some (option_letter i)
   /\ (forall id, id <> Question.id q ->
         userAnswers (selectOption q i w) !! id = userAnswers w !! id)
   /\ answered_right (userAnswers (selectOption q i w)) q
      = is_choice q && bool_decide (option_letter i = Question.answer q))
  /\ (exists s, score (snd (calculateScore_of app w)) = Some s)
  /\ selectOption q i (snd (calculateScore_of app w)) = snd (calculateScore_of app w).
Proof.
  split; [|split].
  - intros Hnone. unfold selectOption. rewrite Hnone.
    change (userAnswers (set_userAnswers ?m w)) with m.
    split; [apply lookup_insert_eq|]. split.
    + intros id Hid. apply lookup_insert_ne. intros Heq. apply Hid. symmetry. exact Heq.
    + unfold answered_right. rewrite lookup_insert_eq. f_equal.
      apply bool_decide_ext. split; [intros [= ->]|intros ->]; reflexivity.
  - destruct app; cbn [calculateScore_of];
      unfold AppBanner.calculateScore, AppPrefetch.calculateScore, recordScore; cbv zeta;
      split_on_scrutinee; eexists; reflexivity.
  - assert (Hscore : exists s, score (snd (calculateScore_of app w)) = Some s).
    { destruct app; cbn [calculateScore_of];
        unfold AppBanner.calculateScore, AppPrefetch.calculateScore, recordScore; cbv zeta;
        split_on_scrutinee; eexists; reflexivity. }
    destruct Hscore as [s Hs]. unfold selectOption. rewrite Hs. reflexivity.
Qed.

(** X17: a click on a hint button flips the visibility of that hint and
    of no other; a second click brings every hint back to what it
    showed, and this works whether or not a score is shown. *)
Theorem toggleHint_flips_one_hint (id id' : string) (w : World) :
  hint_visible id (toggleHint id w) = negb (hint_visible id w)
  /\ (id' <> id -> hint_visible id' (toggleHint id w) = hint_visible id' w)
  /\ hint_visible id' (toggleHint id (toggleHint id w)) = hint_visible id' w
  /\ score (toggleHint id w) = score w.
Proof.
  assert (Hflip : forall w0, hint_visible id (toggleHint id w0) = negb (hint_visible id w0)).
  { intros w0. unfold hint_visible, toggleHint.
    change (visibleHints (set_visibleHints ?m w0)) with m.
    rewrite lookup_insert_eq. reflexivity. }
  assert (Hother : forall w0, id' <> id ->
            hint_visible id' (toggleHint id w0) = hint_visible id' w0).
  { intros w0 Hne. unfold hint_visible, toggleHint.
    change (visibleHints (set_visibleHints ?m w0)) with m.
    rewrite lookup_insert_ne by (intros Heq; apply Hne; symmetry; exact Heq). reflexivity. }
  split; [apply Hflip|]. split; [apply Hother|]. split; [|reflexivity].
  destruct (decide (id' = id)) as [->|Hne].
  - rewrite !Hflip. apply negb_involutive.
  - rewrite !Hother by exact Hne. reflexivity.
Qed.




End Quiz.

(** ** Sample runs of the properties above *)

Lemma backoff_services_retry_once_witness :
  let limited : Network :=
    {| reply := fun n =>
         match n with
         | O => Err {| message := Some "429 Too Many Requests" |}
         | _ => Ok {| text := None; groundingChunks := None |}
         end;
       latency := fun _ => 150 |} in
  exists e, isQuotaError e = true /\ reply limited 0 = Err e.
Proof.
  cbv zeta.
  destruct (@backoff_services_retry_once Sample.builtins Sample.questions_JSON
              Sample.string_JSON Sample.trends_JSON
              {| reply := fun n =>
                   match n with
                   | O => Err {| message := Some "429 Too Many Requests" |}
                   | _ => Ok {| text := None; groundingChunks := None |}
                   end;
                 latency := fun _ => 150 |}
              Sample.blank 1 "content" false)
    as (_ & _ & _ & Htwice).
  apply Htwice. reflexivity.
Defined.

Lemma services_store_nothing_on_failure_witness :
  let down : Network :=
    {| reply := fun _ => Err {| message := Some "503" |}; latency := fun _ => 150 |} in
  localStorage
    (final (run down
              (@generateStudyMindmap_of Sample.builtins Sample.string_JSON Backoff 1 "content")
              SampleRuns.cached_quiz))
  = localStorage SampleRuns.cached_quiz.
Proof.
  cbv zeta.
  destruct (@services_store_nothing_on_failure Sample.builtins Sample.questions_JSON
              Sample.string_JSON Sample.trends_JSON Backoff
              {| reply := fun _ => Err {| message := Some "503" |}; latency := fun _ => 150 |}
              SampleRuns.cached_quiz 1 "content" false {| message := Some "503" |})
    as (_ & Hmindmap & _).
  apply Hmindmap. reflexivity.
Defined.

Lemma timestamp_services_fail_soft_witness :
  requests
    (run SampleRuns.always_empty
       (@ServiceTimestamp.generateQuestionsFromContent Sample.builtins Sample.questions_JSON
          1 "content" false) SampleRuns.corrupt_cache) = [].
Proof.
  destruct (@timestamp_services_fail_soft Sample.builtins Sample.questions_JSON
              Sample.string_JSON Sample.trends_JSON SampleRuns.always_empty
              SampleRuns.corrupt_cache 1 "content" false)
    as ((_ & _ & Hrejects & _) & _).
  destruct (Hrejects Sample.SyntaxError eq_refl) as (_ & _ & Hnone & _).
  exact Hnone.
Defined.

Lemma links_have_title_and_uri_witness :
  In {| SearchResult.title := Some "Exam news"; SearchResult.uri := Some "https://e.x" |}
    (links_of
       {| text := None;
          groundingChunks :=
            Some [ {| web := None |};
                   {| web := Some {| web_title := Some "Exam news";
                                     web_uri := Some "https://e.x" |} |} ] |}).
Proof.
  destruct (links_have_title_and_uri
              {| text := None;
                 groundingChunks :=
                   Some [ {| web := None |};
                          {| web := Some {| web_title := Some "Exam news";
                                            web_uri := Some "https://e.x" |} |} ] |})
    as (_ & _ & Hkept).
  apply (Hkept {| web := Some {| web_title := Some "Exam news";
                                 web_uri := Some "https://e.x" |} |}).
  - right. left. reflexivity.
  - reflexivity.
  - discriminate.
  - discriminate.
Defined.

Lemma logout_keeps_the_caches_witness :
  localStorage (snd (@logout Sample.user_JSON SampleRuns.cached_trends)) !! "cache_exam_trends"
  = Some "{}".
Proof.
  destruct (@logout_keeps_the_caches Sample.user_JSON SampleRuns.cached_trends)
    as (_ & _ & _ & Hkept).
  rewrite (Hkept "cache_exam_trends"); [reflexivity | discriminate].
Defined.

Lemma answers_are_frozen_by_the_score_witness :
  answered_right (userAnswers (selectOption (Sample.question 2) 0 (Sample.quiz 3 1)))
    (Sample.question 2) = true.
Proof.
  destruct (@answers_are_frozen_by_the_score Sample.user_JSON Banner (Sample.quiz 3 1)
              (Sample.question 2) 0) as (Hclick & _).
  destruct (Hclick eq_refl) as (_ & _ & Hright).
  rewrite Hright. reflexivity.
Defined.

Lemma toggleHint_flips_one_hint_witness :
  hint_visible "q1" (toggleHint "q2" Sample.blank) = false.
Proof.
  destruct (toggleHint_flips_one_hint "q2" "q1" Sample.blank) as (_ & Hother & _).
  rewrite Hother; [reflexivity | discriminate].
Defined.

(** ** Opening a lesson, and the score of a quiz *)

Section MoreOfThePage.
Context `{Builtins} `{!JSON UserProgress} `{!JSON (list Question.t)} `{!JSON string}
  `{!JSON Trends}.

(** X19: a lesson counts as completed as soon as it is opened. Unless
    the cached mind map is corrupt, a click on a lesson by a logged-in
    user never fails, whatever the network answers, and afterwards the
    lesson is among the user's completed lessons and is the selected
    one, whether or not its mind map could be loaded. *)
Theorem opened_lesson_counts_as_completed (app : AppRevision) (svc : ServiceRevision)
    (net : Network) (lesson : Lesson.t) (w : World) (u : UserProgress) :
  user w = Some u ->
  (forall s,
     localStorage w !! ("cache_mindmap_lesson_" +:+ Number_toString (Lesson.id lesson))
     = Some s ->
     exists mm : string, JSON_parse s = Ok mm) ->
  let r := run net (handleReview_of app svc lesson) w in
  result r = Ok tt
  /\ exists u', user (final r) = Some u'
       /\ Lesson.id lesson ∈ completedLessons u'
       /\ completedLessons u `prefix_of` completedLessons u'.
Proof.
  intros Hu Hcache. cbv zeta.
  assert (Hok : result (run net (handleReview_of app svc lesson) w) = Ok tt).
  { pose proof (handleReview_rejects_only_on_cache app (generateStudyMindmap_of svc) net
                  lesson w) as Hrej.
    cbv zeta in Hrej. unfold handleReview_of.
    destruct app; (destruct Hrej as [Hok|(s & e & Hs & Hp & _)]; [exact Hok|]);
      destruct (Hcache s Hs) as [mm Hmm]; rewrite Hmm in Hp; discriminate. }
  split; [exact Hok|].
  destruct (handleReview_user app svc net lesson w u Hu) as [[Hsame Hin]|[Hnew Happ]].
  - exists u. split; [exact Hsame|]. split; [exact (Hin Hok) | reflexivity].
  - exists (with_completed u lesson). split; [exact Happ|]. cbn. split.
    + apply elem_of_app. right. apply list_elem_of_singleton. reflexivity.
    + apply prefix_app_r. reflexivity.
Qed.

(** X20: the score shown after a quiz with fewer than 40 choice
    questions is a whole number from 0 to 100; it is 100 exactly when
    every choice question is answered right (so also when there is none)
    and 0 exactly when there are choice questions and none is answered
    right. *)
Theorem score_is_a_percentage (app : AppRevision) (w : World) :
  let c := count_of (answered_right (userAnswers w)) (questions w) in
  let t := count_of is_choice (questions w) in
  t < 40 ->
  exists s, score (snd (calculateScore_of app w)) = Some s
    /\ 0 <= s <= 100
    /\ (s = 100 <-> c = t)
    /\ (s = 0 <-> c = 0 /\ 0 < t).
Proof.
  cbv zeta. intros Ht.
  pose proof (right_le_choice (userAnswers w) (questions w)) as Hc.
  set (c := count_of (answered_right (userAnswers w)) (questions w)) in *.
  set (t := count_of is_choice (questions w)) in *.
  exists (score_as_coded c t). split.
  { destruct app; cbn [calculateScore_of]; apply recordScore_score. }
  destruct (Z.eq_dec t 0) as [Hzero|Hpos].
  - rewrite Hzero in *. assert (c = 0) as -> by lia. cbn. lia.
  - destruct (scores_agree_below_40 c t Hc ltac:(lia)) as [_ ->].
    unfold score_exact.
    pose proof (Z.div_mod (200 * c + t) (2 * t) ltac:(lia)) as Hdiv.
    pose proof (Z.mod_pos_bound (200 * c + t) (2 * t) ltac:(lia)) as Hmod.
    set (q := (200 * c + t) / (2 * t)) in *.
    set (m := (200 * c + t) mod (2 * t)) in *.
    repeat split; try nia.
Qed.

End MoreOfThePage.

Lemma opened_lesson_counts_as_completed_witness :
  let r :=
    run SampleRuns.always_empty
      (@handleReview_of Sample.builtins Sample.user_JSON Sample.string_JSON Prefetch Timestamp
         SampleRuns.lesson2) SampleRuns.returning_quiz in
  result r = Ok tt.
Proof.
  cbv zeta.
  refine (proj1 (@opened_lesson_counts_as_completed Sample.builtins Sample.user_JSON
                   Sample.string_JSON Prefetch Timestamp SampleRuns.always_empty
                   SampleRuns.lesson2 SampleRuns.returning_quiz SampleRuns.returning_user
                   eq_refl _)).
  intros s Hs. vm_compute in Hs. discriminate Hs.
Defined.

Lemma score_is_a_percentage_witness :
  exists s, score (snd (@calculateScore_of Sample.user_JSON Prefetch (Sample.quiz 3 1))) = Some s
    /\ 0 <= s <= 100.
Proof.
  destruct (@score_is_a_percentage Sample.user_JSON Prefetch (Sample.quiz 3 1))
    as (s & Hs & Hrange & _); [vm_compute; reflexivity|].
  exists s. split; [exact Hs | exact Hrange].
Defined.

Section TrendsFailure.
Context `{Builtins} `{!JSON UserProgress} `{!JSON (list Question.t)} `{!JSON string}
  `{!JSON Trends}.

(** X21: what the trends buttons do when the service is down (every
    request fails with the error [e]) and no trends are cached. None of
    the three handlers fails; the trends on the page stay as they were,
    the overlay is taken away and nothing is stored. The button of
    part_002 raises its banner only when the message contains '429' and
    is silent otherwise; the first-load button of part_003 logs "Search
    failed"; the refresh button of part_003 neither logs nor shows
    anything. *)
Theorem trends_when_the_service_is_down (svc : ServiceRevision) (net : Network)
    (w : World) (e : Error) :
  localStorage w !! "cache_exam_trends" = None ->
  (forall n, reply net n = Err e) ->
  let banner := run net (AppBanner.handleTrends (searchGuangzhouExamTrends_of svc)) w in
  let first := run net (AppPrefetch.handleTrends (searchGuangzhouExamTrends_of svc)) w in
  let refresh := run net (AppPrefetch.refreshTrends (searchGuangzhouExamTrends_of svc)) w in
  Forall (fun r => result r = Ok tt /\ trends (final r) = trends w
                   /\ loading (final r) = false
                   /\ localStorage (final r) = localStorage w)
    [banner; first; refresh]
  /\ apiError (final banner)
     = (if message_includes e "429" then Some "考情搜索过于频繁，请稍后再试。" else None)
  /\ apiError (final first) = apiError w
  /\ last (console (final first)) = Some (Error_ "Search failed" e)
  /\ apiError (final refresh) = apiError w
  /\ Forall (fun entry => exists d, entry = Warn d)
       (drop (length (console w)) (console (final refresh))).
Proof.
  intros Hnone Hdown. cbv zeta.
  assert (Hmiss : forall w', localStorage w' = localStorage w ->
            getCachedData (T:=Trends) "exam_trends" w' = Ok None).
  { intros w' Hw'. apply getCachedData_miss. rewrite Hw'. exact Hnone. }
  destruct svc; cbn [searchGuangzhouExamTrends_of];
    unfold run, AppBanner.handleTrends, AppPrefetch.handleTrends, AppPrefetch.refreshTrends,
      ServiceBackoff.searchGuangzhouExamTrends, ServiceTimestamp.searchGuangzhouExamTrends,
      retryWithBackoff;
    cbv zeta;
    cbn [await Task_AsyncMonad read update attempt finally try_catch Promise_then
         Promise_catch Promise_finally];
    rewrite !Hmiss by reflexivity;
    repeat match goal with
           | |- context [localStorage (?f ?v ?x)] =>
               change (localStorage (f v x)) with (localStorage x)
           end;
    try (destruct (localStorage w !! "trends_timestamp"));
    down_step; rewrite !(Hdown 0%nat); down_step;
    try (destruct (isQuotaError e) eqn:Hquota; down_step;
         try (rewrite !(Hdown 1%nat); down_step; rewrite ?Hquota, ?andb_false_r; down_step));
    destruct (message_includes e "429"); down_step;
    cbn [result final requests length console_error];
    (split; [repeat constructor|]);
    (split; [reflexivity|]); (split; [reflexivity|]);
    (split; [destruct w; cbn; apply last_snoc|]); (split; [reflexivity|]);
    destruct w; cbn; rewrite ?drop_app_length, ?drop_all;
    repeat constructor; eexists; reflexivity.
Qed.

End TrendsFailure.

Lemma trends_when_the_service_is_down_witness :
  let down : Network :=
    {| reply := fun _ => Err {| message := Some "503" |}; latency := fun _ => 150 |} in
  apiError
    (final (run down
              (AppBanner.handleTrends
                 (@searchGuangzhouExamTrends_of Sample.builtins Sample.trends_JSON Timestamp))
              Sample.blank)) = None.
Proof.
  cbv zeta.
  pose proof (@trends_when_the_service_is_down Sample.builtins Sample.trends_JSON Timestamp
                {| reply := fun _ => Err {| message := Some "503" |};
                   latency := fun _ => 150 |}
                Sample.blank {| message := Some "503" |} eq_refl (fun _ => eq_refl))
    as (_ & Hbanner & _).
  exact Hbanner.
Defined.

(** * The completed lessons, under every interleaving *)

Lemma same_completed_refl (w : World) : same_completed w w.
Proof. reflexivity. Qed.

Lemma same_completed_trans (w1 w2 w3 : World) :
  same_completed w1 w2 -> same_completed w2 w3 -> same_completed w1 w3.
Proof. unfold same_completed. congruence. Qed.

Lemma completes_refl (base : list Z) (id : Z) (w : World) : completes base id w w.
Proof. left. reflexivity. Qed.

Lemma completes_trans (base : list Z) (id : Z) (w1 w2 w3 : World) :
  completes base id w1 w2 -> completes base id w2 w3 -> completes base id w1 w3.
Proof. unfold completes. intros [H12|H12] [H23|H23]; [left|right|right|right]; congruence. Qed.

Lemma same_completed_touches (keys : list string) (w w' : World) :
  touches_only keys w w' -> same_completed w w'.
Proof.
  intros Ht. destruct (touches_only_state keys w w' Ht) as (Hu & _).
  unfold same_completed, completed_of. rewrite Hu. reflexivity.
Qed.

(** An async function that begins by reading the state keeps [R] if what
    follows keeps it, for the value read. *)
Lemma frames_read_then {A B} (R : World -> World -> Prop) (f : World -> A)
    (k : A -> Task B) (w : World) :
  Task_frames R (k (f w)) -> Promise_frames R w (await (read f) k w).
Proof. intros Hk. exact (Hk w). Qed.

Lemma start_frames_at {A} (R : World -> World -> Prop)
    (R_refl : forall w, R w w) (R_trans : forall w1 w2 w3, R w1 w2 -> R w2 w3 -> R w1 w3)
    (n : nat) (t : Task A) (l : Loop) :
  Promise_frames R (world l) (t (world l)) ->
  R (world l) (world (start n t l))
  /\ Promise_resumes R (detach (t (world l))).
Proof.
  intros Ht. unfold start. cbv zeta. cbn [world].
  assert (Hp : Promise_frames R (world l) (detach (t (world l)))).
  { unfold detach. apply Promise_then_frames; [exact R_trans | exact Ht |].
    intros a. apply frames_resolve. exact R_refl. }
  exact (frames_resumes R (world l) _ Hp).
Qed.

Section Completed.
Context `{Builtins} `{!JSON UserProgress} `{!JSON (list Question.t)} `{!JSON string}
  `{!JSON Trends}.

(** [handleReview], started in [w]: every stretch of it keeps a relation
    that holds between worlds with the same completed lessons and that
    its last step, written with the [user] of its render, keeps. *)
Lemma handleReview_frames_from_render (R : World -> World -> Prop)
    (R_refl : forall w, R w w) (R_trans : forall w1 w2 w3, R w1 w2 -> R w2 w3 -> R w1 w3)
    (app : AppRevision) (svc : ServiceRevision) (lesson : Lesson.t) (w : World) :
  (forall w1 w2, same_completed w1 w2 -> R w1 w2) ->
  (forall w', R w' (markCompleted (user w) lesson w')) ->
  Promise_frames R w (handleReview_of app svc lesson w).
Proof.
  intros Hsame Hmark.
  assert (Hsvc : forall id content, Task_frames R (generateStudyMindmap_of svc id content)).
  { intros id content w0.
    destruct (footprint_frames svc id content false) as (_ & Hm & _).
    eapply Promise_frames_mono; [|apply Hm].
    intros w1 w2 Ht. apply Hsame. exact (same_completed_touches _ w1 w2 Ht). }
  destruct app; cbn [handleReview_of];
    unfold AppBanner.handleReview, AppPrefetch.handleReview;
    apply frames_read_then;
    repeat first
      [ exact R_refl | exact R_trans
      | apply Hsvc
      | progress intros
      | apply frames_resolve | apply frames_reject | apply frames_read
      | apply frames_attempt | apply frames_update | apply frames_await
      | apply frames_try_catch | apply frames_finally
      | match goal with
        | |- Task_frames _ (match ?x with _ => _ end) => destruct x
        | |- R ?w0 (markCompleted _ _ ?w0) => apply Hmark
        | |- R ?w0 _ => apply Hsame; reflexivity
        end ].
Qed.

(** Nothing but [handleReview] writes the completed lessons. *)
Lemma others_keep_completed (app : AppRevision) (svc : ServiceRevision) :
  (forall lesson forceNew,
     Task_frames same_completed (handleStartPractice_of app svc lesson forceNew))
  /\ Task_frames same_completed (handleTrends_of app svc)
  /\ Task_frames same_completed (AppPrefetch.refreshTrends (searchGuangzhouExamTrends_of svc))
  /\ (forall id content forceNew,
        Task_frames same_completed (generateQuestionsFromContent_of svc id content forceNew))
  /\ (forall id content, Task_frames same_completed (generateStudyMindmap_of svc id content))
  /\ (forall w, same_completed w (snd (calculateScore_of app w)))
  /\ (forall id w, same_completed w (clearWrongQuestion id w)).
Proof.
  assert (Hq : forall id content forceNew,
            Task_frames same_completed
              (generateQuestionsFromContent_of svc id content forceNew)).
  { intros id content forceNew w0.
    destruct (footprint_frames svc id content forceNew) as (Hq & _ & _).
    eapply Promise_frames_mono; [apply same_completed_touches | apply Hq]. }
  assert (Hm : forall id content,
            Task_frames same_completed (generateStudyMindmap_of svc id content)).
  { intros id content w0.
    destruct (footprint_frames svc id content false) as (_ & Hm & _).
    eapply Promise_frames_mono; [apply same_completed_touches | apply Hm]. }
  assert (Ht : Task_frames same_completed (searchGuangzhouExamTrends_of svc)).
  { intros w0. destruct (footprint_frames svc 0 "" false) as (_ & _ & Ht).
    eapply Promise_frames_mono; [apply same_completed_touches | apply Ht]. }
  split; [|split; [|split; [|split; [exact Hq|split; [exact Hm|split]]]]].
  - intros lesson forceNew.
    destruct app; cbn [handleStartPractice_of];
      unfold AppBanner.handleStartPractice, AppPrefetch.handleStartPractice;
      repeat first
        [ exact same_completed_refl | exact same_completed_trans
        | apply Hq
        | progress intros
        | apply frames_resolve | apply frames_reject | apply frames_read
        | apply frames_attempt | apply frames_update | apply frames_await
        | apply frames_try_catch | apply frames_finally
        | match goal with
          | |- Task_frames _ (match ?x with _ => _ end) => destruct x
          | |- same_completed _ _ => reflexivity
          end ].
  - destruct app; cbn [handleTrends_of];
      unfold AppBanner.handleTrends, AppPrefetch.handleTrends;
      repeat first
        [ exact same_completed_refl | exact same_completed_trans
        | apply Ht
        | progress intros
        | apply frames_resolve | apply frames_reject | apply frames_read
        | apply frames_attempt | apply frames_update | apply frames_await
        | apply frames_try_catch | apply frames_finally
        | match goal with
          | |- Task_frames _ (match ?x with _ => _ end) => destruct x
          | |- same_completed _ _ => reflexivity
          end ].
  - unfold AppPrefetch.refreshTrends.
    repeat first
      [ exact same_completed_refl | exact same_completed_trans
      | apply Ht
      | progress intros
      | apply frames_resolve | apply frames_reject | apply frames_read
      | apply frames_attempt | apply frames_update | apply frames_await
      | apply frames_try_catch | apply frames_finally
      | match goal with
        | |- same_completed _ _ => reflexivity
        end ].
  - intros w. unfold same_completed, completed_of.
    destruct app; cbn [calculateScore_of];
      unfold AppBanner.calculateScore, AppPrefetch.calculateScore, recordScore; cbv zeta;
      (destruct (user w) eqn:Hu; [destruct (selectedLesson w)|];
       cbn [snd]; unfold saveUserProgress;
       change (user (set_score ?s w)) with (user w); rewrite ?Hu; reflexivity).
  - intros id w. unfold same_completed, completed_of, clearWrongQuestion.
    destruct (user w) eqn:Hu; [|rewrite Hu]; reflexivity.
Qed.

Lemma markCompleted_distinct (lesson : Lesson.t) (w w' : World) :
  NoDup (completed_of w) ->
  keeps (fun w0 => NoDup (completed_of w0)) w' (markCompleted (user w) lesson w').
Proof.
  intros Hnd. constructor. intros Hnd'. unfold markCompleted, completed_of in *.
  destruct (user w) as [u|]; [|exact Hnd'].
  destruct (bool_decide (Lesson.id lesson ∈ completedLessons u)) eqn:Hin;
    cbn [negb]; [exact Hnd'|].
  apply bool_decide_eq_false_1 in Hin.
  unfold saveUserProgress. cbn.
  apply NoDup_app. split; [exact Hnd|]. split; [|apply NoDup_singleton].
  intros x Hx Hx'. apply list_elem_of_singleton in Hx'. subst x. exact (Hin Hx).
Qed.

Lemma markCompleted_completes (lesson : Lesson.t) (w w' : World) :
  completes (completed_of w) (Lesson.id lesson) w' (markCompleted (user w) lesson w').
Proof.
  unfold completes, markCompleted, completed_of.
  destruct (user w) as [u|]; [|left; reflexivity].
  destruct (bool_decide (Lesson.id lesson ∈ completedLessons u)); cbn [negb];
    [left; reflexivity | right; reflexivity].
Qed.

End Completed.

Lemma start_loop_frames_at {A} (R : World -> World -> Prop)
    (R_refl : forall w, R w w) (R_trans : forall w1 w2 w3, R w1 w2 -> R w2 w3 -> R w1 w3)
    (n : nat) (t : Task A) (l : Loop) :
  Promise_frames R (world l) (t (world l)) -> Loop_frames R l ->
  R (world l) (world (start n t l)) /\ Loop_frames R (start n t l).
Proof.
  intros Ht Hl.
  destruct (start_frames_at R R_refl R_trans n t l Ht) as [Hw Hres].
  split; [exact Hw|].
  unfold start, Loop_frames. cbv zeta. cbn [pending].
  destruct (settled (detach (t (world l)))); [exact Hl|].
  apply Forall_app. split; [exact Hl|]. constructor; [exact Hres | constructor].
Qed.

Lemma is_review_earlier (acts : list Action) (act : Action) (n : nat) :
  (n < length acts)%nat -> is_review (acts ++ [act]) n = is_review acts n.
Proof. intros Hn. unfold is_review. rewrite lookup_app_l by exact Hn. reflexivity. Qed.

Lemma is_review_latest (acts : list Action) (act : Action) :
  is_review (acts ++ [act]) (length acts)
  = match act with ClickLesson _ => true | _ => false end.
Proof.
  unfold is_review. rewrite lookup_app_r by reflexivity.
  rewrite Nat.sub_diag. reflexivity.
Qed.

Section CompletedLoop.
Context `{Builtins} `{!JSON UserProgress} `{!JSON (list Question.t)} `{!JSON string}
  `{!JSON Trends}.
Variable app : AppRevision.
Variable svc : ServiceRevision.

Let distinct (w : World) : Prop := NoDup (completed_of w).

Lemma same_completed_distinct (w w' : World) :
  same_completed w w' -> keeps distinct w w'.
Proof. intros Hs. constructor. unfold distinct. rewrite Hs. exact (fun Hd => Hd). Qed.

(** Each event keeps the completed lessons distinct, and leaves pending
    only promises that keep them so. *)
Lemma loop_step_distinct (e : LoopEvent) (l : Loop) :
  distinct (world l) -> Loop_frames (keeps distinct) l ->
  distinct (world (loop_step app svc l e))
  /\ Loop_frames (keeps distinct) (loop_step app svc l e).
Proof.
  intros Hd Hl.
  enough (Hstep : keeps distinct (world l) (world (loop_step app svc l e))
                  /\ Loop_frames (keeps distinct) (loop_step app svc l e)).
  { destruct Hstep as [[Hkeep] Hl']. split; [exact (Hkeep Hd) | exact Hl']. }
  destruct (others_keep_completed app svc)
    as (Hpractice & Htrends & Hrefresh & Hq & Hm & Hsubmit & Hclear).
  assert (Hmono : forall A (t : Task A), Task_frames same_completed t ->
                                         Task_frames (keeps distinct) t).
  { intros A t Ht w. eapply Promise_frames_mono; [apply same_completed_distinct | apply Ht]. }
  destruct e as [act|i ev]; cbn [loop_step];
    [|apply deliver_frames; first [exact (keeps_refl distinct) | exact (keeps_trans distinct) | exact Hl]].
  unfold dispatch.
  set (l0 := {| world := world l; pending := pending l;
                actions := Datatypes.S (actions l) |}).
  assert (Hl0 : Loop_frames (keeps distinct) l0) by exact Hl.
  change (world l) with (world l0).
  destruct act as [lesson|lesson|lesson forceNew| | | |id]; cbn [handle].
  - apply start_loop_frames_at; [apply keeps_refl | apply keeps_trans | | exact Hl0].
    apply handleReview_frames_from_render; [apply keeps_refl | apply keeps_trans | |].
    + intros w1 w2. apply same_completed_distinct.
    + intros w'. apply markCompleted_distinct. exact Hd.
  - destruct app; [split; [apply keeps_refl | exact Hl0]|].
    unfold AppPrefetch.prefetchLessonData.
    destruct (bool_decide (Lesson.id lesson ∈ prefetchQueue (world l0)));
      [split; [apply keeps_refl | exact Hl0]|].
    cbv zeta.
    match goal with
    | |- context [start_and_ignore ?n ?t2 (start_and_ignore ?n ?t1 ?l1)] =>
        destruct (start_and_ignore_frames (keeps distinct) (keeps_refl _) (keeps_trans _)
                    n t1 l1 (Hmono _ _ (Hq _ _ _)) Hl0) as [Hw1 Hl1];
        destruct (start_and_ignore_frames (keeps distinct) (keeps_refl _) (keeps_trans _)
                    n t2 (start_and_ignore n t1 l1) (Hmono _ _ (Hm _ _)) Hl1) as [Hw2 Hl2]
    end.
    split; [|exact Hl2].
    eapply keeps_trans; [|eapply keeps_trans; [exact Hw1 | exact Hw2]].
    apply same_completed_distinct. reflexivity.
  - apply start_frames;
      first [exact (keeps_refl distinct) | exact (keeps_trans distinct) | apply Hmono, Hpractice | exact Hl0].
  - apply start_frames;
      first [exact (keeps_refl distinct) | exact (keeps_trans distinct) | apply Hmono, Htrends | exact Hl0].
  - destruct app; [split; [apply keeps_refl | exact Hl0]|].
    apply start_frames;
      first [exact (keeps_refl distinct) | exact (keeps_trans distinct) | apply Hmono, Hrefresh | exact Hl0].
  - split; [apply same_completed_distinct, Hsubmit | exact Hl0].
  - split; [apply same_completed_distinct, Hclear | exact Hl0].
Qed.

Lemma loop_distinct (es : list LoopEvent) (l : Loop) :
  distinct (world l) -> Loop_frames (keeps distinct) l ->
  distinct (world (fold_left (loop_step app svc) es l)).
Proof.
  revert l. induction es as [|e es IH]; intros l Hd Hl; cbn [fold_left]; [exact Hd|].
  destruct (loop_step_distinct e l Hd Hl) as [Hd' Hl']. exact (IH _ Hd' Hl').
Qed.

End CompletedLoop.

Lemma review_relation_refl (acts : list Action) (base : list Z) (id : Z) (n : nat)
    (w : World) :
  review_relation acts base id n w w.
Proof.
  unfold review_relation. destruct (is_review acts n);
    [apply completes_refl | apply same_completed_refl].
Qed.

Lemma review_relation_trans (acts : list Action) (base : list Z) (id : Z) (n : nat)
    (w1 w2 w3 : World) :
  review_relation acts base id n w1 w2 -> review_relation acts base id n w2 w3 ->
  review_relation acts base id n w1 w3.
Proof.
  unfold review_relation. destruct (is_review acts n);
    [apply completes_trans | apply same_completed_trans].
Qed.

(** A step related by [review_relation] keeps the list at [base], with
    [id] appended or not. *)
Lemma review_relation_list (acts : list Action) (base : list Z) (id : Z) (n : nat)
    (w w' : World) :
  review_relation acts base id n w w' ->
  completed_of w = base \/ completed_of w = base ++ [id] ->
  completed_of w' = base \/ completed_of w' = base ++ [id].
Proof.
  unfold review_relation, completes, same_completed.
  destruct (is_review acts n); intros Hstep Hw.
  - destruct Hstep as [-> | ->]; [exact Hw | right; reflexivity].
  - rewrite Hstep. exact Hw.
Qed.

Lemma start_accounted_for {A} (acts : list Action) (base : list Z) (id : Z) (n : nat)
    (t : Task A) (l : Loop) :
  (n < length acts)%nat ->
  reviews_accounted acts base id l ->
  Promise_frames (review_relation acts base id n) (world l) (t (world l)) ->
  reviews_accounted acts base id (start n t l).
Proof.
  intros Hn (Hacts & Hall & Hlist) Ht.
  destruct (start_frames_at (review_relation acts base id n)
              (review_relation_refl acts base id n) (review_relation_trans acts base id n)
              n t l Ht) as [Hw Hres].
  unfold reviews_accounted, start in *. cbv zeta in *. cbn [world pending actions] in *.
  split; [exact Hacts|]. split.
  - destruct (settled (detach (t (world l)))); [exact Hall|].
    apply Forall_app. split; [exact Hall|].
    constructor; [split; [exact Hn | exact Hres] | constructor].
  - exact (review_relation_list acts base id n _ _ Hw Hlist).
Qed.

Lemma deliver_accounted_for (acts : list Action) (base : list Z) (id : Z) (i : nat)
    (ev : Arrival) (l : Loop) :
  reviews_accounted acts base id l -> reviews_accounted acts base id (deliver i ev l).
Proof.
  intros (Hacts & Hall & Hlist). unfold deliver.
  destruct (pending l !! i) as [[n p]|] eqn:Hi; [|repeat split; assumption].
  destruct (resume ev p (world l)) as [p'|] eqn:Hres; [|repeat split; assumption].
  destruct (proj1 (Forall_lookup _ _) Hall i _ Hi) as [Hn Hp]. cbn [fst snd] in Hn, Hp.
  assert (Hp' : Promise_frames (review_relation acts base id n) (world l) p').
  { destruct p as [r w|rq w k|ms w k], ev as [r'|]; cbn in Hres; try discriminate;
      injection Hres as <-; apply Hp. }
  destruct (frames_resumes (review_relation acts base id n) (world l) p' Hp') as [Hw Hk].
  unfold reviews_accounted. cbn [world pending actions].
  split; [exact Hacts|]. split.
  - destruct (settled p').
    + apply Forall_delete. exact Hall.
    + apply Forall_insert; [exact Hall | split; [exact Hn | exact Hk]].
  - exact (review_relation_list acts base id n _ _ Hw Hlist).
Qed.

(** After one more action the earlier promises are accounted for as
    before, when the base and the lesson stay, and also when they change
    provided that no earlier click on a lesson is pending. *)
Lemma accounted_later (acts : list Action) (act : Action) (base base' : list Z) (id id' : Z)
    (ps : list (nat * Promise unit)) :
  Forall (fun e => (fst e < length acts)%nat
                   /\ Promise_resumes (review_relation acts base id (fst e)) (snd e)) ps ->
  (base' = base /\ id' = id) \/ Forall (fun e => is_review acts (fst e) = false) ps ->
  Forall (fun e => (fst e < length (acts ++ [act]))%nat
                   /\ Promise_resumes (review_relation (acts ++ [act]) base' id' (fst e))
                        (snd e)) ps.
Proof.
  intros Hall Hcase. rewrite Forall_forall in Hall. apply Forall_forall.
  intros e He. destruct (Hall e He) as [Hn Hp].
  split; [rewrite length_app; cbn; lia|].
  unfold review_relation in *. rewrite (is_review_earlier acts act (fst e) Hn).
  destruct Hcase as [[-> ->]|Hnone]; [exact Hp|].
  rewrite Forall_forall in Hnone. rewrite (Hnone e He) in *. exact Hp.
Qed.

Section CompletedGrowth.
Context `{Builtins} `{!JSON UserProgress} `{!JSON (list Question.t)} `{!JSON string}
  `{!JSON Trends}.
Variable app : AppRevision.
Variable svc : ServiceRevision.

(** A user action, from a loop whose promises are accounted for: a click
    on a lesson, made while no earlier click on a lesson is pending,
    takes the present list as its base; every other action keeps the
    base. *)
Lemma dispatch_accounted_for (act : Action) (acts : list Action) (base : list Z) (id : Z)
    (l : Loop) :
  reviews_accounted acts base id l ->
  match act with
  | ClickLesson _ => Forall (fun e => is_review acts (fst e) = false) (pending l)
  | _ => True
  end ->
  exists base' id',
    reviews_accounted (acts ++ [act]) base' id' (loop_step app svc l (User act))
    /\ base `prefix_of` base'.
Proof.
  intros (Hacts & Hall & Hlist) Hapart.
  destruct (others_keep_completed app svc)
    as (Hpractice & Htrends & Hrefresh & Hq & Hm & Hsubmit & Hclear).
  cbn [loop_step]. unfold dispatch. rewrite Hacts.
  set (l0 := {| world := world l; pending := pending l;
                actions := Datatypes.S (length acts) |}).
  assert (Htag : (length acts < length (acts ++ [act]))%nat)
    by (rewrite length_app; cbn; lia).
  assert (Hl0 : forall base' id',
            (base' = base /\ id' = id)
            \/ (Forall (fun e => is_review acts (fst e) = false) (pending l)
                /\ base' = completed_of (world l)) ->
            reviews_accounted (acts ++ [act]) base' id' l0).
  { intros base' id' Hcase. split; [cbn; rewrite length_app; cbn; lia|]. split.
    - apply (accounted_later acts act base base' id id' (pending l) Hall).
      destruct Hcase as [Hsame|[Hnone _]]; [left; exact Hsame | right; exact Hnone].
    - cbn [world l0]. destruct Hcase as [[-> ->]|[_ ->]]; [exact Hlist | left; reflexivity]. }
  assert (Hother : forall A (t : Task A),
            is_review (acts ++ [act]) (length acts) = false ->
            Task_frames same_completed t ->
            reviews_accounted (acts ++ [act]) base id (start (length acts) t l0)).
  { intros A t Hkind Ht.
    apply start_accounted_for; [exact Htag | apply Hl0; left; split; reflexivity|].
    unfold review_relation. rewrite Hkind. apply Ht. }
  assert (Hignored : forall A (t : Task A) l1,
            is_review (acts ++ [act]) (length acts) = false ->
            Task_frames same_completed t ->
            reviews_accounted (acts ++ [act]) base id l1 ->
            reviews_accounted (acts ++ [act]) base id (start_and_ignore (length acts) t l1)).
  { intros A t l1 Hkind Ht Hl1. unfold start_and_ignore.
    apply start_accounted_for; [exact Htag | exact Hl1|].
    unfold review_relation. rewrite Hkind.
    apply (frames_try_catch same_completed same_completed_trans).
    - apply frames_await; [exact same_completed_trans | exact Ht|].
      intros a. apply frames_resolve. exact same_completed_refl.
    - intros e. apply frames_resolve. exact same_completed_refl. }
  assert (Hsync : forall w, same_completed (world l) w ->
            reviews_accounted (acts ++ [act]) base id (with_world w l0)).
  { intros w Hw. destruct (Hl0 base id (or_introl (conj eq_refl eq_refl)))
      as (Ha & Hp & _).
    split; [exact Ha|]. split; [exact Hp|]. cbn [with_world world]. rewrite Hw. exact Hlist. }
  pose proof (is_review_latest acts act) as Hlatest.
  destruct act as [lesson|lesson|lesson forceNew| | | |id0]; cbn [handle].
  - exists (completed_of (world l)), (Lesson.id lesson). split.
    + apply start_accounted_for; [exact Htag | apply Hl0; right; split; [exact Hapart|reflexivity]|].
      unfold review_relation. rewrite Hlatest. cbn [world l0].
      apply handleReview_frames_from_render;
        [apply completes_refl | apply completes_trans | |].
      * intros w1 w2 Hs. left. exact Hs.
      * intros w'. apply markCompleted_completes.
    + destruct Hlist as [-> | ->]; [reflexivity | apply prefix_app_r; reflexivity].
  - exists base, id. split; [|reflexivity].
    destruct app; [apply Hl0; left; split; reflexivity|].
    unfold AppPrefetch.prefetchLessonData.
    destruct (bool_decide (Lesson.id lesson ∈ prefetchQueue (world l0)));
      [apply Hl0; left; split; reflexivity|].
    cbv zeta. apply Hignored; [exact Hlatest | apply Hm|].
    apply Hignored; [exact Hlatest | apply Hq|].
    apply (Hsync (set_prefetchQueue _ (world l))). reflexivity.
  - exists base, id. split; [|reflexivity]. apply Hother; [exact Hlatest | apply Hpractice].
  - exists base, id. split; [|reflexivity]. apply Hother; [exact Hlatest | apply Htrends].
  - exists base, id. split; [|reflexivity].
    destruct app; [apply Hl0; left; split; reflexivity|].
    apply Hother; [exact Hlatest | apply Hrefresh].
  - exists base, id. split; [|reflexivity]. apply Hsync, Hsubmit.
  - exists base, id. split; [|reflexivity]. apply Hsync, Hclear.
Qed.

Lemma loop_grows (es : list LoopEvent) (acts : list Action) (base : list Z) (id : Z)
    (l : Loop) :
  reviews_accounted acts base id l ->
  reviews_apart app svc es acts l ->
  base `prefix_of` completed_of (world (fold_left (loop_step app svc) es l)).
Proof.
  revert acts base id l. induction es as [|e es IH]; intros acts base id l Hl Hapart;
    cbn [fold_left].
  - destruct Hl as (_ & _ & [-> | ->]); [reflexivity | apply prefix_app_r; reflexivity].
  - destruct e as [act|i ev]; cbn [reviews_apart] in Hapart.
    + destruct Hapart as [Hnow Hrest].
      destruct (dispatch_accounted_for act acts base id l Hl Hnow)
        as (base' & id' & Hl' & Hpre).
      transitivity base'; [exact Hpre|].
      exact (IH _ _ _ _ Hl' Hrest).
    + apply (IH acts base id); [|exact Hapart].
      cbn [loop_step]. apply deliver_accounted_for. exact Hl.
Qed.

End CompletedGrowth.

Lemma no_review_pending (acts : list Action) (ps : list (nat * Promise unit)) :
  Forall (fun e => is_review acts (fst e) = false) ps
  <-> forallb (fun e => negb (is_review acts (fst e))) ps = true.
Proof.
  rewrite forallb_forall, Forall_forall. split; intros Hall e He.
  - apply list_elem_of_In in He. rewrite (Hall e He). reflexivity.
  - apply negb_true_iff. apply Hall. apply list_elem_of_In. exact He.
Qed.

(** C10, as amended: [completedLessons] never holds a lesson twice,
    whatever the order in which clicks, hovers, replies and timers
    arrive. [handleReview lesson], run to its end, leaves the record of
    its own render as it is or appends [lesson.id] to that record's
    list, and appends only when the id is not yet there; so the list
    only grows, the former list being a prefix of the new one, as long
    as no lesson is clicked while the handler of an earlier click on a
    lesson is still pending. [calculateScore] and [clearWrongQuestion]
    leave the list alone, and logging out leaves no user. When one
    [handleReview] starts before another has ended, the one that ends
    last writes the list its own render saw and so can drop the entry
    the other has added. *)
Theorem completedLessons_distinct_and_growing `{Builtins} `{!JSON UserProgress}
    `{!JSON (list Question.t)} `{!JSON string} `{!JSON Trends}
    (app : AppRevision) (svc : ServiceRevision) (es : list LoopEvent) (w : World) :
  NoDup (completed_of w) ->
  let l := loop_run app svc es w in
  NoDup (completed_of (world l))
  /\ (reviews_apart app svc es [] (idle w) ->
      completed_of w `prefix_of` completed_of (world l))
  /\ (forall u lesson net,
        user w = Some u ->
        let r := run net (handleReview_of app svc lesson) w in
        (user (final r) = Some u
         /\ (result r = Ok tt -> Lesson.id lesson ∈ completedLessons u))
        \/ ((Lesson.id lesson ∉ completedLessons u)
            /\ user (final r) = Some (with_completed u lesson)))
  /\ completed_of (snd (calculateScore_of app w)) = completed_of w
  /\ (forall id, completed_of (clearWrongQuestion id w) = completed_of w)
  /\ user (snd (logout w)) = None.
Proof.
  intros Hnd. cbv zeta.
  destruct (others_keep_completed app svc) as (_ & _ & _ & _ & _ & Hsubmit & Hclear).
  split; [|split; [|split; [|split; [|split]]]].
  - unfold loop_run. apply loop_distinct; [exact Hnd | constructor].
  - intros Hapart. unfold loop_run.
    apply (loop_grows app svc es [] (completed_of w) 0 (idle w)); [|exact Hapart].
    split; [reflexivity|]. split; [constructor | left; reflexivity].
  - intros u lesson net Hu. apply handleReview_user. exact Hu.
  - apply Hsubmit.
  - intros id. apply Hclear.
  - unfold logout, loadUser. cbn [localStorage initialState].
    rewrite lookup_delete_eq. reflexivity.
Qed.

(** C10 as stated fails: a lesson is clicked, a second lesson is clicked
    before the mind map of the first has arrived, and the two replies
    arrive. After the first reply lesson 1 is completed; after the second
    the list holds lesson 2 alone. No log-out took place. *)
Lemma completedLessons_distinct_and_growing_counterexample :
  let logged_in : World := @saveUserProgress Sample.user_JSON Sample.nobody Sample.blank in
  let mindmap : Arrival := Replied (Ok {| text := Some "map"; groundingChunks := None |}) in
  let clicks : list LoopEvent :=
    [User (ClickLesson Sample.lesson1); User (ClickLesson SampleRuns.lesson2);
     Arrives 0 mindmap] in
  let run_loop :=
    @loop_run Sample.builtins Sample.user_JSON Sample.questions_JSON Sample.string_JSON
      Sample.trends_JSON Banner Backoff in
  completed_of logged_in = []
  /\ completed_of (world (run_loop clicks logged_in)) = [1]
  /\ completed_of (world (run_loop (clicks ++ [Arrives 0 mindmap]) logged_in)) = [2]
  /\ ~ [1] `prefix_of` [2]
  /\ ~ @reviews_apart Sample.builtins Sample.user_JSON Sample.questions_JSON
         Sample.string_JSON Sample.trends_JSON Banner Backoff
         (clicks ++ [Arrives 0 mindmap]) [] (idle logged_in).
Proof.
  cbv zeta. split; [reflexivity|]. split; [vm_compute; reflexivity|].
  split; [vm_compute; reflexivity|]. split.
  - intros [k Hk]. discriminate Hk.
  - cbn [reviews_apart List.app]. intros (_ & Hsecond & _).
    apply no_review_pending in Hsecond. vm_compute in Hsecond. discriminate Hsecond.
Qed.

Lemma completedLessons_distinct_and_growing_witness :
  let logged_in : World := @saveUserProgress Sample.user_JSON Sample.nobody Sample.blank in
  let mindmap : Arrival := Replied (Ok {| text := Some "map"; groundingChunks := None |}) in
  let es : list LoopEvent :=
    [User (ClickLesson Sample.lesson1); Arrives 0 mindmap;
     User (HoverLesson SampleRuns.lesson2); User (ClickLesson SampleRuns.lesson2);
     User SubmitQuiz; Arrives 2 mindmap] in
  let l :=
    @loop_run Sample.builtins Sample.user_JSON Sample.questions_JSON Sample.string_JSON
      Sample.trends_JSON Prefetch Timestamp es logged_in in
  NoDup (completed_of (world l))
  /\ completed_of logged_in `prefix_of` completed_of (world l)
  /\ completed_of (world l) = [1; 2].
Proof.
  cbv zeta.
  assert (Hnd : NoDup (completed_of
                         (@saveUserProgress Sample.user_JSON Sample.nobody Sample.blank)))
    by constructor.
  destruct (@completedLessons_distinct_and_growing Sample.builtins Sample.user_JSON
              Sample.questions_JSON Sample.string_JSON Sample.trends_JSON Prefetch Timestamp
              [User (ClickLesson Sample.lesson1);
               Arrives 0 (Replied (Ok {| text := Some "map"; groundingChunks := None |}));
               User (HoverLesson SampleRuns.lesson2); User (ClickLesson SampleRuns.lesson2);
               User SubmitQuiz;
               Arrives 2 (Replied (Ok {| text := Some "map"; groundingChunks := None |}))]
              (@saveUserProgress Sample.user_JSON Sample.nobody Sample.blank) Hnd)
    as (Hdistinct & Hgrows & _).
  split; [exact Hdistinct|]. split; [|vm_compute; reflexivity].
  apply Hgrows.
  cbn [reviews_apart List.app]. repeat split.
  - constructor.
  - apply no_review_pending. vm_compute. reflexivity.
Defined.
